(** * Community platform (Flask + MongoDB): a shallow embedding of [app.py]

    The development follows the layout of the program: the BSON values and
    documents it stores, the Python dictionaries it builds from a submitted
    form, the MongoDB operations it calls, and then the helpers and request
    handlers of [app.py] in the order of the source.  The theorems about
    them come last. *)

From Stdlib Require Import ZArith NArith String Ascii List Lia Bool.
From stdpp Require Import base option list gmap strings sorting pretty.

Local Open Scope string_scope.
Local Open Scope list_scope.
Local Open Scope Z_scope.

(** ** Values and documents *)

(** A [bson.ObjectId] is its bytes.  The ids the driver generates, and
    those built from 24 hex digits, have 12 bytes and are kept as the number
    below [2^96] that their bytes spell; two of them are equal when their
    bytes are, whatever the case of the digits they were built from.
    [ObjectId(text)] also accepts a text of 24 characters in which blanks
    stand between pairs of hex digits, and then builds an id of fewer
    bytes: an id of [len < 12] bytes that spell [v] is kept as
    [(len + 1) * 2^96 + v].  Such an id is looked up like any other and is
    the id of no document that carries an id of 12 bytes. *)
Definition ObjectId := N.

(** What a field of a document or of a Python dictionary can hold in this
    program: [None], a boolean, an integer counter, a string, a [datetime]
    (microseconds since the epoch), an object id, or a list of strings (the
    split [requirements]). *)
Inductive value :=
| VNone
| VBool (b : bool)
| VInt (n : Z)
| VStr (s : string)
| VTime (t : Z)
| VOid (o : ObjectId)
| VList (l : list string).

#[global] Instance value_eq_dec : EqDecision value.
Proof. unfold ObjectId. solve_decision. Defined.

(** A stored document is a finite map from field names to values. *)
Abbreviation doc := (gmap string value).

(** ** Strings *)

Definition ascii_in (lo hi : N) (c : ascii) : bool :=
  let n := N_of_ascii c in ((lo <=? n) && (n <=? hi))%N.

Definition hex_digit (c : ascii) : option N :=
  let n := N_of_ascii c in
  if ascii_in 48 57 c then Some (n - 48)%N
  else if ascii_in 97 102 c then Some (n - 87)%N
  else if ascii_in 65 70 c then Some (n - 55)%N
  else None.

(** The blanks of [bytes.fromhex] (C's [isspace]): the bytes 9 to 13
    and 32. *)
Definition is_blank (c : ascii) : bool :=
  ascii_in 9 13 c || (N_of_ascii c =? 32)%N.

(** [bytes.fromhex(s)]: pairs of hex digits, with blanks allowed before,
    between and after the pairs; the answer is the number of bytes read and
    the number they spell. *)
Fixpoint fromhex (len : nat) (acc : N) (s : string) : option (nat * N) :=
  match s with
  | EmptyString => Some (len, acc)
  | String a s1 =>
      if is_blank a then fromhex len acc s1
      else
        match hex_digit a, s1 with
        | Some top, String b s2 =>
            match hex_digit b with
            | Some bot => fromhex (S len) (256 * acc + 16 * top + bot)%N s2
            | None => None
            end
        | _, _ => None
        end
  end.

Definition oid_of_bytes (len : nat) (v : N) : ObjectId :=
  if (len =? 12)%nat then v else ((N.of_nat len + 1) * 2 ^ 96 + v)%N.

(** [ObjectId(oid)] for a string: 24 characters that [bytes.fromhex]
    reads; anything else raises [InvalidId] ([None] here). *)
Definition ObjectId_of_string (oid : string) : option ObjectId :=
  if (String.length oid =? 24)%nat
  then (fun lv => oid_of_bytes lv.1 lv.2) <$> fromhex 0 0 oid
  else None.

(** [ObjectId.is_valid(oid)] *)
Definition ObjectId_is_valid (oid : string) : bool :=
  bool_decide (is_Some (ObjectId_of_string oid)).

(** [s.replace(c, r)] for a one-character pattern. *)
Fixpoint replace_char (c : ascii) (r : string) (s : string) : string :=
  match s with
  | EmptyString => EmptyString
  | String a s' =>
      if Ascii.eqb a c then r +:+ replace_char c r s'
      else String a (replace_char c r s')
  end.

(** Text is kept as the bytes of its UTF-8 encoding: a character is one
    byte below 128, or a lead byte followed by continuation bytes
    [10xxxxxx]. *)
Definition is_continuation (c : ascii) : bool := ascii_in 128 191 c.

Definition is_ascii (s : string) : bool :=
  forallb (fun c => (N_of_ascii c <? 128)%N) (list_ascii_of_string s).

(** [len(s)]: the number of characters. *)
Fixpoint py_len (s : string) : nat :=
  match s with
  | EmptyString => O
  | String a s' => if is_continuation a then py_len s' else S (py_len s')
  end.

(** [s[:n]]: the first [n] characters. *)
Fixpoint py_prefix (n : nat) (s : string) : string :=
  match s with
  | EmptyString => EmptyString
  | String a s' =>
      if is_continuation a then String a (py_prefix n s')
      else match n with
           | O => EmptyString
           | S n' => String a (py_prefix n' s')
           end
  end.

(** The characters [str.isspace] accepts.  Below 128 they are the bytes 9
    to 13 and 28 to 32; beyond, U+0085 and U+00A0 (two bytes), and U+1680,
    U+2000 to U+200A, U+2028, U+2029, U+202F, U+205F and U+3000 (three
    bytes). *)
Definition is_space (c : ascii) : bool :=
  ascii_in 9 13 c || ascii_in 28 32 c.

Definition is_space2 (a b : ascii) : bool :=
  let a := N_of_ascii a in
  let b := N_of_ascii b in
  ((a =? 194) && ((b =? 133) || (b =? 160)))%N.

Definition is_space3 (a b c : ascii) : bool :=
  let a := N_of_ascii a in
  let b := N_of_ascii b in
  let c := N_of_ascii c in
  (((a =? 225) && (b =? 154) && (c =? 128))
   || ((a =? 226) && (b =? 128)
       && (((128 <=? c) && (c <=? 138)) || (c =? 168) || (c =? 169) || (c =? 175)))
   || ((a =? 226) && (b =? 129) && (c =? 159))
   || ((a =? 227) && (b =? 128) && (c =? 128)))%N.

(** [s.lstrip()] *)
Fixpoint lstrip (s : string) : string :=
  match s with
  | EmptyString => EmptyString
  | String a s1 =>
      if is_space a then lstrip s1
      else
        match s1 with
        | EmptyString => s
        | String b s2 =>
            if is_space2 a b then lstrip s2
            else
              match s2 with
              | EmptyString => s
              | String c s3 => if is_space3 a b c then lstrip s3 else s
              end
        end
  end.

Definition string_rev (s : string) : string :=
  string_of_list_ascii (rev (list_ascii_of_string s)).

(** [s.rstrip()] on the text read backwards: the bytes of a character
    come last byte first. *)
Fixpoint rstrip_rev (s : string) : string :=
  match s with
  | EmptyString => EmptyString
  | String c s1 =>
      if is_space c then rstrip_rev s1
      else
        match s1 with
        | EmptyString => s
        | String b s2 =>
            if is_space2 b c then rstrip_rev s2
            else
              match s2 with
              | EmptyString => s
              | String a s3 => if is_space3 a b c then rstrip_rev s3 else s
              end
        end
  end.

(** [s.strip()] *)
Definition strip (s : string) : string :=
  string_rev (rstrip_rev (string_rev (lstrip s))).

(** [s.split(',')], with the piece being read carried in [cur]. *)
Fixpoint split_comma_aux (cur : string) (s : string) : list string :=
  match s with
  | EmptyString => [string_rev cur]
  | String a s' =>
      if Ascii.eqb a ","%char then string_rev cur :: split_comma_aux EmptyString s'
      else split_comma_aux (String a cur) s'
  end.

Definition split_comma (s : string) : list string := split_comma_aux EmptyString s.

(** [[r.strip() for r in s.split(',') if r.strip()]] *)
Definition split_requirements (s : string) : list string :=
  List.filter (fun r => negb (String.eqb r "")) (strip <$> split_comma s).

(** ** Python values *)

(** Truth value of a Python object, as [if x], [not x] and [x or y] see it. *)
Definition truthy (v : value) : bool :=
  match v with
  | VNone => false
  | VBool b => b
  | VInt n => negb (n =? 0)
  | VStr s => negb (String.eqb s "")
  | VTime _ => true
  | VOid _ => true
  | VList l => match l with [] => false | _ => true end
  end.

(** [a or b] *)
Definition py_or (a b : value) : value := if truthy a then a else b.

(** [v[:n]]: a prefix of a string or of a list; other values are not
    subscriptable ([TypeError], [None] here). *)
Definition py_slice_to (n : nat) (v : value) : option value :=
  match v with
  | VStr s => Some (VStr (py_prefix n s))
  | VList l => Some (VList (take n l))
  | _ => None
  end.

(** ** Python dictionaries

    A [dict] keeps its keys in insertion order, and [admin_edit_content]
    iterates over them, so the dictionary built from the form is an
    association list with unique keys: assigning to a key that is present
    keeps its place, a new key goes to the end. *)
Abbreviation pydict := (list (string * value)).

Fixpoint py_get {A} (k : string) (d : list (string * A)) : option A :=
  match d with
  | [] => None
  | (k', v) :: d' => if String.eqb k' k then Some v else py_get k d'
  end.

(** [d.get(k, default)]; [d.get(k)] is [py_get_default k VNone d]. *)
Definition py_get_default (k : string) (default : value) (d : pydict) : value :=
  match py_get k d with Some v => v | None => default end.

(** [d[k]] where the program has just tested or assigned the key. *)
Definition py_item (k : string) (d : pydict) : value := py_get_default k VNone d.

(** [k in d] *)
Definition py_in {A} (k : string) (d : list (string * A)) : bool :=
  match py_get k d with Some _ => true | None => false end.

(** [d[k] = v] *)
Fixpoint py_set (k : string) (v : value) (d : pydict) : pydict :=
  match d with
  | [] => [(k, v)]
  | (k', v') :: d' =>
      if String.eqb k' k then (k', v) :: d' else (k', v') :: py_set k v d'
  end.

(** [del d[k]] *)
Fixpoint py_del (k : string) (d : pydict) : pydict :=
  match d with
  | [] => []
  | (k', v') :: d' => if String.eqb k' k then d' else (k', v') :: py_del k d'
  end.

(** [list(d.keys())] *)
Definition py_keys (d : pydict) : list string := d.*1.

(** The document the driver stores for a dictionary. *)
Definition to_bson (d : pydict) : doc := list_to_map d.

(** ** Errors

    Exceptions the modelled code can raise.  A handler that does not catch
    one answers with Flask's 500 page. *)
Inductive exn :=
| InvalidId
| KeyError (k : string)
| TypeError
| AttributeError
| ValueError
| WriteError.

Definition result (A : Type) : Type := exn + A.

Definition ok {A} (a : A) : result A := inr a.
Definition raise {A} (x : exn) : result A := inl x.

Definition rbind {A B} (m : result A) (k : A -> result B) : result B :=
  match m with inl x => inl x | inr a => k a end.

Notation "'let*' x := m 'in' k" := (rbind m (fun x => k))
  (at level 10, x pattern, m at level 100, k at level 200).

(** ** The request and the outside world *)

Inductive http_method := GET | POST.

(** An uploaded file of [request.files]. *)
Record upload := { filename : string; payload : string }.

Record request := {
  method : http_method;
  form : list (string * string);    (* request.form, in the order submitted *)
  args : list (string * string);    (* request.args *)
  files : list (string * upload);   (* request.files *)
  remote_addr : value;              (* request.remote_addr *)
  session_user_id : option string;  (* session.get('user_id') *)
  session_is_admin : bool           (* session.get('is_admin') *)
}.

(** ** MongoDB *)

Inductive collection :=
| users_collection
| jobs_collection
| workshops_collection
| courses_collection
| hackathons_collection
| roadmaps_collection
| websites_collection
| ads_collection
| ad_clicks_collection.

#[global] Instance collection_eq_dec : EqDecision collection.
Proof. solve_decision. Defined.

(** What the program obtains from outside itself during one request: the
    clock, the ids the driver generates for inserted documents (in order of
    use), the answer of the image service ([None] when the uploader raises),
    the regular-expression and text-index engines and the random sampler of
    the database, and [datetime.fromisoformat] on text that is not the text
    of a stored datetime.  Successive readings of the clock within one
    request are taken to be the same instant.  From the interpreter come
    the decimal digit that the Unicode database gives a character beyond
    127 (the character is given by its bytes) and the longest run of digits
    [int] accepts (4300 by default since Python 3.11; 0 for no limit), and
    [str.lower] on a text that is not all ASCII, the whole part of a
    floating-point quotient where rounding can decide it, and the text of
    a datetime.  The cache of [time_ago] outlives the request: what it
    holds when the request arrives, most recently used entry first, is
    part of this record. *)
Record env := {
  utcnow : Z;
  new_oid : nat -> ObjectId;
  cloudinary_upload : upload -> option string;
  regex_search_i : string -> string -> bool;
  text_search : collection -> string -> list doc -> option (list (doc * value));
  sample : nat -> list doc -> list doc;
  fromisoformat : string -> option Z;
  unicode_decimal : string -> option N;
  int_max_str_digits : nat;
  unicode_lower : string -> string;
  float_int_div : Z -> Z -> Z;
  isoformat : Z -> string;
  time_ago_cache : list (string * string)
}.

(** The database: the documents of each collection, in natural order. *)
Definition db := collection -> list doc.

Definition db_put (c : collection) (l : list doc) (st : db) : db :=
  fun c' => if decide (c' = c) then l else st c'.

(** A condition on one field, and a filter document: either a dictionary of
    field conditions, all of which must hold, or an [$or] of such. *)
Inductive cond :=
| CEq (v : value)          (* {k: v} *)
| CNe (v : value)          (* {k: {'$ne': v}} *)
| CRegexI (pat : string)   (* {k: {'$regex': pat, '$options': 'i'}} *)
| CGte (v : value).        (* {k: {'$gte': v}} *)

Inductive query :=
| QFields (fs : list (string * cond))
| QOr (alts : list (list (string * cond))).

(** Equality with [None] also matches a missing field. *)
Definition match_eq (v : value) (o : option value) : bool :=
  match o with
  | Some w => bool_decide (w = v)
  | None => bool_decide (v = VNone)
  end.

Definition match_cond (e : env) (c : cond) (o : option value) : bool :=
  match c with
  | CEq v => match_eq v o
  | CNe v => negb (match_eq v o)
  | CRegexI pat =>
      match o with Some (VStr s) => regex_search_i e pat s | _ => false end
  | CGte v =>
      match o, v with
      | Some (VTime a), VTime b => b <=? a
      | Some (VInt a), VInt b => b <=? a
      | _, _ => false
      end
  end.

Definition match_fields (e : env) (fs : list (string * cond)) (d : doc) : bool :=
  forallb (fun kc => match_cond e kc.2 (d !! kc.1)) fs.

Definition matches (e : env) (q : query) (d : doc) : bool :=
  match q with
  | QFields fs => match_fields e fs d
  | QOr alts => existsb (fun fs => match_fields e fs d) alts
  end.

(** [{k: v}] *)
Definition by_field (k : string) (v : value) : query := QFields [(k, CEq v)].

(** Projections: all fields, all but some, or [_id] and the listed ones. *)
Inductive projection :=
| PAll
| PExclude (ks : list string)
| PInclude (ks : list string).

Definition project (p : projection) (d : doc) : doc :=
  match p with
  | PAll => d
  | PExclude ks => foldr delete d ks
  | PInclude ks => filter (fun kv => kv.1 ∈ "_id" :: ks) d
  end.

(** Sorting by a date field.  A field that holds no date, or is missing,
    sorts below every date; documents without a date are not ordered among
    themselves. *)
Definition date_key (k : string) (d : doc) : option Z :=
  match d !! k with Some (VTime t) => Some t | _ => None end.

Definition key_le (x y : option Z) : Prop :=
  match x, y with
  | None, _ => True
  | Some _, None => False
  | Some a, Some b => a <= b
  end.

#[global] Instance key_le_dec x y : Decision (key_le x y).
Proof. destruct x, y; simpl; apply _. Defined.

(** [a] may come before [b] in [DESCENDING] order of field [k]. *)
Definition descending (k : string) (a b : doc) : Prop :=
  key_le (date_key k b) (date_key k a).

#[global] Instance descending_dec k a b : Decision (descending k a b).
Proof. unfold descending. apply _. Defined.

(** A cursor: the matching documents and the projection applied when the
    cursor is read. *)
Record cursor := { matched : list doc; shown : projection }.

Definition find (e : env) (q : query) (p : projection) (c : list doc) : cursor :=
  {| matched := List.filter (matches e q) c; shown := p |}.

Definition sort_descending (k : string) (cur : cursor) : cursor :=
  {| matched := merge_sort (descending k) (matched cur); shown := shown cur |}.

(** [cursor.skip(n)] raises [ValueError] for a negative [n]. *)
Definition skip (n : Z) (cur : cursor) : result cursor :=
  if n <? 0 then raise ValueError
  else ok {| matched := drop (Z.to_nat n) (matched cur); shown := shown cur |}.

Definition limit (n : nat) (cur : cursor) : cursor :=
  {| matched := take n (matched cur); shown := shown cur |}.

(** [list(cursor)] *)
Definition to_list (cur : cursor) : list doc := project (shown cur) <$> matched cur.

Definition find_one (e : env) (q : query) (p : projection) (c : list doc) : option doc :=
  head (to_list (find e q p c)).

Definition estimated_document_count (c : list doc) : Z := Z.of_nat (length c).

(** [insert_one(d)]: the driver adds a generated [_id] to a dictionary that
    has none; the answer is the inserted id. *)
Definition insert_one (fresh : ObjectId) (d : pydict) (c : list doc) : value * list doc :=
  let d := if py_in "_id" d then d else py_set "_id" (VOid fresh) d in
  (py_item "_id" d, c ++ [to_bson d]).

Inductive update :=
| USet (fields : pydict)       (* {'$set': fields} *)
| UInc (k : string) (n : Z).   (* {'$inc': {k: n}} *)

(** [$inc] creates a missing field and refuses a field that is not a
    number. *)
Definition apply_update (u : update) (d : doc) : result doc :=
  match u with
  | USet fields => ok (to_bson fields ∪ d)
  | UInc k n =>
      match d !! k with
      | None => ok (<[k := VInt n]> d)
      | Some (VInt m) => ok (<[k := VInt (m + n)]> d)
      | Some _ => raise WriteError
      end
  end.

(** [update_one(q, u)]: the first matching document is updated; the answer
    carries [matched_count]. *)
Fixpoint update_one (e : env) (q : query) (u : update) (c : list doc)
  : result (Z * list doc) :=
  match c with
  | [] => ok (0, [])
  | d :: c' =>
      if matches e q d then
        let* d' := apply_update u d in ok (1, d' :: c')
      else
        let* r := update_one e q u c' in ok (r.1, d :: r.2)
  end.

Fixpoint delete_one (e : env) (q : query) (c : list doc) : list doc :=
  match c with
  | [] => []
  | d :: c' => if matches e q d then c' else d :: delete_one e q c'
  end.

(** [delete_many(q)], with [deleted_count]. *)
Definition delete_many (e : env) (q : query) (c : list doc) : Z * list doc :=
  let kept := List.filter (fun d => negb (matches e q d)) c in
  (Z.of_nat (length c) - Z.of_nat (length kept), kept).

(** ** Handlers as state-passing computations

    A handler reads and writes the database and may raise.  What was written
    before an exception stays written. *)
Definition M (A : Type) : Type := db -> result A * db.

Definition pure {A} (a : A) : M A := fun st => (ok a, st).
Definition throw {A} (x : exn) : M A := fun st => (raise x, st).
Definition lift {A} (r : result A) : M A := fun st => (r, st).

Definition bindM {A B} (m : M A) (k : A -> M B) : M B :=
  fun st =>
    match m st with
    | (inl x, st') => (inl x, st')
    | (inr a, st') => k a st'
    end.

Notation "'let!' x := m 'in' k" := (bindM m (fun x => k))
  (at level 10, x pattern, m at level 100, k at level 200).

(** [try: m except Exception: h] *)
Definition try_except {A} (m : M A) (h : exn -> M A) : M A :=
  fun st =>
    match m st with
    | (inl x, st') => h x st'
    | (inr a, st') => (inr a, st')
    end.

Definition read (c : collection) : M (list doc) := fun st => (ok (st c), st).
Definition write (c : collection) (l : list doc) : M unit :=
  fun st => (ok tt, db_put c l st).

Definition insert_one_in (c : collection) (fresh : ObjectId) (d : pydict) : M value :=
  let! docs := read c in
  let r := insert_one fresh d docs in
  let! _ := write c r.2 in
  pure r.1.

Definition update_one_in (c : collection) (e : env) (q : query) (u : update) : M Z :=
  let! docs := read c in
  let! r := lift (update_one e q u docs) in
  let! _ := write c r.2 in
  pure r.1.

Definition delete_one_in (c : collection) (e : env) (q : query) : M unit :=
  let! docs := read c in
  write c (delete_one e q docs).

Definition delete_many_in (c : collection) (e : env) (q : query) : M Z :=
  let! docs := read c in
  let r := delete_many e q docs in
  let! _ := write c r.2 in
  pure r.1.

(** [ObjectId(s)] *)
Definition ObjectId_new (s : string) : result ObjectId :=
  match ObjectId_of_string s with
  | Some o => ok o
  | None => raise InvalidId
  end.

(** ** Responses *)

Record pagination := {
  page : Z;
  total_pages : Z;
  has_prev : bool;
  has_next : bool;
  prev_page : option Z;
  next_page : option Z
}.

Inductive json :=
| JObj (d : doc)
| JArr (l : list doc).

(** What a handler answers: a JSON body with a status, a redirect with the
    messages flashed, a rendered template with the documents and pagination
    handed to it, or the exception it let escape. *)
Inductive response :=
| Jsonify (body : json) (status : Z)
| RedirectTo (endpoint : string) (flashed : list (string * string))
| RenderTemplate (template : string) (context : list (string * list doc))
    (pages : option pagination)
| Failed (x : exn).

Definition respond (m : M response) (st : db) : response * db :=
  match m st with
  | (inl x, st') => (Failed x, st')
  | (inr a, st') => (a, st')
  end.

Definition json_error (msg : string) : json :=
  JObj (to_bson [("error", VStr msg)]).

Definition json_success (b : bool) (err : option string) : json :=
  JObj (to_bson (("success", VBool b) ::
                 match err with Some m => [("error", VStr m)] | None => [] end)).

(** ** Text helpers of the handlers *)

Definition upper (c : ascii) : ascii :=
  if ascii_in 97 122 c then ascii_of_N (N_of_ascii c - 32) else c.

Definition lower (c : ascii) : ascii :=
  if ascii_in 65 90 c then ascii_of_N (N_of_ascii c + 32) else c.

Fixpoint map_string (f : ascii -> ascii) (s : string) : string :=
  match s with
  | EmptyString => EmptyString
  | String a s' => String (f a) (map_string f s')
  end.

(** [s.lower()]: on ASCII text the letters A to Z change; other text is
    lowered by the Unicode tables of the interpreter. *)
Definition py_lower (e : env) (s : string) : string :=
  if is_ascii s then map_string lower s else unicode_lower e s.

(** [s.capitalize()] *)
Definition capitalize (s : string) : string :=
  match s with
  | EmptyString => EmptyString
  | String a s' => String (upper a) (map_string lower s')
  end.

Definition hex_char (d : N) : ascii :=
  if (d <? 10)%N then ascii_of_N (48 + d) else ascii_of_N (87 + d).

Fixpoint hex_digits (n : nat) (o : N) (acc : string) : string :=
  match n with
  | O => acc
  | S n' => hex_digits n' (o / 16)%N (String (hex_char (o mod 16)%N) acc)
  end.

Definition join_quoted (l : list string) : string :=
  String.concat ", " ((fun s => "'" +:+ s +:+ "'") <$> l).

(** [str(v)] for the values the handlers turn into text (ids): an id is
    shown by two hex digits for each of its bytes; a datetime is shown by
    its number of microseconds. *)
Definition py_str (v : value) : string :=
  match v with
  | VNone => "None"
  | VBool b => if b then "True" else "False"
  | VInt n => pretty n
  | VStr s => s
  | VTime t => pretty t
  | VOid o =>
      if (o <? 2 ^ 96)%N then hex_digits 24 o ""
      else hex_digits (2 * (N.to_nat (o / 2 ^ 96) - 1)) (o mod 2 ^ 96)%N ""
  | VList l => "[" +:+ join_quoted l +:+ "]"
  end.

Definition digit (c : ascii) : option Z :=
  if ascii_in 48 57 c then Some (Z.of_N (N_of_ascii c) - 48) else None.

(** [int(s)] goes in two steps.  First the text is rewritten to ASCII: a
    character below 127 stays, a white-space character beyond becomes a
    blank, a decimal digit of another script becomes its ASCII digit, and
    any other character is refused.  A character beyond 127 has the number
    of bytes its lead byte announces. *)
Definition ascii_digit (e : env) (character : string) : option ascii :=
  match unicode_decimal e character with
  | Some d => if (d <? 10)%N then Some (ascii_of_N (48 + d)) else None
  | None => None
  end.

Fixpoint int_to_ascii (e : env) (s : string) : option string :=
  match s with
  | EmptyString => Some EmptyString
  | String a s1 =>
      if (N_of_ascii a <? 127)%N then String a <$> int_to_ascii e s1
      else if (N_of_ascii a <? 192)%N then None
      else
        match s1 with
        | EmptyString => None
        | String b s2 =>
            if ascii_in 192 223 a then
              if is_space2 a b then String " " <$> int_to_ascii e s2
              else
                match ascii_digit e (String a (String b "")) with
                | Some d => String d <$> int_to_ascii e s2
                | None => None
                end
            else
              match s2 with
              | EmptyString => None
              | String c s3 =>
                  if ascii_in 224 239 a then
                    if is_space3 a b c then String " " <$> int_to_ascii e s3
                    else
                      match ascii_digit e (String a (String b (String c ""))) with
                      | Some d => String d <$> int_to_ascii e s3
                      | None => None
                      end
                  else
                    match s3 with
                    | EmptyString => None
                    | String d s4 =>
                        match ascii_digit e
                                (String a (String b (String c (String d "")))) with
                        | Some d => String d <$> int_to_ascii e s4
                        | None => None
                        end
                    end
              end
        end
  end.

Fixpoint skip_blanks (s : string) : string :=
  match s with
  | EmptyString => EmptyString
  | String a s' => if is_blank a then skip_blanks s' else s
  end.

(** The digits after the first one: a digit, or one underscore and a
    digit, as long as there are any.  The answer is the number read, how
    many digits it had, and what follows. *)
Fixpoint read_digits (acc : Z) (count : nat) (s : string) : option (Z * nat * string) :=
  match s with
  | EmptyString => Some (acc, count, EmptyString)
  | String a s1 =>
      match digit a with
      | Some d => read_digits (10 * acc + d) (S count) s1
      | None =>
          if Ascii.eqb a "_" then
            match s1 with
            | EmptyString => None
            | String b s2 =>
                match digit b with
                | Some d => read_digits (10 * acc + d) (S count) s2
                | None => None
                end
            end
          else Some (acc, count, s)
      end
  end.

(** Then the ASCII text is read: blanks, a sign, digits, blanks, and
    nothing else; too long a run of digits is refused. *)
Definition int_of_ascii (limit : nat) (s : string) : option Z :=
  let s := skip_blanks s in
  let signed :=
    match s with
    | String "+" s' => (1, s')
    | String "-" s' => (-1, s')
    | _ => (1, s)
    end in
  match signed.2 with
  | EmptyString => None
  | String a s1 =>
      match digit a with
      | None => None
      | Some d =>
          match read_digits d 1 s1 with
          | None => None
          | Some (n, count, rest) =>
              if negb (String.eqb (skip_blanks rest) "") then None
              else if Nat.ltb 0 limit && Nat.ltb limit count then None
              else Some (signed.1 * n)
          end
      end
  end.

(** [int(s)]; [None] stands for [ValueError]. *)
Definition int_of_string (e : env) (s : string) : option Z :=
  match int_to_ascii e s with
  | Some text => int_of_ascii (int_max_str_digits e) text
  | None => None
  end.

(** [request.args.get(k, default, type=int)] *)
Definition args_get_int (e : env) (k : string) (default : Z) (r : request) : Z :=
  match py_get k (args r) with
  | Some s => match int_of_string e s with Some n => n | None => default end
  | None => default
  end.

(** [request.args.get(k)] as a Python value. *)
Definition args_get (k : string) (r : request) : value :=
  match py_get k (args r) with Some s => VStr s | None => VNone end.

(** [session.get('user_id')] *)
Definition session_get_user_id (r : request) : value :=
  match session_user_id r with Some u => VStr u | None => VNone end.

(** [session['user_id']] *)
Definition session_user (r : request) : result string :=
  match session_user_id r with Some u => ok u | None => raise (KeyError "user_id") end.

(** ** Constants and helper functions of [app.py] *)

Definition ITEMS_PER_PAGE : Z := 30.

Definition login_required (r : request) (f : M response) : M response :=
  match session_user_id r with
  | None => pure (RedirectTo "login" [("Please login to access this page", "warning")])
  | Some _ => f
  end.

Definition admin_required (r : request) (f : M response) : M response :=
  if negb (bool_decide (is_Some (session_user_id r))) || negb (session_is_admin r)
  then pure (RedirectTo "login" [("Admin access required", "danger")])
  else f.

(** The duration [diff] is a [timedelta], a whole number of microseconds,
    and [diff.total_seconds()] is the float nearest to its seconds.

    [seconds_lt diff n] is [diff.total_seconds() < n]: the thresholds are
    whole numbers of seconds, which a float holds exactly, and rounding to
    the nearest float keeps the order, so the test holds exactly when the
    duration is below [n] seconds.

    [int_seconds_div e diff n] is [int(diff.total_seconds() / n)].  For a
    duration below 1024 months (of 30 days) neither rounding, of the
    seconds and of the quotient, reaches the next whole number, and the
    count is the whole quotient.  Beyond that rounding can decide, and the
    count is what the division of the interpreter gives. *)
Definition seconds_lt (diff n : Z) : bool := diff <? n * 1000000.

Definition float_exact_below : Z := 1024 * 2592000 * 1000000.

Definition int_seconds_div (e : env) (diff n : Z) : Z :=
  if diff <? float_exact_below then Z.quot diff (n * 1000000)
  else float_int_div e diff n.

(** The argument of [time_ago] is the text of a stored value: for a
    datetime, [fromisoformat] reads the same instant back; for a string it
    is whatever [fromisoformat] makes of it; the text of any other value is
    no date. *)
Definition read_datetime (e : env) (posted_at_str : value) : result Z :=
  match posted_at_str with
  | VTime t => ok t
  | VStr s => match fromisoformat e s with Some t => ok t | None => raise ValueError end
  | _ => raise ValueError
  end.

(** [f"{n} {unit}{'s' if n > 1 else ''} ago"] *)
Definition ago (n : Z) (unit_name : string) : string :=
  pretty n +:+ " " +:+ unit_name +:+ (if 1 <? n then "s" else "") +:+ " ago".

(** The body of [time_ago], which runs when the cache has no answer. *)
Definition time_ago_body (e : env) (posted_at_str : value) : result string :=
  let* posted_at := read_datetime e posted_at_str in
  let now := utcnow e in
  let diff := now - posted_at in
  if seconds_lt diff 60 then ok "Just now"
  else if seconds_lt diff 3600 then
    let minutes := int_seconds_div e diff 60 in ok (ago minutes "minute")
  else if seconds_lt diff 86400 then
    let hours := int_seconds_div e diff 3600 in ok (ago hours "hour")
  else if seconds_lt diff 604800 then
    let days := int_seconds_div e diff 86400 in ok (ago days "day")
  else if seconds_lt diff 2592000 then
    let weeks := int_seconds_div e diff 604800 in ok (ago weeks "week")
  else
    let months := int_seconds_div e diff 2592000 in ok (ago months "month").

(** [functools.lru_cache(maxsize=128)]: the answers of earlier calls, by
    argument, most recently used first.  A call whose argument is there
    gets the stored answer, which moves to the front; otherwise the body
    runs, and its answer goes to the front and pushes out the entry used
    longest ago when the cache is full.  A call that raises leaves the
    cache as it was. *)
Definition lru := list (string * string).

Definition lru_maxsize : nat := 128.

Definition lru_drop (key : string) (c : lru) : lru :=
  List.filter (fun kv => negb (String.eqb kv.1 key)) c.

Definition lru_cached (key : string) (computed : result string) (c : lru)
  : result string * lru :=
  match py_get key c with
  | Some text => (ok text, (key, text) :: lru_drop key c)
  | None =>
      match computed with
      | inl x => (raise x, c)
      | inr text => (ok text, take lru_maxsize ((key, text) :: c))
      end
  end.

(** The text the callers pass: [str(item['posted_at'])]. *)
Definition posted_at_text (e : env) (posted_at : value) : string :=
  match posted_at with
  | VTime t => isoformat e t
  | v => py_str v
  end.

(** [time_ago], under its [lru_cache]: the cache is keyed by the text of
    the argument. *)
Definition time_ago (e : env) (c : lru) (posted_at_str : value) : result string * lru :=
  lru_cached (posted_at_text e posted_at_str) (time_ago_body e posted_at_str) c.

Definition sanitize_input (text : string) : string :=
  if String.eqb text "" then text
  else replace_char ">" "&gt;" (replace_char "<" "&lt;" text).

(** The image service answers with a URL, or the upload raises and the
    function returns [None]. *)
Definition upload_to_cloudinary (e : env) (file : upload) : value :=
  match cloudinary_upload e file with
  | Some secure_url => VStr secure_url
  | None => VNone
  end.

Definition set_default_value (v : value) : value :=
  match v with
  | VNone => VStr "N/A"
  | VStr s => if String.eqb (strip s) "" then VStr "N/A" else v
  | _ => v
  end.

Definition get_pagination_data (page total_items : Z) : pagination :=
  let total_pages := (total_items + ITEMS_PER_PAGE - 1) / ITEMS_PER_PAGE in
  let has_prev := 1 <? page in
  let has_next := page <? total_pages in
  {| page := page;
     total_pages := total_pages;
     has_prev := has_prev;
     has_next := has_next;
     prev_page := if has_prev then Some (page - 1) else None;
     next_page := if has_next then Some (page + 1) else None |}.

(** ** Admin: add, edit and delete content *)

(** The [collection_map] of the admin routes. *)
Definition admin_collection_map : list (string * collection) :=
  [("jobs", jobs_collection);
   ("workshops", workshops_collection);
   ("courses", courses_collection);
   ("hackathons", hackathons_collection);
   ("roadmaps", roadmaps_collection);
   ("websites", websites_collection);
   ("ads", ads_collection)].

(** [request.form.to_dict()]: the first value of every field, fields in the
    order of their first occurrence. *)
Fixpoint form_to_dict (f : list (string * string)) : pydict :=
  match f with
  | [] => []
  | (k, v) :: f' => (k, VStr v) :: py_del k (form_to_dict f')
  end.

(** [request.form.get('promote_as_ad') == 'on'] *)
Definition promote_flag (r : request) : bool :=
  bool_decide (py_get "promote_as_ad" (form r) = Some "on").

(** [data[k] = data[k] == 'on'] *)
Definition to_flag (k : string) (data : pydict) : pydict :=
  py_set k (VBool (bool_decide (py_item k data = VStr "on"))) data.

(** The [requirements] step shared by add and edit: a comma-separated
    string other than the sentinel becomes a list. *)
Definition split_requirements_field (data : pydict) : result pydict :=
  if py_in "requirements" data
     && negb (bool_decide (py_item "requirements" data = VStr "N/A"))
  then
    match py_item "requirements" data with
    | VStr s => ok (py_set "requirements" (VList (split_requirements s)) data)
    | _ => raise AttributeError
    end
  else ok data.

(** One turn of the sanitising loop of [admin_add_content]. *)
Definition sanitize_field (data : pydict) (key : string) : pydict :=
  match py_item key data with
  | VStr s =>
      let data := py_set key (VStr (sanitize_input s)) data in
      py_set key (set_default_value (py_item key data)) data
  | _ => data
  end.

(** [a or b[:n]]: the slice is taken of [b] alone, and only when [a] is
    falsy. *)
Definition or_sliced (a b : value) (n : nat) : result value :=
  if truthy a then ok a
  else match py_slice_to n b with Some v => ok v | None => raise TypeError end.

(** [(a or b)[:n]] *)
Definition sliced_or (a b : value) (n : nat) : result value :=
  match py_slice_to n (py_or a b) with Some v => ok v | None => raise TypeError end.

(** [admin_add_content], first part: the dictionary stored for the new
    item, from [data = request.form.to_dict()] to the [requirements] step. *)
Definition add_content_data (e : env) (r : request) : result pydict :=
  let data := form_to_dict (form r) in
  (* Handle file upload *)
  let data :=
    match py_get "image" (files r) with
    | Some file =>
        if negb (String.eqb (filename file) "") then
          let image_url := upload_to_cloudinary e file in
          py_set "image" image_url data
        else data
    | None => data
    end in
  (* Sanitize inputs *)
  let data := foldl sanitize_field data (py_keys data) in
  let data := py_set "posted_at" (VTime (utcnow e)) data in
  let* user_id := session_user r in
  let data := py_set "admin_id" (VStr user_id) data in
  let data := if py_in "certification" data then to_flag "certification" data else data in
  let data := if py_in "active" data then to_flag "active" data else data in
  split_requirements_field data.

(** The [ad_data] of [admin_add_content]. *)
Definition add_content_ad_data (e : env) (r : request) (content_type : string)
    (data : pydict) (inserted_id : value) : result pydict :=
  let title :=
    py_or (py_or (py_get_default "company_name" VNone data)
                 (py_get_default "name" VNone data))
          (py_get_default "title" (VStr "N/A") data) in
  let* description :=
    or_sliced (py_get_default "role" VNone data)
              (py_get_default "description" (VStr "N/A") data) 100 in
  let* user_id := session_user r in
  ok [("title", title);
      ("description", description);
      ("image", py_get_default "image" (VStr "") data);
      ("link", py_get_default "official_link" (VStr "#") data);
      ("content_type", VStr content_type);
      ("content_reference", inserted_id);
      ("active", VBool true);
      ("clicks", VInt 0);
      ("impressions", VInt 0);
      ("posted_at", VTime (utcnow e));
      ("admin_id", VStr user_id)].

(** The cache invalidation before the answer touches no collection and is
    left out, here and in the other two admin handlers. *)
Definition admin_add_content (e : env) (r : request) (content_type : string)
  : M response :=
  admin_required r
  match py_get content_type admin_collection_map with
  | None => pure (Jsonify (json_error "Invalid content type") 400)
  | Some coll =>
    let! data := lift (add_content_data e r) in
    let promote_as_ad := promote_flag r in
    let! inserted_id := insert_one_in coll (new_oid e 0) data in
    let! _ :=
      if promote_as_ad then
        let! ad_data := lift (add_content_ad_data e r content_type data inserted_id) in
        let! _ := insert_one_in ads_collection (new_oid e 1) ad_data in
        pure tt
      else pure tt in
    pure (RedirectTo "admin_content"
            [(capitalize content_type +:+ " added successfully!", "success")])
  end.

(** The flag normalisation as it stands in [admin_edit_content]. *)
Definition normalize_flag (k : string) (data : pydict) : pydict :=
  if py_in k data then to_flag k data else py_set k (VBool false) data.

(** One turn of the loop [for key in list(data.keys())] of
    [admin_edit_content]: everything below the [isinstance] test, the three
    flag normalisations included, runs for each key whose value is a
    string when its turn comes. *)
Definition edit_field (data : pydict) (key : string) : pydict :=
  match py_item key data with
  | VStr s =>
      let data := py_set key (VStr (sanitize_input s)) data in
      let data := py_set key (set_default_value (py_item key data)) data in
      let data := normalize_flag "certification" data in
      let data := normalize_flag "active" data in
      normalize_flag "is_project" data
  | _ => data
  end.

(** [content_type in ['jobs', 'workshops', 'courses', 'hackathons']] *)
Definition promotable (content_type : string) : bool :=
  bool_decide (content_type ∈ ["jobs"; "workshops"; "courses"; "hackathons"]).

(** [if existing_ad:] a document found is truthy unless it is empty. *)
Definition found (o : option doc) : bool :=
  match o with Some d => negb (bool_decide (d = ∅)) | None => false end.

(** [d[k]] on a document read from the database. *)
Definition doc_item (k : string) (d : doc) : result value :=
  match d !! k with Some v => ok v | None => raise (KeyError k) end.

(** [existing_ad['_id']] on the answer of [find_one]. *)
Definition found_item (k : string) (o : option doc) : result value :=
  match o with Some d => doc_item k d | None => raise TypeError end.

(** [admin_edit_content], first part: the dictionary sent with [$set],
    from [data = request.form.to_dict()] to [updated_at]. *)
Definition edit_content_data (e : env) (r : request) : result pydict :=
  let data := form_to_dict (form r) in
  let data :=
    match py_get "image" (files r) with
    | Some file =>
        if negb (String.eqb (filename file) "") then
          let image_url := upload_to_cloudinary e file in
          if truthy image_url then py_set "image" image_url data else data
        else data
    | None => data
    end in
  let data := if py_in "promote_as_ad" data then py_del "promote_as_ad" data else data in
  let data := foldl edit_field data (py_keys data) in
  let* data := split_requirements_field data in
  ok (py_set "updated_at" (VTime (utcnow e)) data).

(** The [ad_data] of [admin_edit_content]. *)
Definition edit_content_ad_data (e : env) (r : request) (content_type : string)
    (data : pydict) (oid : ObjectId) : result pydict :=
  let title :=
    py_or (py_or (py_get_default "company_name" VNone data)
                 (py_get_default "name" VNone data))
          (VStr "Opportunity") in
  let* description :=
    sliced_or (py_get_default "role" VNone data)
              (py_get_default "description" (VStr "") data) 150 in
  let* user_id := session_user r in
  ok [("title", title);
      ("description", description);
      ("image", py_get_default "image" (VStr "") data);
      ("link", py_get_default "official_link" (VStr "#") data);
      ("content_type", VStr content_type);
      ("content_reference", VOid oid);
      ("active", VBool true);
      ("updated_at", VTime (utcnow e));
      ("admin_id", VStr user_id)].

(** The branch [if promote_as_ad] of [admin_edit_content]: the ad that
    refers to the item is updated where it is, or a new one is inserted. *)
Definition upsert_ad (e : env) (content_type : string) (oid : ObjectId)
    (ad_data : pydict) : M string :=
  let! ads := read ads_collection in
  let existing_ad :=
    find_one e (by_field "content_reference" (VOid oid)) (PInclude []) ads in
  if found existing_ad then
    let! ad_id := lift (found_item "_id" existing_ad) in
    let! _ := update_one_in ads_collection e (by_field "_id" ad_id) (USet ad_data) in
    pure (capitalize content_type +:+ " and ad updated successfully!")
  else
    let ad_data := py_set "clicks" (VInt 0) ad_data in
    let ad_data := py_set "impressions" (VInt 0) ad_data in
    let ad_data := py_set "posted_at" (VTime (utcnow e)) ad_data in
    let! _ := insert_one_in ads_collection (new_oid e 0) ad_data in
    pure (capitalize content_type +:+ " updated and ad created!").

Definition admin_edit_content (e : env) (r : request) (content_type id : string)
  : M response :=
  admin_required r
  match py_get content_type admin_collection_map with
  | None => pure (RedirectTo "admin_dashboard" [("Invalid content type", "danger")])
  | Some coll =>
    match method r with
    | POST =>
      let promote_as_ad := promote_flag r in
      let! data := lift (edit_content_data e r) in
      let! oid := lift (ObjectId_new id) in
      let! _ := update_one_in coll e (by_field "_id" (VOid oid)) (USet data) in
      let! flashed :=
        if promotable content_type then
          if promote_as_ad then
            let! ad_data := lift (edit_content_ad_data e r content_type data oid) in
            upsert_ad e content_type oid ad_data
          else
            let! deleted_count :=
              delete_many_in ads_collection e (by_field "content_reference" (VOid oid)) in
            if 0 <? deleted_count
            then pure (capitalize content_type +:+ " updated (ad removed)!")
            else pure (capitalize content_type +:+ " updated successfully!")
        else pure (capitalize content_type +:+ " updated successfully!") in
      pure (RedirectTo "admin_content" [(flashed, "success")])
    | GET =>
      let! oid := lift (ObjectId_new id) in
      let! docs := read coll in
      match find_one e (by_field "_id" (VOid oid)) PAll docs with
      | None => throw TypeError
      | Some item =>
          let! ads := read ads_collection in
          let has_ad :=
            if promotable content_type then
              bool_decide (is_Some
                (find_one e (by_field "content_reference" (VOid oid)) (PInclude []) ads))
            else false in
          pure (RenderTemplate "admin_dashboard.html"
                  [("item", [<["has_ad" := VBool has_ad]> item])] None)
      end
    end
  end.

Definition admin_delete_content (e : env) (r : request) (content_type id : string)
  : M response :=
  admin_required r
  match py_get content_type admin_collection_map with
  | None => pure (Jsonify (json_error "Invalid content type") 400)
  | Some coll =>
    let! oid := lift (ObjectId_new id) in
    let! _ := delete_one_in coll e (by_field "_id" (VOid oid)) in
    let! oid := lift (ObjectId_new id) in
    let! _ := delete_many_in ads_collection e (by_field "content_reference" (VOid oid)) in
    pure (RedirectTo "admin_content"
            [(capitalize content_type +:+ " deleted successfully!", "success")])
  end.

(** ** Public pages *)

(** The [collection_map] of the public listings and of the filter. *)
Definition public_collection_map : list (string * collection) :=
  [("jobs", jobs_collection);
   ("workshops", workshops_collection);
   ("courses", courses_collection);
   ("hackathons", hackathons_collection)].

(** [get_cached_content], the function under [cache.memoize]. *)
Definition get_cached_content (e : env) (content_type : string) (page : Z)
  : M (list doc * Z) :=
  match py_get content_type public_collection_map with
  | None => pure ([], 0)
  | Some coll =>
    let skip_ := (page - 1) * ITEMS_PER_PAGE in
    let! docs := read coll in
    (* Use projection to exclude unnecessary fields *)
    let! cur :=
      lift (skip skip_
              (sort_descending "posted_at"
                 (find e (QFields []) (PExclude ["admin_id"]) docs))) in
    let items := to_list (limit (Z.to_nat ITEMS_PER_PAGE) cur) in
    let total := estimated_document_count docs in
    pure (items, total)
  end.

Fixpoint for_each {A B} (f : A -> result B) (l : list A) : result (list B) :=
  match l with
  | [] => ok []
  | a :: l' =>
      let* b := f a in
      let* bs := for_each f l' in
      ok (b :: bs)
  end.

(** A loop whose turns use the cache of [time_ago]: the cache goes from
    one turn to the next, and an exception ends the loop. *)
Fixpoint for_each_cached {A B} (f : lru -> A -> result B * lru) (c : lru) (l : list A)
  : result (list B) * lru :=
  match l with
  | [] => (ok [], c)
  | a :: l' =>
      match f c a with
      | (inl x, c') => (raise x, c')
      | (inr b, c') =>
          match for_each_cached f c' l' with
          | (inl x, c'') => (raise x, c'')
          | (inr bs, c'') => (ok (b :: bs), c'')
          end
      end
  end.

(** [item['time_ago'] = time_ago(str(item['posted_at']))] *)
Definition with_time_ago (e : env) (c : lru) (item : doc) : result doc * lru :=
  match doc_item "posted_at" item with
  | inl x => (raise x, c)
  | inr posted_at =>
      match time_ago e c posted_at with
      | (inl x, c') => (raise x, c')
      | (inr text, c') => (ok (<["time_ago" := VStr text]> item), c')
      end
  end.

(** The four listing routes differ in the names only. *)
Definition listing_page (e : env) (r : request) (content_type template : string)
  : M response :=
  let page := args_get_int e "page" 1 r in
  let! got := get_cached_content e content_type page in
  let! items := lift (for_each_cached (with_time_ago e) (time_ago_cache e) got.1).1 in
  let pagination := get_pagination_data page got.2 in
  pure (RenderTemplate template [(content_type, items)] (Some pagination)).

Definition jobs (e : env) (r : request) : M response :=
  listing_page e r "jobs" "jobs.html".

Definition workshops (e : env) (r : request) : M response :=
  listing_page e r "workshops" "workshops.html".

Definition courses (e : env) (r : request) : M response :=
  listing_page e r "courses" "courses.html".

Definition hackathons (e : env) (r : request) : M response :=
  listing_page e r "hackathons" "hackathons.html".

Definition roadmaps (e : env) (r : request) : M response :=
  login_required r
  (let! docs := read roadmaps_collection in
   let all_roadmaps := to_list (find e (QFields []) (PExclude ["admin_id"]) docs) in
   pure (RenderTemplate "roadmaps.html" [("roadmaps", all_roadmaps)] None)).

Definition websites (e : env) (r : request) : M response :=
  let! docs := read websites_collection in
  let all_websites := to_list (find e (QFields []) (PExclude ["admin_id"]) docs) in
  pure (RenderTemplate "websites.html" [("websites", all_websites)] None).

Definition our_projects (e : env) (r : request) : M response :=
  let! docs := read websites_collection in
  let projects :=
    to_list (find e (by_field "is_project" (VBool true)) (PExclude ["admin_id"]) docs) in
  pure (RenderTemplate "our_projects.html" [("projects", projects)] None).

(** The [collection_map] of the detail page. *)
Definition detail_collection_map : list (string * collection) :=
  [("job", jobs_collection);
   ("workshop", workshops_collection);
   ("course", courses_collection);
   ("hackathon", hackathons_collection)].

Definition detail_page (e : env) (r : request) (content_type id : string)
  : M response :=
  login_required r
  match py_get content_type detail_collection_map with
  | None => pure (RedirectTo "index" [("Invalid content type", "danger")])
  | Some coll =>
    let! oid := lift (ObjectId_new id) in
    let! docs := read coll in
    let item := find_one e (by_field "_id" (VOid oid)) (PExclude ["admin_id"]) docs in
    match item with
    | Some item =>
      if bool_decide (item = ∅) then
        pure (RedirectTo "index" [("Content not found", "danger")])
      else
        let! item := lift (with_time_ago e (time_ago_cache e) item).1 in
        (* Get related content - limit fields and results *)
        let related :=
          if String.eqb content_type "job" then
            to_list (limit 3 (find e
              (QFields [("job_type", CEq (default VNone (item !! "job_type")));
                        ("_id", CNe (VOid oid))])
              (PInclude ["company_name"; "role"; "location"; "posted_at"; "image"])
              docs))
          else
            to_list (limit 3 (find e
              (QFields [("_id", CNe (VOid oid))])
              (PInclude ["name"; "organizer"; "posted_at"; "image"])
              docs)) in
        pure (RenderTemplate "detail_page.html"
                [("item", [item]); ("related", related)] None)
    | None => pure (RedirectTo "index" [("Content not found", "danger")])
    end
  end.

(** ** Ad tracking *)

Definition ad_impression (e : env) (r : request) (ad_id : string) : M response :=
  try_except
    (if negb (ObjectId_is_valid ad_id) then
       pure (Jsonify (json_success false (Some "Invalid ad ID")) 400)
     else
       let! oid := lift (ObjectId_new ad_id) in
       let! matched_count :=
         update_one_in ads_collection e (by_field "_id" (VOid oid)) (UInc "impressions" 1) in
       if matched_count =? 0 then
         pure (Jsonify (json_success false (Some "Ad not found")) 404)
       else pure (Jsonify (json_success true None) 200))
    (fun _ => pure (Jsonify (json_success false (Some "Server error")) 500)).

Definition ad_click (e : env) (r : request) (ad_id : string) : M response :=
  try_except
    (if negb (ObjectId_is_valid ad_id) then
       pure (Jsonify (json_success false (Some "Invalid ad ID")) 400)
     else
       let! oid := lift (ObjectId_new ad_id) in
       let! matched_count :=
         update_one_in ads_collection e (by_field "_id" (VOid oid)) (UInc "clicks" 1) in
       if matched_count =? 0 then
         pure (Jsonify (json_success false (Some "Ad not found")) 404)
       else
         let! oid := lift (ObjectId_new ad_id) in
         let! _ :=
           insert_one_in ad_clicks_collection (new_oid e 0)
             [("ad_id", VOid oid);
              ("clicked_at", VTime (utcnow e));
              ("user_id", session_get_user_id r);
              ("ip_address", remote_addr r)] in
         pure (Jsonify (json_success true None) 200))
    (fun _ => pure (Jsonify (json_success false (Some "Server error")) 500)).

(** The loop of [get_ads] over the sampled ads. *)
Definition publish_ad (ad : doc) : result doc :=
  let* id := doc_item "_id" ad in
  let ad := <["_id" := VStr (py_str id)]> ad in
  let ad :=
    match ad !! "content_reference" with
    | Some ref => <["content_reference" := VStr (py_str ref)]> ad
    | None => ad
    end in
  let ad := <["title" := default (VStr "Opportunity") (ad !! "title")]> ad in
  let ad := <["description" := default (VStr "") (ad !! "description")]> ad in
  let ad := <["image" := default (VStr "") (ad !! "image")]> ad in
  let ad := <["link" := default (VStr "#") (ad !! "link")]> ad in
  ok ad.

Definition get_ads (e : env) (r : request) : M response :=
  try_except
    (let! docs := read ads_collection in
     (* $match, $sample, $project *)
     let active := List.filter (matches e (by_field "active" (VBool true))) docs in
     let sampled := sample e 5 active in
     let ads :=
       project (PInclude ["title"; "description"; "image"; "link"; "clicks"]) <$> sampled in
     let! ads := lift (for_each publish_ad ads) in
     pure (Jsonify (JArr ads) 200))
    (fun _ => pure (Jsonify (JArr []) 200)).

(** ** Filters and search *)

(** [if request.args.get(k): query[field] = mk(request.args.get(k))] *)
Definition arg_filter (r : request) (k field : string) (mk : string -> cond)
    (query : list (string * cond)) : list (string * cond) :=
  match py_get k (args r) with
  | Some s => if negb (String.eqb s "") then query ++ [(field, mk s)] else query
  | None => query
  end.

(** [timedelta(hours=h)] and [timedelta(days=d)] in microseconds. *)
Definition hours (h : Z) : Z := h * 3600 * 1000000.
Definition days (d : Z) : Z := d * 86400 * 1000000.

Definition date_window (e : env) (r : request) (query : list (string * cond))
  : list (string * cond) :=
  match py_get "date" (args r) with
  | Some date_filter =>
      if String.eqb date_filter "" then query
      else
        let now := utcnow e in
        if String.eqb date_filter "24h" then
          query ++ [("posted_at", CGte (VTime (now - hours 24)))]
        else if String.eqb date_filter "week" then
          query ++ [("posted_at", CGte (VTime (now - days 7)))]
        else if String.eqb date_filter "month" then
          query ++ [("posted_at", CGte (VTime (now - days 30)))]
        else query
  | None => query
  end.

(** The loop of [filter_content] over its results. *)
Definition publish_item (e : env) (c : lru) (item : doc) : result doc * lru :=
  match doc_item "_id" item with
  | inl x => (raise x, c)
  | inr id =>
      let item := <["_id" := VStr (py_str id)]> item in
      with_time_ago e c item
  end.

Definition filter_content (e : env) (r : request) (content_type : string)
  : M response :=
  match py_get content_type public_collection_map with
  | None => pure (Jsonify (json_error "Invalid content type") 400)
  | Some coll =>
    (* Build filter query *)
    let query := [] in
    let query := arg_filter r "location" "location" CRegexI query in
    let query := arg_filter r "price" "price" (fun s => CEq (VStr s)) query in
    let query := date_window e r query in
    let query := arg_filter r "job_type" "job_type" (fun s => CEq (VStr s)) query in
    let query := arg_filter r "experience" "required_experience" (fun s => CEq (VStr s)) query in
    (* Pagination for filter results *)
    let page := args_get_int e "page" 1 r in
    let skip_ := (page - 1) * ITEMS_PER_PAGE in
    let! docs := read coll in
    let! cur :=
      lift (skip skip_
              (sort_descending "posted_at"
                 (find e (QFields query) (PExclude ["admin_id"]) docs))) in
    let results := to_list (limit (Z.to_nat ITEMS_PER_PAGE) cur) in
    let! results :=
      lift (for_each_cached (publish_item e) (time_ago_cache e) results).1 in
    pure (Jsonify (JArr results) 200)
  end.

(** One of the loops of [search]: every hit gets its id as text and its
    type, and joins [results]; a hit without id stops the loop with the
    results appended so far. *)
Fixpoint tag_results (ty : string) (hits : list doc) (results : list doc)
  : list doc * option exn :=
  match hits with
  | [] => (results, None)
  | hit :: hits' =>
      match hit !! "_id" with
      | None => (results, Some (KeyError "_id"))
      | Some id =>
          let hit := <["_id" := VStr (py_str id)]> hit in
          let hit := <["type" := VStr ty]> hit in
          tag_results ty hits' (results ++ [hit])
      end
  end.

(** The search of one collection: the text index first and, when anything
    in that attempt raises, the case-insensitive patterns on [fields]. *)
Definition search_in (e : env) (query : string) (coll : collection) (ty : string)
    (fields : list string) (results : list doc) : M (list doc) :=
  let! docs := read coll in
  let fallback (results : list doc) : M (list doc) :=
    let hits :=
      to_list (limit 5 (find e
        (QOr ((fun f => [(f, CRegexI query)]) <$> fields))
        (PExclude ["admin_id"]) docs)) in
    let r := tag_results ty hits results in
    match r.2 with
    | Some x => throw x
    | None => pure r.1
    end in
  match text_search e coll query docs with
  | Some ranked =>
      (* projection {'score': {'$meta': 'textScore'}, 'admin_id': 0} *)
      let hits :=
        (fun ds => <["score" := ds.2]> (delete "admin_id" ds.1)) <$> take 5 ranked in
      let r := tag_results ty hits results in
      match r.2 with
      | Some _ => fallback r.1
      | None => pure r.1
      end
  | None => fallback results
  end.

Definition search (e : env) (r : request) : M response :=
  let query := strip (default "" (py_get "q" (args r))) in
  if String.eqb query "" then pure (Jsonify (JArr []) 200)
  else
    let results := [] in
    let! results :=
      search_in e query jobs_collection "job" ["company_name"; "role"; "job_type"] results in
    let! results :=
      search_in e query workshops_collection "workshop" ["name"; "organizer"] results in
    let! results :=
      search_in e query courses_collection "course" ["name"; "instructor"] results in
    let! results :=
      search_in e query hackathons_collection "hackathon" ["name"; "organizer"] results in
    pure (Jsonify (JArr results) 200).

(** ** The buckets of relative time, as specified *)

(** The buckets as the specification words them: below 60 seconds there is
    no count; from there on a unit and the whole number of units elapsed. *)
Inductive time_unit := Minute | Hour | Day | Week | Month.

Definition unit_seconds (u : time_unit) : Z :=
  match u with
  | Minute => 60
  | Hour => 3600
  | Day => 86400
  | Week => 604800
  | Month => 2592000
  end.

Definition unit_name (u : time_unit) : string :=
  match u with
  | Minute => "minute"
  | Hour => "hour"
  | Day => "day"
  | Week => "week"
  | Month => "month"
  end.

Definition unit_rank (u : time_unit) : Z :=
  match u with
  | Minute => 1
  | Hour => 2
  | Day => 3
  | Week => 4
  | Month => 5
  end.

(** Durations are in microseconds, as [timedelta] counts them. *)
Definition second : Z := 1000000.

Definition whole_units (diff : Z) (u : time_unit) : time_unit * Z :=
  (u, diff / (unit_seconds u * second)).

Definition spec_bucket (diff : Z) : option (time_unit * Z) :=
  if diff <? 60 * second then None
  else if diff <? 3600 * second then Some (whole_units diff Minute)
  else if diff <? 86400 * second then Some (whole_units diff Hour)
  else if diff <? 604800 * second then Some (whole_units diff Day)
  else if diff <? 2592000 * second then Some (whole_units diff Week)
  else Some (whole_units diff Month).

(** Singular for exactly one unit, plural otherwise. *)
Definition spec_text (b : option (time_unit * Z)) : string :=
  match b with
  | None => "Just now"
  | Some (u, n) =>
      pretty n +:+ " " +:+ unit_name u +:+ (if n =? 1 then "" else "s") +:+ " ago"
  end.

(** Buckets in order of elapsed time: first by unit, then by count. *)
Definition bucket_le (a b : option (time_unit * Z)) : Prop :=
  match a, b with
  | None, _ => True
  | Some _, None => False
  | Some (u, n), Some (v, m) =>
      unit_rank u < unit_rank v \/ (u = v /\ n <= m)
  end.

(** ** Sample requests and states *)

(** A world in which the image service is down, the text index is missing
    and no pattern matches; ids are handed out from 1000 on. *)
Definition offline_env (now : Z) : env :=
  {| utcnow := now;
     new_oid := fun n => N.of_nat (1000 + n);
     cloudinary_upload := fun _ => None;
     regex_search_i := fun _ _ => false;
     text_search := fun _ _ _ => None;
     sample := fun n l => take n l;
     fromisoformat := fun _ => None;
     unicode_decimal := fun _ => None;
     int_max_str_digits := 4300;
     unicode_lower := fun s => s;
     float_int_div := fun diff n => Z.quot diff (n * 1000000);
     isoformat := fun t => pretty t;
     time_ago_cache := [] |}.

(** A form posted by the logged-in admin, with the files given. *)
Definition admin_post (f : list (string * string)) (fs : list (string * upload)) : request :=
  {| method := POST;
     form := f;
     args := [];
     files := fs;
     remote_addr := VStr "127.0.0.1";
     session_user_id := Some "admin";
     session_is_admin := true |}.

(** A request of a visitor who is not logged in. *)
Definition visitor (a : list (string * string)) : request :=
  {| method := GET;
     form := [];
     args := a;
     files := [];
     remote_addr := VStr "127.0.0.1";
     session_user_id := None;
     session_is_admin := false |}.

Definition empty_db : db := fun _ => [].

(** ** Counters *)

(** What a counter field of an ad counts: a missing field counts nothing
    yet; a field that holds no number is no counter. *)
Definition counter (k : string) (d : doc) : option Z :=
  match d !! k with
  | None => Some 0
  | Some (VInt n) => Some n
  | Some _ => None
  end.

(** No document of [c] has the value [v] in field [k]. *)
Definition none_with (k : string) (v : value) (c : list doc) : Prop :=
  Forall (fun d => d !! k <> Some v) c.

(** ** Shapes of the dictionaries built from a form *)

(** Every entry of [d] holds a string, except possibly under the keys
    [ks]. *)
Definition strings_except (ks : list string) (d : pydict) : Prop :=
  Forall (fun kv => kv.1 ∈ ks \/ exists s, kv.2 = VStr s) d.

(** The content types of the data model: everything the admin routes
    accept except the ads themselves. *)
Definition content_item_types : list string :=
  ["jobs"; "workshops"; "courses"; "hackathons"; "roadmaps"; "websites"].

(** An ad that promotes the content item with id 7 and has been clicked
    five times. *)
Definition sample_ad : doc :=
  to_bson [("_id", VOid 1%N);
           ("title", VStr "Acme");
           ("content_reference", VOid 7%N);
           ("active", VBool true);
           ("clicks", VInt 5);
           ("impressions", VInt 9)].

(** The text of the ids 1 and 7. *)
Definition id_1 : string := "000000000000000000000001".
Definition id_7 : string := "000000000000000000000007".

(** A stored item with id 7; it is put in whichever collection an example
    is about. *)
Definition sample_item : doc :=
  to_bson [("_id", VOid 7%N);
           ("name", VStr "Acme");
           ("posted_at", VTime 0);
           ("admin_id", VStr "admin")].

(** The item of id 7 in collection [c], promoted by [sample_ad]. *)
Definition sample_db (c : collection) : db :=
  db_put ads_collection [sample_ad] (db_put c [sample_item] empty_db).

(** A text of [n] characters. *)
Definition long_text (n : nat) : string := string_of_list_ascii (repeat "x"%char n).

(** A file whose upload the image service of [offline_env] refuses. *)
Definition poster : upload := {| filename := "poster.png"; payload := "PNG" |}.

(** The keys under which the dictionary of an edit may hold something other
    than a string. *)
Definition edit_special : list string :=
  ["requirements"; "updated_at"; "image"; "certification"; "active"; "is_project"].

(** What is left of [admin_edit_content] once the item itself is updated. *)
Definition edit_ad_step (e : env) (r : request) (content_type : string)
    (data : pydict) (oid : ObjectId) : M response :=
  let! flashed :=
    if promote_flag r then
      let! ad_data := lift (edit_content_ad_data e r content_type data oid) in
      upsert_ad e content_type oid ad_data
    else
      let! deleted_count :=
        delete_many_in ads_collection e (by_field "content_reference" (VOid oid)) in
      if 0 <? deleted_count
      then pure (capitalize content_type +:+ " updated (ad removed)!")
      else pure (capitalize content_type +:+ " updated successfully!") in
  pure (RedirectTo "admin_content" [(flashed, "success")]).

(** The field [k] of each document of a collection, in order. *)
Definition column (k : string) (c : list doc) : list (option value) :=
  (fun d => d !! k) <$> c.

(** ** What a response shows *)

(** The documents a response hands to the client or to the template. *)
Definition response_docs (resp : response) : list doc :=
  match resp with
  | Jsonify (JObj d) _ => [d]
  | Jsonify (JArr l) _ => l
  | RenderTemplate _ context _ => concat (snd <$> context)
  | RedirectTo _ _ => []
  | Failed _ => []
  end.

(** The document does not show the admin reference. *)
Definition hides_admin (d : doc) : Prop := d !! "admin_id" = None.

(** A computation that only reads: whatever the state, it leaves it as it
    was, and a result it returns satisfies [P]. *)
Definition yields {A} (P : A -> Prop) (m : M A) : Prop :=
  forall st,
    (m st).2 = st /\ match (m st).1 with inr a => P a | inl _ => True end.

(** A handler is a public read when it only reads and every document it
    shows hides the admin reference. *)
Definition public_read (m : M response) : Prop :=
  forall st,
    (respond m st).2 = st
    /\ Forall hides_admin (response_docs (respond m st).1).

(** ** The remaining routes *)

(** [index] *)
Definition index : M response := pure (RedirectTo "jobs" []).

(** [user_dashboard] *)
Definition user_dashboard (e : env) (r : request) : M response :=
  login_required r
  (let! user_id := lift (session_user r) in
   let! oid := lift (ObjectId_new user_id) in
   let! docs := read users_collection in
   let user := find_one e (by_field "_id" (VOid oid)) (PExclude ["password"]) docs in
   pure (RenderTemplate "user_dashboard.html"
           [("user", match user with Some u => [u] | None => [] end)] None)).

(** The numbers of [admin_dashboard], as one document; the function under
    [cache.cached]. *)
Definition admin_dashboard (e : env) (r : request) : M response :=
  admin_required r
  (fun st =>
     let count c := VInt (estimated_document_count (st c)) in
     let stats :=
       [("total_users", count users_collection);
        ("total_jobs", count jobs_collection);
        ("total_workshops", count workshops_collection);
        ("total_courses", count courses_collection);
        ("total_hackathons", count hackathons_collection);
        ("total_roadmaps", count roadmaps_collection);
        ("total_websites", count websites_collection);
        ("total_ads", count ads_collection);
        ("active_ads",
          VInt (Z.of_nat (length (List.filter (matches e (by_field "active" (VBool true)))
                                    (st ads_collection)))));
        ("total_ad_clicks", count ad_clicks_collection)] in
     pure (RenderTemplate "admin_dashboard.html" [("stats", [to_bson stats])] None) st).

(** [admin_users] *)
Definition admin_users (e : env) (r : request) : M response :=
  admin_required r
  (let page := args_get_int e "page" 1 r in
   let skip_ := (page - 1) * ITEMS_PER_PAGE in
   let! docs := read users_collection in
   let total_users := estimated_document_count docs in
   let! cur :=
     lift (skip skip_
             (sort_descending "created_at"
                (find e (QFields []) (PExclude ["password"]) docs))) in
   let users := to_list (limit (Z.to_nat ITEMS_PER_PAGE) cur) in
   let pagination := get_pagination_data page total_users in
   pure (RenderTemplate "admin_dashboard.html" [("users", users)] (Some pagination))).

(** [admin_content] *)
Definition admin_content (e : env) (r : request) (content_type : string) : M response :=
  admin_required r
  match py_get content_type admin_collection_map with
  | None => pure (RedirectTo "admin_dashboard" [("Invalid content type", "danger")])
  | Some collection =>
    let page := args_get_int e "page" 1 r in
    let skip_ := (page - 1) * ITEMS_PER_PAGE in
    let! docs := read collection in
    let total_items := estimated_document_count docs in
    let! cur :=
      lift (skip skip_ (sort_descending "posted_at" (find e (QFields []) PAll docs))) in
    let content := to_list (limit (Z.to_nat ITEMS_PER_PAGE) cur) in
    let pagination := get_pagination_data page total_items in
    pure (RenderTemplate "admin_dashboard.html" [("content", content)] (Some pagination))
  end.

(** [apply_content] *)
Definition apply_content (e : env) (r : request) (content_type id : string)
  : M response :=
  login_required r
  match py_get content_type detail_collection_map with
  | None => pure (Jsonify (json_error "Invalid content type") 400)
  | Some coll =>
    let! oid := lift (ObjectId_new id) in
    let! docs := read coll in
    let item := find_one e (by_field "_id" (VOid oid)) (PInclude ["official_link"]) docs in
    match item with
    | Some item =>
        if bool_decide (item = ∅) then
          pure (Jsonify (json_error "Content not found") 404)
        else
          pure (Jsonify
                  (JObj (to_bson [("redirect_url",
                                   default (VStr "#") (item !! "official_link"))]))
                  200)
    | None => pure (Jsonify (json_error "Content not found") 404)
    end
  end.

(** ** Registration and login *)

(** A regular expression over characters, matched by derivatives. *)
Inductive regex :=
| ReNone
| ReEmpty
| ReClass (p : ascii -> bool)
| ReCat (a b : regex)
| ReAlt (a b : regex)
| ReStar (a : regex).

Fixpoint nullable (r : regex) : bool :=
  match r with
  | ReNone => false
  | ReEmpty => true
  | ReClass _ => false
  | ReCat a b => nullable a && nullable b
  | ReAlt a b => nullable a || nullable b
  | ReStar _ => true
  end.

Fixpoint deriv (c : ascii) (r : regex) : regex :=
  match r with
  | ReNone => ReNone
  | ReEmpty => ReNone
  | ReClass p => if p c then ReEmpty else ReNone
  | ReCat a b =>
      if nullable a then ReAlt (ReCat (deriv c a) b) (deriv c b)
      else ReCat (deriv c a) b
  | ReAlt a b => ReAlt (deriv c a) (deriv c b)
  | ReStar a => ReCat (deriv c a) (ReStar a)
  end.

(** The whole of [s] is a word of [r]. *)
Fixpoint re_fullmatch (r : regex) (s : string) : bool :=
  match s with
  | EmptyString => nullable r
  | String c s' => re_fullmatch (deriv c r) s'
  end.

(** [r+] *)
Definition re_plus (r : regex) : regex := ReCat r (ReStar r).

(** [[a-zA-Z]], [[a-zA-Z0-9.-]] and [[a-zA-Z0-9._%+-]] *)
Definition letter (c : ascii) : bool := ascii_in 97 122 c || ascii_in 65 90 c.

Definition domain_char (c : ascii) : bool :=
  letter c || ascii_in 48 57 c || Ascii.eqb c "." || Ascii.eqb c "-".

Definition local_char (c : ascii) : bool :=
  letter c || ascii_in 48 57 c || Ascii.eqb c "." || Ascii.eqb c "_"
  || Ascii.eqb c "%" || Ascii.eqb c "+" || Ascii.eqb c "-".

(** [^[a-zA-Z0-9._%+-]+@[a-zA-Z0-9.-]+\.[a-zA-Z]{2,}$]; the [$] also
    matches before a newline that ends the string. *)
Definition email_pattern : regex :=
  ReCat (re_plus (ReClass local_char))
    (ReCat (ReClass (Ascii.eqb "@"))
       (ReCat (re_plus (ReClass domain_char))
          (ReCat (ReClass (Ascii.eqb "."))
             (ReCat (ReClass letter)
                (ReCat (ReClass letter)
                   (ReCat (ReStar (ReClass letter))
                      (ReAlt ReEmpty (ReClass (Ascii.eqb "010"))))))))).

(** [re.match(pattern, email) is not None] *)
Definition validate_email (email : string) : bool :=
  re_fullmatch email_pattern email.

(** What the authentication routes take from their configuration and from
    the password library: the admin credentials of the environment, and the
    salted hash with its check. *)
Record auth_env := {
  ADMIN_USERNAME : string;
  ADMIN_PASSWORD : string;
  generate_password_hash : string -> string;
  check_password_hash : string -> string -> bool
}.

(** What a route does to the session. *)
Inductive session_change :=
| Kept
| Logged_in (user_id : string) (is_admin : bool) (username : value)
| Cleared.

(** The answer of an authentication route: the response, the message
    flashed when it renders a page, and what became of the session. *)
Record auth_result := {
  answer : response;
  notice : list (string * string);
  session_after : session_change
}.

Definition auth_answer (resp : response) : auth_result :=
  {| answer := resp; notice := []; session_after := Kept |}.

Definition auth_page (template message category : string) : auth_result :=
  {| answer := RenderTemplate template [] None;
     notice := [(message, category)];
     session_after := Kept |}.

(** The redirect of a visitor who is logged in already. *)
Definition already_logged_in (r : request) : auth_result :=
  auth_answer (RedirectTo (if session_is_admin r then "admin_dashboard"
                           else "user_dashboard") []).

(** [request.form.get(k, '')] *)
Definition form_get (k : string) (r : request) : string :=
  default "" (py_get k (form r)).

(** [check_password_hash(user['password'], password)] on a stored user. *)
Definition check_user_password (a : auth_env) (user : doc) (password : string)
  : result bool :=
  let* h := doc_item "password" user in
  match h with
  | VStr h => ok (check_password_hash a h password)
  | _ => raise AttributeError
  end.

(** [login]; the rate limit in front of it is not part of the model. *)
Definition login (a : auth_env) (e : env) (r : request) : M auth_result :=
  if bool_decide (is_Some (session_user_id r)) then pure (already_logged_in r)
  else
    match method r with
    | POST =>
      let email := sanitize_input (strip (form_get "email" r)) in
      let password := form_get "password" r in
      (* Check if admin login *)
      if String.eqb email (ADMIN_USERNAME a) && String.eqb password (ADMIN_PASSWORD a)
      then
        pure {| answer := RedirectTo "admin_dashboard"
                            [("Admin login successful!", "success")];
                notice := [];
                session_after := Logged_in "admin" true (VStr "Admin") |}
      else
        (* Check user login - only fetch necessary fields *)
        let! docs := read users_collection in
        let user :=
          find_one e (by_field "email" (VStr email)) (PInclude ["password"; "name"]) docs in
        let! checked :=
          lift (match user with
                | Some u =>
                    if bool_decide (u = ∅) then ok false
                    else check_user_password a u password
                | None => ok false
                end) in
        if checked then
          let! id := lift (found_item "_id" user) in
          let! name := lift (found_item "name" user) in
          let next_page := args_get "next" r in
          pure {| answer := RedirectTo (if truthy next_page then py_str next_page
                                        else "user_dashboard")
                              [("Login successful!", "success")];
                  notice := [];
                  session_after := Logged_in (py_str id) false name |}
        else pure (auth_page "login.html" "Invalid email or password" "danger")
    | GET => pure (auth_answer (RenderTemplate "login.html" [] None))
    end.

(** [register]; the rate limit in front of it is not part of the model. *)
Definition register (a : auth_env) (e : env) (r : request) : M auth_result :=
  if bool_decide (is_Some (session_user_id r)) then pure (already_logged_in r)
  else
    match method r with
    | POST =>
      let name := sanitize_input (strip (form_get "name" r)) in
      let email := sanitize_input (py_lower e (strip (form_get "email" r))) in
      let password := form_get "password" r in
      let college := sanitize_input (strip (form_get "college" r)) in
      let phone := sanitize_input (strip (form_get "phone" r)) in
      if negb (forallb (fun s => negb (String.eqb s "")) [name; email; password; college])
      then pure (auth_page "register.html" "All fields are required" "danger")
      else if negb (validate_email email)
      then pure (auth_page "register.html" "Invalid email format" "danger")
      else if (py_len password <? 6)%nat
      then pure (auth_page "register.html" "Password must be at least 6 characters" "danger")
      else
        (* Check if user exists - only check email field *)
        let! docs := read users_collection in
        if found (find_one e (by_field "email" (VStr email)) (PInclude []) docs)
        then pure (auth_page "register.html" "Email already registered" "danger")
        else
          let hashed_password := generate_password_hash a password in
          let user_data :=
            [("name", VStr name);
             ("email", VStr email);
             ("password", VStr hashed_password);
             ("college", VStr college);
             ("phone", VStr phone);
             ("created_at", VTime (utcnow e));
             ("profile_picture", VNone)] in
          let! inserted_id := insert_one_in users_collection (new_oid e 0) user_data in
          pure {| answer := RedirectTo "user_dashboard"
                              [("Registration successful!", "success")];
                  notice := [];
                  session_after := Logged_in (py_str inserted_id) false (VStr name) |}
    | GET => pure (auth_answer (RenderTemplate "register.html" [] None))
    end.

(** [logout] *)
Definition logout : M auth_result :=
  pure {| answer := RedirectTo "index" [("Logged out successfully", "info")];
          notice := [];
          session_after := Cleared |}.

(** ** Vocabulary of the further properties *)

(** [c in s] *)
Fixpoint mentions (c : ascii) (s : string) : bool :=
  match s with
  | EmptyString => false
  | String a s' => Ascii.eqb a c || mentions c s'
  end.

(** Neither [<] nor [>] occurs in [s]. *)
Definition angle_free (s : string) : bool :=
  negb (mentions "<" s) && negb (mentions ">" s).

(** What the sanitising loops make of a value. *)
Definition clean_value (v : value) : value :=
  match v with
  | VStr s => set_default_value (VStr (sanitize_input s))
  | _ => v
  end.

(** A value that, when it is a string, has no angle bracket and is not
    blank. *)
Definition tidy (v : value) : Prop :=
  forall s, v = VStr s -> angle_free s = true /\ strip s <> "".

(** The items a public listing shows on a page; nothing when the listing
    fails. *)
Definition page_items (e : env) (content_type : string) (p : Z) (st : db) : list doc :=
  match (get_cached_content e content_type p st).1 with
  | inr got => got.1
  | inl _ => []
  end.

(** The filter document [filter_content] builds from the request. *)
Definition filter_query (e : env) (r : request) : list (string * cond) :=
  let query := [] in
  let query := arg_filter r "location" "location" CRegexI query in
  let query := arg_filter r "price" "price" (fun s => CEq (VStr s)) query in
  let query := date_window e r query in
  let query := arg_filter r "job_type" "job_type" (fun s => CEq (VStr s)) query in
  arg_filter r "experience" "required_experience" (fun s => CEq (VStr s)) query.

(** The fields [get_ads] publishes. *)
Definition public_ad_fields : list string :=
  ["_id"; "title"; "description"; "image"; "link"; "clicks"].

(** Requests used as instances. *)
Definition admin_get : request :=
  {| method := GET;
     form := [];
     args := [];
     files := [];
     remote_addr := VStr "127.0.0.1";
     session_user_id := Some "admin";
     session_is_admin := true |}.

Definition member_get (a : list (string * string)) : request :=
  {| method := GET;
     form := [];
     args := a;
     files := [];
     remote_addr := VStr "127.0.0.1";
     session_user_id := Some id_1;
     session_is_admin := false |}.

Definition visitor_post (f : list (string * string)) : request :=
  {| method := POST;
     form := f;
     args := [];
     files := [];
     remote_addr := VStr "127.0.0.1";
     session_user_id := None;
     session_is_admin := false |}.

(** A registered member whose password is "secret", as [sample_auth]
    stores it. *)
Definition sample_user : doc :=
  to_bson [("_id", VOid 1%N);
           ("name", VStr "Ann");
           ("email", VStr "ann@example.org");
           ("password", VStr "terces")].

(** A password library that stores the password reversed and admin
    credentials, for the instances. *)
Definition sample_auth : auth_env :=
  {| ADMIN_USERNAME := "admin";
     ADMIN_PASSWORD := "admin123";
     generate_password_hash := string_rev;
     check_password_hash := fun h p => String.eqb h (string_rev p) |}.

(** What the [requirements] step makes of a value. *)
Definition split_value (v : value) : value :=
  match v with
  | VStr s => if String.eqb s "N/A" then v else VList (split_requirements s)
  | _ => v
  end.

(** [v == 'on'], as a stored boolean. *)
Definition is_on (v : value) : value := VBool (bool_decide (v = VStr "on")).

(** What [admin_add_content] starts from under key [k]: the answer of the
    image service for an uploaded file, the form field otherwise. *)
Definition submitted (e : env) (r : request) (k : string) : option value :=
  match py_get "image" (files r) with
  | Some file =>
      if negb (String.eqb (filename file) "") && String.eqb k "image"
      then Some (upload_to_cloudinary e file)
      else VStr <$> py_get k (form r)
  | None => VStr <$> py_get k (form r)
  end.

(** An entry of a requirements list: not empty, and without comma. *)
Definition requirement_ok (x : string) : Prop := x <> "" /\ mentions "," x = false.

(** An entry of a stored list: no angle bracket, and not empty. *)
Definition entry_tidy (x : string) : Prop :=
  mentions "<" x = false /\ mentions ">" x = false /\ x <> "".

(** No value of [d] is a list. *)
Definition no_lists (d : pydict) : Prop :=
  Forall (fun kv => forall l, kv.2 <> VList l) d.

(** Every value of [d] is tidy, except possibly under the keys [ks]. *)
Definition tidy_except (ks : list string) (d : pydict) : Prop :=
  forall k v, py_get k d = Some v -> k ∈ ks \/ tidy v.

(** The first of the fields [company_name], [name] and [title] that [d]
    has, and "N/A" when it has none. *)
Definition title_chain (d : pydict) : value :=
  match py_get "company_name" d with
  | Some v => v
  | None =>
      match py_get "name" d with
      | Some v => v
      | None => py_get_default "title" (VStr "N/A") d
      end
  end.

(** What a rendered template receives under [name]; nothing when the
    response renders no template. *)
Definition template_list (name : string) (resp : response) : list doc :=
  match resp with
  | RenderTemplate _ context _ => default [] (py_get name context)
  | _ => []
  end.

(** A search result of type [ty]: its id is a text and it says its type. *)
Definition tagged (ty : string) (d : doc) : Prop :=
  (exists s, d !! "_id" = Some (VStr s)) /\ d !! "type" = Some (VStr ty).

(** A hit of [search] as it joins the results: its id as text, and its
    type. *)
Definition tagged_from (ty : string) (hit d : doc) : Prop :=
  exists id,
    hit !! "_id" = Some id
    /\ d = <["type" := VStr ty]> (<["_id" := VStr (py_str id)]> hit).

(** One of [fields] of [d] holds a text in which the pattern [query] is
    found, case ignored. *)
Definition field_matches (e : env) (query : string) (fields : list string) (d : doc)
  : bool :=
  existsb (fun f => match d !! f with
                    | Some (VStr s) => regex_search_i e query s
                    | _ => false
                    end) fields.

(** What [search] finds in one collection [docs]: with the answer [ranked]
    of the text index, its first five documents, each with its score and
    without admin reference; without text index, the first five stored
    documents that match [query] in one of [fields], without admin
    reference.  [new] are these hits in order, tagged. *)
Definition search_group (e : env) (query ty : string) (fields : list string)
    (ranked : option (list (doc * value))) (docs new : list doc) : Prop :=
  exists hits,
    Forall2 (tagged_from ty) hits new
    /\ hits = match ranked with
              | Some ranked =>
                  (fun ds => <["score" := ds.2]> (delete "admin_id" ds.1)) <$> take 5 ranked
              | None =>
                  delete "admin_id" <$> take 5 (List.filter (field_matches e query fields) docs)
              end.

(** A world like [offline_env] in which a pattern is found in a text when
    the two are equal. *)
Definition literal_env (now : Z) : env :=
  {| utcnow := now;
     new_oid := fun n => N.of_nat (1000 + n);
     cloudinary_upload := fun _ => None;
     regex_search_i := String.eqb;
     text_search := fun _ _ _ => None;
     sample := fun n l => take n l;
     fromisoformat := fun _ => None;
     unicode_decimal := fun _ => None;
     int_max_str_digits := 4300;
     unicode_lower := fun s => s;
     float_int_div := fun diff n => Z.quot diff (n * 1000000);
     isoformat := fun t => pretty t;
     time_ago_cache := [] |}.

(** Documents carry an id, as every stored document of MongoDB does; and
    so do the hits of the text index. *)
Definition has_id (d : doc) : Prop := is_Some (d !! "_id").

Definition text_hits_have_ids (e : env) : Prop :=
  forall c q docs ranked,
    text_search e c q docs = Some ranked -> Forall (fun ds => has_id ds.1) ranked.

(** A computation that writes to the collections [cs] only: whatever the
    state, and whether it returns or raises, every other collection is
    left as it was. *)
Definition writes_within {A} (cs : list collection) (m : M A) : Prop :=
  forall st c, c ∉ cs -> (m st).2 c = st c.

(** Three readings of a regular expression, used to say what its words
    look like: the characters some class of it accepts, whether it has
    no word at all for a syntactic reason, and whether every word of it
    must contain the character [c]. *)
Fixpoint allows (r : regex) (c : ascii) : bool :=
  match r with
  | ReNone | ReEmpty => false
  | ReClass p => p c
  | ReCat a b | ReAlt a b => allows a c || allows b c
  | ReStar a => allows a c
  end.

Fixpoint dead (r : regex) : bool :=
  match r with
  | ReNone => true
  | ReEmpty | ReClass _ | ReStar _ => false
  | ReCat a b => dead a || dead b
  | ReAlt a b => dead a && dead b
  end.

Definition all_ascii : list ascii := ascii_of_nat <$> seq 0 256.

Definition only (c : ascii) (p : ascii -> bool) : bool :=
  forallb (fun x => implb (p x) (Ascii.eqb x c)) all_ascii.

Fixpoint must (c : ascii) (r : regex) : bool :=
  match r with
  | ReNone => true
  | ReEmpty | ReStar _ => false
  | ReClass p => only c p
  | ReCat a b => must c a || must c b
  | ReAlt a b => must c a && must c b
  end.

(** * Properties *)

(** ** Relative time *)

Lemma ago_spec_text (u : time_unit) (n : Z) :
  1 <= n -> ago n (unit_name u) = spec_text (Some (u, n)).
Proof.
  intros Hn. unfold ago, spec_text.
  destruct (Z.ltb_spec 1 n), (Z.eqb_spec n 1); try lia; reflexivity.
Qed.

Lemma int_seconds_div_floor (e : env) (diff n : Z) :
  0 <= diff < float_exact_below -> 0 < n ->
  int_seconds_div e diff n = diff / (n * second).
Proof.
  intros Hd Hn. unfold int_seconds_div, second.
  destruct (Z.ltb_spec diff float_exact_below); [|lia].
  apply Z.quot_div_nonneg; lia.
Qed.

Lemma whole_units_bounds (diff : Z) (u : time_unit) :
  unit_seconds u * second <= diff ->
  1 <= diff / (unit_seconds u * second) /\
  diff / (unit_seconds u * second) * (unit_seconds u * second) <= diff
    < (diff / (unit_seconds u * second) + 1) * (unit_seconds u * second).
Proof.
  intros Hd.
  assert (Hpos : 0 < unit_seconds u * second) by (destruct u; unfold second; simpl; lia).
  split.
  - apply Z.div_le_lower_bound; lia.
  - pose proof (Z.mul_div_le diff _ Hpos).
    pose proof (Z.mul_succ_div_gt diff _ Hpos). lia.
Qed.

Lemma spec_bucket_inv (diff : Z) (u : time_unit) (n : Z) :
  spec_bucket diff = Some (u, n) ->
  n = diff / (unit_seconds u * second) /\ unit_seconds u * second <= diff /\
  (u <> Month -> diff < match u with
                        | Minute => 3600 | Hour => 86400 | Day => 604800
                        | _ => 2592000 end * second).
Proof.
  unfold spec_bucket, whole_units, second.
  repeat (match goal with |- context [?a <? ?b] => destruct (Z.ltb_spec a b) end);
    intros [= <- <-]; simpl; repeat split; try lia; congruence.
Qed.

Lemma spec_bucket_monotone (d1 d2 : Z) :
  d1 <= d2 -> bucket_le (spec_bucket d1) (spec_bucket d2).
Proof.
  intros Hle.
  destruct (spec_bucket d1) as [[u n]|] eqn:H1; [|exact I].
  destruct (spec_bucket d2) as [[v m]|] eqn:H2.
  - apply spec_bucket_inv in H1 as (-> & Hlo1 & Hhi1).
    apply spec_bucket_inv in H2 as (-> & Hlo2 & Hhi2).
    simpl. unfold second in *.
    destruct u, v; simpl in *;
      first [ left; lia
            | right; split; [reflexivity|]; apply Z.div_le_mono; lia
            | exfalso;
              try (specialize (Hhi2 ltac:(discriminate)));
              try (specialize (Hhi1 ltac:(discriminate))); lia ].
  - apply spec_bucket_inv in H1 as (_ & Hlo1 & _).
    unfold spec_bucket, second in *.
    destruct (Z.ltb_spec d2 (60 * 1000000)); [|repeat case_match; discriminate].
    destruct u; simpl in *; lia.
Qed.

Lemma time_ago_body_refines (e : env) (t : Z) :
  utcnow e - t < float_exact_below ->
  time_ago_body e (VTime t) = ok (spec_text (spec_bucket (utcnow e - t))).
Proof.
  unfold time_ago_body, spec_bucket, seconds_lt, whole_units, second. simpl.
  set (d := utcnow e - t). intros Hd.
  repeat (match goal with |- context [?a <? ?b] => destruct (Z.ltb_spec a b) end);
    try reflexivity.
  all: f_equal.
  - rewrite int_seconds_div_floor by lia.
    apply (ago_spec_text Minute), (whole_units_bounds d Minute). unfold second; simpl; lia.
  - rewrite int_seconds_div_floor by lia.
    apply (ago_spec_text Hour), (whole_units_bounds d Hour). unfold second; simpl; lia.
  - rewrite int_seconds_div_floor by lia.
    apply (ago_spec_text Day), (whole_units_bounds d Day). unfold second; simpl; lia.
  - rewrite int_seconds_div_floor by lia.
    apply (ago_spec_text Week), (whole_units_bounds d Week). unfold second; simpl; lia.
  - rewrite int_seconds_div_floor by lia.
    apply (ago_spec_text Month), (whole_units_bounds d Month). unfold second; simpl; lia.
Qed.

Lemma lru_cached_miss (key text : string) (c : lru) :
  py_get key c = None ->
  lru_cached key (ok text) c = (ok text, take lru_maxsize ((key, text) :: c)).
Proof. intros H. unfold lru_cached. by rewrite H. Qed.

Lemma lru_cached_hit (key text : string) (computed : result string) (c : lru) :
  py_get key c = Some text ->
  lru_cached key computed c = (ok text, (key, text) :: lru_drop key c).
Proof. intros H. unfold lru_cached. by rewrite H. Qed.

(** C5. A call of [time_ago] whose argument is not in its cache, for an
    elapsed duration below 1024 months, answers the text of the bucket the
    fixed thresholds 60 s, 3600 s, 86400 s, 604800 s and 2592000 s put the
    duration in, and leaves that text in the cache; buckets never go back
    as the duration grows; the count is the whole number of units elapsed,
    at least one, and the unit takes its plural exactly when the count is
    not one.  In particular 59 s is "Just now", 60 s "1 minute ago",
    3599 s "59 minutes ago" and 3600 s "1 hour ago".  A call whose
    argument is in the cache answers the cached text, whatever the clock
    says, and keeps it cached. *)
Theorem time_ago_buckets (e : env) (c : lru) (t : Z) :
  let key := posted_at_text e (VTime t) in
  let answer := time_ago e c (VTime t) in
  (py_get key c = None ->
   utcnow e - t < float_exact_below ->
   answer.1 = ok (spec_text (spec_bucket (utcnow e - t)))
   /\ py_get key answer.2 = Some (spec_text (spec_bucket (utcnow e - t)))
   /\ (utcnow e - t = 59 * second -> answer.1 = ok "Just now")
   /\ (utcnow e - t = 60 * second -> answer.1 = ok "1 minute ago")
   /\ (utcnow e - t = 3599 * second -> answer.1 = ok "59 minutes ago")
   /\ (utcnow e - t = 3600 * second -> answer.1 = ok "1 hour ago")
   /\ (utcnow e - t = 86400 * second -> answer.1 = ok "1 day ago")
   /\ (utcnow e - t = 604800 * second -> answer.1 = ok "1 week ago")
   /\ (utcnow e - t = 2592000 * second -> answer.1 = ok "1 month ago")
   /\ (utcnow e - t = 5184000 * second -> answer.1 = ok "2 months ago"))
  /\ (forall text,
        py_get key c = Some text ->
        answer.1 = ok text /\ py_get key answer.2 = Some text)
  /\ (forall d1 d2, d1 <= d2 -> bucket_le (spec_bucket d1) (spec_bucket d2))
  /\ (forall d u n, spec_bucket d = Some (u, n) ->
        1 <= n /\ n * (unit_seconds u * second) <= d < (n + 1) * (unit_seconds u * second))
  /\ (forall d, d < 60 * second <-> spec_bucket d = None).
Proof.
  cbv zeta. split; [|split; [|split; [|split]]].
  - intros Hmiss Hd. unfold time_ago.
    rewrite (time_ago_body_refines e t Hd), (lru_cached_miss _ _ _ Hmiss).
    cbn [fst snd take lru_maxsize py_get]. rewrite String.eqb_refl.
    split; [done|]. split; [done|].
    repeat split; intros ->; reflexivity.
  - intros text Hhit. unfold time_ago. rewrite (lru_cached_hit _ _ _ _ Hhit).
    cbn [fst snd py_get]. by rewrite String.eqb_refl.
  - apply spec_bucket_monotone.
  - intros d u n H. apply spec_bucket_inv in H as (-> & Hlo & _).
    destruct (whole_units_bounds d u Hlo) as [? ?]. lia.
  - intros d. unfold spec_bucket.
    destruct (Z.ltb_spec d (60 * second)); split; intros; try lia; try reflexivity.
    repeat case_match; discriminate.
Qed.

(** The claim as stated fails on a second call: the item posted at
    instant 0 is shown at instant 0, and shown again one hour later with
    the cache the first call left; the second answer is the first one. *)
Lemma time_ago_replays_first_answer :
  let first := time_ago (offline_env 0) [] (VTime 0) in
  let second_call := time_ago (offline_env (3600 * second)) first.2 (VTime 0) in
  first.1 = ok "Just now"
  /\ utcnow (offline_env (3600 * second)) - 0 = 3600 * second
  /\ spec_text (spec_bucket (3600 * second)) = "1 hour ago"
  /\ second_call.1 = ok "Just now"
  /\ second_call.1 <> ok (spec_text (spec_bucket (3600 * second))).
Proof. vm_compute. repeat split; discriminate. Qed.

(** ** Listings and pagination *)

#[global] Instance descending_total k : Total (descending k).
Proof.
  intros a b. unfold descending.
  destruct (date_key k a), (date_key k b); simpl; try lia; auto.
Qed.

#[global] Instance descending_trans k : Transitive (descending k).
Proof.
  intros a b c. unfold descending.
  destruct (date_key k a), (date_key k b), (date_key k c); simpl; try lia; auto.
Qed.

Lemma find_everything (e : env) (p : projection) (c : list doc) :
  matched (find e (QFields []) p c) = c.
Proof. simpl. apply filter_true. Qed.

Lemma StronglySorted_take {A} (R : relation A) (n : nat) (l : list A) :
  StronglySorted R l -> StronglySorted R (take n l).
Proof.
  intros H. rewrite <- (take_drop n l) in H. by apply StronglySorted_app_1_l in H.
Qed.

Lemma StronglySorted_drop {A} (R : relation A) (n : nat) (l : list A) :
  StronglySorted R l -> StronglySorted R (drop n l).
Proof.
  intros H. rewrite <- (take_drop n l) in H. by apply StronglySorted_app_1_r in H.
Qed.

Lemma date_key_delete (k k' : string) (d : doc) :
  k <> k' -> date_key k (delete k' d) = date_key k d.
Proof. intros Hne. unfold date_key. by rewrite lookup_delete_ne. Qed.

Lemma descending_hide_admin (a b : doc) :
  descending "posted_at" a b ->
  descending "posted_at" (project (PExclude ["admin_id"]) a)
                         (project (PExclude ["admin_id"]) b).
Proof. unfold descending. simpl. by rewrite !date_key_delete. Qed.

Lemma get_pagination_data_ceil (page_ total : Z) :
  let pg := get_pagination_data page_ total in
  ITEMS_PER_PAGE * (total_pages pg - 1) < total <= ITEMS_PER_PAGE * total_pages pg.
Proof.
  simpl. unfold ITEMS_PER_PAGE.
  pose proof (Z.mul_div_le (total + 30 - 1) 30 ltac:(lia)).
  pose proof (Z.mul_succ_div_gt (total + 30 - 1) 30 ltac:(lia)). lia.
Qed.

(** C4. For each of the four content types that have a paginated public
    listing (jobs, workshops, courses, hackathons) and every page from 1
    on, the listing answers at most 30 items: the window that starts after
    (page-1)*30 items of the collection sorted by posting time, newest
    first, with the admin reference projected away; the total is the size
    of the collection; and the pagination computed from it has
    total_pages = ceil(total/30), has_prev exactly for page > 1, has_next
    exactly for page < total_pages, and the adjacent page numbers where
    they exist. *)
Theorem public_listing_page (e : env) (content_type : string) (page_ : Z) (st : db) :
  content_type ∈ ["jobs"; "workshops"; "courses"; "hackathons"] ->
  1 <= page_ ->
  exists coll items total sorted,
    py_get content_type admin_collection_map = Some coll
    /\ get_cached_content e content_type page_ st = (ok (items, total), st)
    /\ (length items <= 30)%nat
    /\ StronglySorted (descending "posted_at") items
    /\ sorted ≡ₚ st coll
    /\ StronglySorted (descending "posted_at") sorted
    /\ items = project (PExclude ["admin_id"])
                 <$> take 30 (drop (Z.to_nat ((page_ - 1) * 30)) sorted)
    /\ total = Z.of_nat (length (st coll))
    /\ let pg := get_pagination_data page_ total in
       page pg = page_
       /\ 30 * (total_pages pg - 1) < total <= 30 * total_pages pg
       /\ (has_prev pg = true <-> 1 < page_)
       /\ (has_next pg = true <-> page_ < total_pages pg)
       /\ prev_page pg = (if has_prev pg then Some (page_ - 1) else None)
       /\ next_page pg = (if has_next pg then Some (page_ + 1) else None).
Proof.
  intros Hct Hpage.
  assert (Hmeta : forall total, let pg := get_pagination_data page_ total in
       page pg = page_
       /\ 30 * (total_pages pg - 1) < total <= 30 * total_pages pg
       /\ (has_prev pg = true <-> 1 < page_)
       /\ (has_next pg = true <-> page_ < total_pages pg)
       /\ prev_page pg = (if has_prev pg then Some (page_ - 1) else None)
       /\ next_page pg = (if has_next pg then Some (page_ + 1) else None)).
  { intros total pg. split; [reflexivity|]. split; [apply get_pagination_data_ceil|].
    subst pg. simpl. rewrite !Z.ltb_lt. tauto. }
  assert (Hcoll : exists coll,
             py_get content_type admin_collection_map = Some coll
             /\ py_get content_type public_collection_map = Some coll).
  { repeat (apply elem_of_cons in Hct as [->|Hct]); try (eexists; split; reflexivity).
    by apply elem_of_nil in Hct. }
  destruct Hcoll as (coll & Hadmin & Hmap).
  unfold get_cached_content. rewrite Hmap.
  assert (Hskip : ((page_ - 1) * ITEMS_PER_PAGE <? 0) = false)
    by (apply Z.ltb_ge; unfold ITEMS_PER_PAGE; lia).
  set (sorted := merge_sort (descending "posted_at") (st coll)).
  assert (Hsorted : StronglySorted (descending "posted_at") sorted)
    by (apply StronglySorted_merge_sort; apply _).
  exists coll,
         (project (PExclude ["admin_id"])
            <$> take 30 (drop (Z.to_nat ((page_ - 1) * 30)) sorted)),
         (Z.of_nat (length (st coll))), sorted.
  split; [exact Hadmin|].
  split.
  { unfold bindM, read, lift, skip, pure. rewrite Hskip. simpl.
    rewrite filter_true. reflexivity. }
  split.
  { rewrite length_fmap, length_take. lia. }
  split.
  { apply (StronglySorted_fmap _ _ _ _ descending_hide_admin).
    by apply StronglySorted_take, StronglySorted_drop. }
  split; [apply merge_sort_Permutation|].
  split; [exact Hsorted|]. split; [reflexivity|]. split; [reflexivity|].
  apply Hmeta.
Qed.

(** ** The database operations *)

Lemma matches_by_field (e : env) (k : string) (v : value) (d : doc) :
  v <> VNone -> matches e (by_field k v) d = bool_decide (d !! k = Some v).
Proof.
  intros Hv. simpl. rewrite andb_true_r. unfold match_eq.
  destruct (d !! k) as [w|].
  - apply bool_decide_ext. split; congruence.
  - rewrite !bool_decide_eq_false_2; congruence.
Qed.

Lemma matches_by_oid (e : env) (k : string) (o : ObjectId) (d : doc) :
  matches e (by_field k (VOid o)) d = bool_decide (d !! k = Some (VOid o)).
Proof. by apply matches_by_field. Qed.

Lemma update_one_no_match (e : env) (q : query) (u : update) (c : list doc) :
  Forall (fun d => matches e q d = false) c -> update_one e q u c = ok (0, c).
Proof.
  induction 1 as [|d c Hd _ IH]; [reflexivity|].
  simpl. rewrite Hd, IH. reflexivity.
Qed.

Lemma update_one_first (e : env) (q : query) (u : update) (l1 l2 : list doc) (d d' : doc) :
  Forall (fun x => matches e q x = false) l1 ->
  matches e q d = true ->
  apply_update u d = ok d' ->
  update_one e q u (l1 ++ d :: l2) = ok (1, l1 ++ d' :: l2).
Proof.
  intros Hl1 Hd Hu. induction Hl1 as [|x l1 Hx _ IH]; simpl.
  - rewrite Hd, Hu. reflexivity.
  - rewrite Hx, IH. reflexivity.
Qed.

Lemma none_with_no_match (e : env) (k : string) (o : ObjectId) (c : list doc) :
  none_with k (VOid o) c -> Forall (fun d => matches e (by_field k (VOid o)) d = false) c.
Proof.
  intros H. eapply Forall_impl; [exact H|].
  intros d Hd. rewrite matches_by_oid. by apply bool_decide_eq_false_2.
Qed.

Lemma db_put_same (c : collection) (l : list doc) (st : db) : db_put c l st c = l.
Proof. unfold db_put. by rewrite decide_True. Qed.

Lemma db_put_other (c c' : collection) (l : list doc) (st : db) :
  c' <> c -> db_put c l st c' = st c'.
Proof. intros. unfold db_put. by rewrite decide_False. Qed.

Lemma db_put_id (c : collection) (st : db) (c' : collection) :
  db_put c (st c) st c' = st c'.
Proof. unfold db_put. case_decide; congruence. Qed.

Lemma ObjectId_is_valid_Some (s : string) (o : ObjectId) :
  ObjectId_of_string s = Some o -> ObjectId_is_valid s = true.
Proof. intros H. unfold ObjectId_is_valid. rewrite H. by apply bool_decide_eq_true_2. Qed.

Lemma ObjectId_is_valid_None (s : string) :
  ObjectId_of_string s = None -> ObjectId_is_valid s = false.
Proof.
  intros H. unfold ObjectId_is_valid. rewrite H.
  apply bool_decide_eq_false_2. by intros [? ?].
Qed.

(** Running a handler: the monad's plumbing is unfolded and the redexes it
    leaves are contracted, the database operations stay folded. *)
Ltac run_handler :=
  unfold respond, try_except, update_one_in, insert_one_in, delete_one_in,
    delete_many_in, bindM, lift, read, write, pure, throw, rbind, ok, raise;
  cbv beta iota zeta.

(** Membership in a list of literal keys, and its negation. *)
Ltac in_keys := repeat first [apply list_elem_of_here | apply list_elem_of_further].
Ltac not_in_keys :=
  rewrite ?not_elem_of_cons; repeat split; try discriminate; apply not_elem_of_nil.

(** Reading a collection back after writes. *)
Ltac db_simpl :=
  repeat first [rewrite db_put_same | rewrite db_put_other by congruence].

(** ** Ad clicks *)

Lemma to_bson_lookup (d : pydict) (k : string) : to_bson d !! k = py_get k d.
Proof.
  unfold to_bson. induction d as [|[k' v'] d IH]; simpl; [done|].
  destruct (String.eqb_spec k' k) as [->|].
  - by rewrite lookup_insert_eq.
  - by rewrite lookup_insert_ne.
Qed.

Lemma update_one_first_fails (e : env) (q : query) (u : update) (l1 l2 : list doc)
  (d : doc) (x : exn) :
  Forall (fun y => matches e q y = false) l1 ->
  matches e q d = true ->
  apply_update u d = raise x ->
  update_one e q u (l1 ++ d :: l2) = raise x.
Proof.
  intros Hl1 Hd Hu. induction Hl1 as [|y l1 Hy _ IH]; simpl.
  - rewrite Hd, Hu. reflexivity.
  - rewrite Hy, IH. reflexivity.
Qed.

(** C1. [ad_click] on an id that [ObjectId.is_valid] refuses answers 400
    "Invalid ad ID" and leaves the database as it was; on a well-formed id
    that no ad carries it answers 404 "Ad not found" and every collection,
    the click log included, keeps its documents; on a well-formed id
    carried by an ad whose [clicks] field is absent or a number, read as
    [n], it answers success, that ad (the first with the id) has its
    counter at [n + 1] and is otherwise unchanged, the other ads are
    unchanged, and the click log gains exactly one record, made of the ad
    id, the time, the user id of the session ([None] for a visitor), the
    client address and a fresh [_id]; when the [clicks] field of that ad
    holds anything else, the answer is 500 "Server error" and the database
    is as it was. *)
Theorem ad_click_spec (e : env) (r : request) (ad_id : string) (st : db) :
  (ObjectId_of_string ad_id = None ->
     respond (ad_click e r ad_id) st
     = (Jsonify (json_success false (Some "Invalid ad ID")) 400, st))
  /\ (forall oid,
        ObjectId_of_string ad_id = Some oid ->
        none_with "_id" (VOid oid) (st ads_collection) ->
        exists st',
          respond (ad_click e r ad_id) st
          = (Jsonify (json_success false (Some "Ad not found")) 404, st')
          /\ forall c, st' c = st c)
  /\ (forall oid before ad after,
        ObjectId_of_string ad_id = Some oid ->
        st ads_collection = before ++ ad :: after ->
        none_with "_id" (VOid oid) before ->
        ad !! "_id" = Some (VOid oid) ->
        (forall n,
           ad !! "clicks" = None /\ n = 0 \/ ad !! "clicks" = Some (VInt n) ->
           exists st' record,
             respond (ad_click e r ad_id) st = (Jsonify (json_success true None) 200, st')
             /\ st' ads_collection = before ++ <["clicks" := VInt (n + 1)]> ad :: after
             /\ st' ad_clicks_collection = st ad_clicks_collection ++ [record]
             /\ record !! "ad_id" = Some (VOid oid)
             /\ record !! "clicked_at" = Some (VTime (utcnow e))
             /\ record !! "user_id"
                = Some (match session_user_id r with Some u => VStr u | None => VNone end)
             /\ record !! "ip_address" = Some (remote_addr r)
             /\ record !! "_id" = Some (VOid (new_oid e 0))
             /\ (forall k,
                   k ∉ ["ad_id"; "clicked_at"; "user_id"; "ip_address"; "_id"] ->
                   record !! k = None)
             /\ forall c, c <> ads_collection -> c <> ad_clicks_collection -> st' c = st c)
        /\ (forall v,
              ad !! "clicks" = Some v ->
              (forall n, v <> VInt n) ->
              respond (ad_click e r ad_id) st
              = (Jsonify (json_success false (Some "Server error")) 500, st))).
Proof.
  split; [|split].
  - intros Hbad. unfold ad_click.
    rewrite (ObjectId_is_valid_None _ Hbad). reflexivity.
  - intros oid Hoid Hnone.
    exists (db_put ads_collection (st ads_collection) st). split.
    + unfold ad_click, ObjectId_new.
      rewrite (ObjectId_is_valid_Some _ _ Hoid), Hoid. simpl negb. run_handler.
      rewrite (update_one_no_match _ _ _ _ (none_with_no_match e _ _ _ Hnone)).
      reflexivity.
    + apply db_put_id.
  - intros oid before ad after Hoid Hads Hbefore Had.
    assert (Hm : matches e (by_field "_id" (VOid oid)) ad = true)
      by (rewrite matches_by_oid; by apply bool_decide_eq_true_2).
    split.
    + intros n Hn.
      assert (Hup : apply_update (UInc "clicks" 1) ad
                    = ok (<["clicks" := VInt (n + 1)]> ad)).
      { simpl. destruct Hn as [[-> ->]| ->]; reflexivity. }
      eexists. eexists. split; [|split; [|split]].
      * unfold ad_click, ObjectId_new.
        rewrite (ObjectId_is_valid_Some _ _ Hoid), Hoid. simpl negb. run_handler.
        rewrite Hads.
        rewrite (update_one_first e _ _ before after ad _
                   (none_with_no_match e _ _ _ Hbefore) Hm Hup).
        reflexivity.
      * simpl. rewrite db_put_other by discriminate. by rewrite db_put_same.
      * simpl. rewrite db_put_same. rewrite db_put_other by discriminate. reflexivity.
      * assert (Hlook : forall k v (d : doc), <[k := v]> d !! k = Some v)
          by (intros; apply lookup_insert_eq).
        split; [by rewrite ?lookup_insert_ne by discriminate|].
        split; [by rewrite ?lookup_insert_ne by discriminate|].
        split; [by rewrite ?lookup_insert_ne by discriminate|].
        split; [by rewrite ?lookup_insert_ne by discriminate|].
        split; [by rewrite ?lookup_insert_ne by discriminate|]. split.
        -- intros k Hk. rewrite !not_elem_of_cons in Hk.
           destruct Hk as (H1 & H2 & H3 & H4 & H5 & _).
           rewrite !lookup_insert_ne by congruence. apply lookup_empty.
        -- intros c Hc1 Hc2. simpl. by rewrite !db_put_other.
    + intros v Hv Hnot.
      assert (Hup : apply_update (UInc "clicks" 1) ad = raise WriteError).
      { simpl. rewrite Hv. destruct v; try reflexivity. by destruct (Hnot n). }
      unfold ad_click, ObjectId_new.
      rewrite (ObjectId_is_valid_Some _ _ Hoid), Hoid. simpl negb. run_handler.
      rewrite Hads.
      pose proof (update_one_first_fails e _ _ before after ad _
                    (none_with_no_match e _ _ _ Hbefore) Hm Hup) as Hfail.
      unfold raise in Hfail. rewrite Hfail. reflexivity.
Qed.

(** ** Dictionaries *)

Lemma py_get_set_eq (k : string) (v : value) (d : pydict) :
  py_get k (py_set k v d) = Some v.
Proof.
  induction d as [|[k' v'] d IH]; simpl.
  - by rewrite String.eqb_refl.
  - destruct (String.eqb k' k) eqn:E; simpl; rewrite E; done.
Qed.

Lemma py_get_set_ne (k k' : string) (v : value) (d : pydict) :
  k <> k' -> py_get k' (py_set k v d) = py_get k' d.
Proof.
  intros Hne. induction d as [|[k0 v0] d IH]; simpl.
  - destruct (String.eqb_spec k k'); congruence.
  - destruct (String.eqb_spec k0 k) as [->|]; simpl.
    + destruct (String.eqb_spec k k'); congruence.
    + by rewrite IH.
Qed.

Lemma py_get_elem {A} (k : string) (v : A) (d : list (string * A)) :
  py_get k d = Some v -> (k, v) ∈ d.
Proof.
  induction d as [|[k' v'] d IH]; simpl; [done|].
  destruct (String.eqb_spec k' k) as [->|].
  - intros [= ->]. left.
  - intros H. right. auto.
Qed.

Lemma py_item_set_eq (k : string) (v : value) (d : pydict) :
  py_item k (py_set k v d) = v.
Proof. unfold py_item, py_get_default. by rewrite py_get_set_eq. Qed.

Lemma Forall_py_set (P : string * value -> Prop) (k : string) (v : value) (d : pydict) :
  P (k, v) -> Forall P d -> Forall P (py_set k v d).
Proof.
  intros Hkv. induction 1 as [|[k' v'] d Hx Hd IH]; simpl.
  - by repeat constructor.
  - destruct (String.eqb_spec k' k) as [->|]; constructor; auto.
Qed.

Lemma Forall_py_del (P : string * value -> Prop) (k : string) (d : pydict) :
  Forall P d -> Forall P (py_del k d).
Proof.
  induction 1 as [|[k' v'] d Hx Hd IH]; simpl; [constructor|].
  destruct (String.eqb k' k); [done|by constructor].
Qed.

Lemma strings_except_weaken (ks ks' : list string) (d : pydict) :
  ks ⊆ ks' -> strings_except ks d -> strings_except ks' d.
Proof.
  intros Hsub Hd. eapply Forall_impl; [exact Hd|].
  intros [k v] [H|H]; [left; auto|by right].
Qed.

Lemma strings_except_set_str (ks : list string) (k s : string) (d : pydict) :
  strings_except ks d -> strings_except ks (py_set k (VStr s) d).
Proof. apply Forall_py_set. right. by exists s. Qed.

Lemma strings_except_set (ks : list string) (k : string) (v : value) (d : pydict) :
  k ∈ ks -> strings_except ks d -> strings_except ks (py_set k v d).
Proof. intros Hk. apply Forall_py_set. by left. Qed.

Lemma strings_except_del (ks : list string) (k : string) (d : pydict) :
  strings_except ks d -> strings_except ks (py_del k d).
Proof. apply Forall_py_del. Qed.

Lemma strings_except_get (ks : list string) (k : string) (v : value) (d : pydict) :
  strings_except ks d -> k ∉ ks -> py_get k d = Some v -> exists s, v = VStr s.
Proof.
  intros Hd Hk Hget. apply py_get_elem in Hget.
  unfold strings_except in Hd. rewrite Forall_forall in Hd.
  destruct (Hd _ Hget) as [H|H]; [done|exact H].
Qed.

Lemma form_to_dict_strings (f : list (string * string)) :
  strings_except [] (form_to_dict f).
Proof.
  induction f as [|[k v] f IH]; simpl; [constructor|].
  constructor; [right; by exists v|]. by apply strings_except_del.
Qed.

Lemma set_default_value_str (s : string) : exists s', set_default_value (VStr s) = VStr s'.
Proof. simpl. destruct (String.eqb (strip s) ""); eauto. Qed.

Lemma sanitize_field_strings (ks : list string) (d : pydict) (key : string) :
  strings_except ks d -> strings_except ks (sanitize_field d key).
Proof.
  intros Hd. unfold sanitize_field. destruct (py_item key d); try done.
  rewrite py_item_set_eq.
  destruct (set_default_value_str (sanitize_input s)) as [s' ->].
  by do 2 apply strings_except_set_str.
Qed.

Lemma foldl_preserves {A B} (P : A -> Prop) (f : A -> B -> A) (l : list B) (a : A) :
  (forall a b, P a -> P (f a b)) -> P a -> P (foldl f a l).
Proof. intros Hf. revert a. induction l; simpl; auto. Qed.

Lemma split_requirements_field_ok (ks : list string) (d : pydict) :
  strings_except ks d -> "requirements" ∉ ks ->
  exists d', split_requirements_field d = ok d'
             /\ strings_except ("requirements" :: ks) d'
             /\ forall k, k <> "requirements" -> py_get k d' = py_get k d.
Proof.
  intros Hd Hk. unfold split_requirements_field.
  assert (Hweak : strings_except ("requirements" :: ks) d)
    by (eapply strings_except_weaken; [|exact Hd]; apply list_subseteq_cons; done).
  destruct (py_in "requirements" d && _) eqn:E; [|eauto].
  apply andb_true_iff in E as [Hin _]. unfold py_in in Hin.
  unfold py_item, py_get_default.
  destruct (py_get "requirements" d) as [v|] eqn:Hget; [|done].
  destruct (strings_except_get _ _ _ _ Hd Hk Hget) as [s ->].
  eexists. split; [reflexivity|]. split.
  - apply strings_except_set; [in_keys|done].
  - intros k Hne. by rewrite py_get_set_ne.
Qed.

Lemma insert_one_spec (fresh : ObjectId) (d : pydict) (c : list doc) :
  exists item,
    (insert_one fresh d c).2 = c ++ [item]
    /\ item !! "_id" = Some (insert_one fresh d c).1
    /\ forall k, k <> "_id" -> item !! k = py_get k d.
Proof.
  unfold insert_one, py_in. simpl.
  destruct (py_get "_id" d) as [v|] eqn:Hid.
  - exists (to_bson d). split; [done|]. split.
    + rewrite to_bson_lookup. unfold py_item, py_get_default. by rewrite Hid.
    + intros. apply to_bson_lookup.
  - eexists. split; [reflexivity|]. split.
    + by rewrite to_bson_lookup, py_get_set_eq, py_item_set_eq.
    + intros. by rewrite to_bson_lookup, py_get_set_ne.
Qed.

Lemma admin_required_pass (r : request) (uid : string) (f : M response) :
  session_user_id r = Some uid -> session_is_admin r = true ->
  admin_required r f = f.
Proof.
  intros Hu Ha. unfold admin_required. rewrite Hu, Ha.
  by rewrite bool_decide_eq_true_2.
Qed.

(** ** Creating content *)

Lemma add_content_data_ok (e : env) (r : request) (uid : string) :
  session_user_id r = Some uid ->
  exists data,
    add_content_data e r = ok data
    /\ strings_except
         ["requirements"; "image"; "posted_at"; "admin_id"; "certification"; "active"] data.
Proof.
  intros Hu. unfold add_content_data, session_user. rewrite Hu. simpl.
  set (ks := ["image"; "posted_at"; "admin_id"; "certification"; "active"]).
  match goal with |- context [split_requirements_field ?d] =>
    assert (Hd : strings_except ks d) end.
  { assert (H0 : strings_except ks (form_to_dict (form r)))
      by (eapply strings_except_weaken; [|apply form_to_dict_strings];
          apply list_subseteq_nil).
    repeat match goal with
    | |- strings_except _ (if _ then _ else _) => case_match
    | |- strings_except _ (match _ with Some _ => _ | None => _ end) => case_match
    | |- strings_except _ (to_flag _ _) => apply strings_except_set; [subst ks; in_keys|]
    | |- strings_except _ (py_set _ _ _) => apply strings_except_set; [subst ks; in_keys|]
    | |- strings_except _ (foldl _ _ _) =>
        apply foldl_preserves; [intros; by apply sanitize_field_strings|]
    end; exact H0. }
  destruct (split_requirements_field_ok ks _ Hd) as (d' & Hok & Hd' & _);
    [subst ks; not_in_keys|].
  exists d'. by split.
Qed.

Lemma add_content_ad_data_ok (e : env) (r : request) (ct uid : string)
    (data : pydict) (id : value) (ks : list string) :
  session_user_id r = Some uid ->
  strings_except ks data -> "description" ∉ ks ->
  exists ad_data,
    add_content_ad_data e r ct data id = ok ad_data
    /\ py_get "content_reference" ad_data = Some id
    /\ py_get "clicks" ad_data = Some (VInt 0)
    /\ py_get "impressions" ad_data = Some (VInt 0)
    /\ py_get "active" ad_data = Some (VBool true)
    /\ py_get "_id" ad_data = None.
Proof.
  intros Hu Hd Hk. unfold add_content_ad_data, session_user, or_sliced. rewrite Hu.
  destruct (truthy (py_get_default "role" VNone data)); [simpl; eauto 10|].
  unfold py_get_default at 1.
  destruct (py_get "description" data) as [v|] eqn:Hget.
  - destruct (strings_except_get _ _ _ _ Hd Hk Hget) as [s ->]. simpl. eauto 10.
  - simpl. eauto 10.
Qed.

(** C3. Creating a content item (a job, workshop, course, hackathon,
    roadmap or website) as the admin stores the item and, when the
    submitted form has no [promote_as_ad] field or one that is not "on",
    leaves the ads as they were; when the form has [promote_as_ad] "on",
    exactly one ad is added, whose [content_reference] is the id of the
    item just stored, whose click and impression counters are 0 and whose
    [active] flag is true. *)
Theorem create_promotes (e : env) (r : request) (content_type uid : string) (st : db) :
  session_user_id r = Some uid ->
  session_is_admin r = true ->
  content_type ∈ content_item_types ->
  exists coll item new_id st',
    py_get content_type admin_collection_map = Some coll
    /\ respond (admin_add_content e r content_type) st
       = (RedirectTo "admin_content"
            [(capitalize content_type +:+ " added successfully!", "success")], st')
    /\ st' coll = st coll ++ [item]
    /\ item !! "_id" = Some new_id
    /\ (py_get "promote_as_ad" (form r) <> Some "on" ->
        st' ads_collection = st ads_collection)
    /\ (py_get "promote_as_ad" (form r) = Some "on" ->
        exists ad,
          st' ads_collection = st ads_collection ++ [ad]
          /\ ad !! "content_reference" = Some new_id
          /\ ad !! "clicks" = Some (VInt 0)
          /\ ad !! "impressions" = Some (VInt 0)
          /\ ad !! "active" = Some (VBool true)).
Proof.
  intros Hu Ha Hct.
  assert (Hcoll : exists coll,
             py_get content_type admin_collection_map = Some coll
             /\ coll <> ads_collection).
  { unfold content_item_types in Hct.
    repeat (apply elem_of_cons in Hct as [->|Hct]); try (eexists; split; [reflexivity|done]).
    by apply elem_of_nil in Hct. }
  destruct Hcoll as (coll & Hmap & Hne). exists coll.
  destruct (add_content_data_ok e r uid Hu) as (data & Hdata & Hshape).
  destruct (insert_one_spec (new_oid e 0) data (st coll)) as (item & Hins & Hid & _).
  exists item, (insert_one (new_oid e 0) data (st coll)).1.
  unfold admin_add_content. rewrite (admin_required_pass r uid) by done.
  rewrite Hmap, Hdata.
  destruct (promote_flag r) eqn:Hp; unfold promote_flag in Hp;
    [apply bool_decide_eq_true_1 in Hp|apply bool_decide_eq_false_1 in Hp].
  - destruct (add_content_ad_data_ok e r content_type uid data
                (insert_one (new_oid e 0) data (st coll)).1 _ Hu Hshape)
      as (ad_data & Had & Href & Hclicks & Himp & Hact & Hnoid); [not_in_keys|].
    eexists. split; [done|]. split; [run_handler; rewrite Had; reflexivity|].
    db_simpl.
    split; [done|]. split; [done|]. split; [done|]. intros _.
    destruct (insert_one_spec (new_oid e 1) ad_data (st ads_collection))
      as (ad & Hins' & _ & Hfields).
    exists ad. split; [done|].
    rewrite !Hfields by done. done.
  - eexists. split; [done|]. split; [run_handler; reflexivity|].
    db_simpl.
    split; [done|]. split; [done|]. split; [done|]. done.
Qed.

(** ** Deleting content *)

Lemma delete_many_kept (e : env) (q : query) (c : list doc) :
  (delete_many e q c).2 = List.filter (fun d => negb (matches e q d)) c.
Proof. reflexivity. Qed.

Lemma delete_many_none_with (e : env) (k : string) (o : ObjectId) (c : list doc) :
  none_with k (VOid o) (delete_many e (by_field k (VOid o)) c).2.
Proof.
  rewrite delete_many_kept. unfold none_with.
  induction c as [|d c IH]; [constructor|].
  cbn [List.filter]. rewrite matches_by_oid.
  case_bool_decide; simpl; [done|]. by constructor.
Qed.

Lemma delete_many_sublist (e : env) (q : query) (c : list doc) :
  (delete_many e q c).2 ⊆ c.
Proof.
  rewrite delete_many_kept. intros d Hd.
  apply list_elem_of_In, filter_In in Hd as [Hd _]. by apply list_elem_of_In.
Qed.

Lemma delete_one_sublist (e : env) (q : query) (c : list doc) :
  delete_one e q c ⊆ c.
Proof.
  induction c as [|d c IH]; simpl; [done|].
  destruct (matches e q d).
  - by apply list_subseteq_cons.
  - intros x Hx. apply elem_of_cons in Hx as [->|Hx]; [left|right; by apply IH].
Qed.

(** C8. Deleting content of any type the admin routes accept, by a
    well-formed id, leaves no ad whose [content_reference] is that id: the
    ads kept are those of before that do not refer to it, and for a content
    item proper its first document with that id is removed from its
    collection. *)
Theorem delete_cascades (e : env) (r : request) (content_type id uid : string)
    (coll : collection) (oid : ObjectId) (st : db) :
  session_user_id r = Some uid ->
  session_is_admin r = true ->
  py_get content_type admin_collection_map = Some coll ->
  ObjectId_of_string id = Some oid ->
  exists st',
    respond (admin_delete_content e r content_type id) st
    = (RedirectTo "admin_content"
         [(capitalize content_type +:+ " deleted successfully!", "success")], st')
    /\ none_with "content_reference" (VOid oid) (st' ads_collection)
    /\ List.filter (fun d => bool_decide (d !! "content_reference" = Some (VOid oid)))
         (st' ads_collection) = []
    /\ st' ads_collection ⊆ st ads_collection
    /\ (coll <> ads_collection ->
        st' coll = delete_one e (by_field "_id" (VOid oid)) (st coll)
        /\ st' ads_collection
           = List.filter
               (fun d => negb (bool_decide (d !! "content_reference" = Some (VOid oid))))
               (st ads_collection)).
Proof.
  intros Hu Ha Hmap Hoid.
  unfold admin_delete_content, ObjectId_new.
  rewrite (admin_required_pass r uid) by done. rewrite Hmap, Hoid.
  eexists. split; [run_handler; reflexivity|].
  db_simpl.
  assert (Hnone := delete_many_none_with e "content_reference" oid
            (db_put coll (delete_one e (by_field "_id" (VOid oid)) (st coll)) st
               ads_collection)).
  split; [exact Hnone|]. split; [|split].
  - revert Hnone. generalize ((delete_many e (by_field "content_reference" (VOid oid))
            (db_put coll (delete_one e (by_field "_id" (VOid oid)) (st coll)) st
               ads_collection)).2).
    intros l. induction 1 as [|d l Hd _ IH]; [done|].
    cbn [List.filter]. by rewrite bool_decide_eq_false_2.
  - etransitivity; [apply delete_many_sublist|].
    destruct (decide (coll = ads_collection)) as [->|Hne].
    + rewrite db_put_same. apply delete_one_sublist.
    + by rewrite db_put_other by congruence.
  - intros Hne. db_simpl. split; [done|].
    rewrite delete_many_kept. apply filter_ext. intros d. by rewrite matches_by_oid.
Qed.

(** ** Editing content *)

Lemma normalize_flag_strings (ks : list string) (k : string) (d : pydict) :
  k ∈ ks -> strings_except ks d -> strings_except ks (normalize_flag k d).
Proof.
  intros Hk Hd. unfold normalize_flag, to_flag.
  destruct (py_in k d); by apply strings_except_set.
Qed.

Lemma edit_field_strings (ks : list string) (d : pydict) (key : string) :
  "certification" ∈ ks -> "active" ∈ ks -> "is_project" ∈ ks ->
  strings_except ks d -> strings_except ks (edit_field d key).
Proof.
  intros H1 H2 H3 Hd. unfold edit_field. destruct (py_item key d); try done.
  rewrite py_item_set_eq.
  destruct (set_default_value_str (sanitize_input s)) as [s' ->].
  repeat (apply normalize_flag_strings; [done|]).
  by do 2 apply strings_except_set_str.
Qed.

Lemma edit_content_data_ok (e : env) (r : request) :
  exists data, edit_content_data e r = ok data /\ strings_except edit_special data.
Proof.
  unfold edit_content_data.
  set (ks := ["updated_at"; "image"; "certification"; "active"; "is_project"]).
  match goal with |- context [split_requirements_field ?d] =>
    assert (Hd : strings_except ks d) end.
  { assert (H0 : strings_except ks (form_to_dict (form r)))
      by (eapply strings_except_weaken; [|apply form_to_dict_strings];
          apply list_subseteq_nil).
    apply foldl_preserves.
    { intros. apply edit_field_strings; try done; subst ks; in_keys. }
    repeat match goal with
    | |- strings_except _ (if _ then _ else _) => case_match
    | |- strings_except _ (match _ with Some _ => _ | None => _ end) => case_match
    | |- strings_except _ (py_del _ _) => apply strings_except_del
    | |- strings_except _ (py_set _ _ _) =>
        apply strings_except_set; [subst ks; in_keys|]
    end; exact H0. }
  destruct (split_requirements_field_ok ks _ Hd) as (d' & Hok & Hd' & _).
  { subst ks. not_in_keys. }
  rewrite Hok. eexists. split; [reflexivity|].
  apply strings_except_set; [|exact Hd'].
  unfold edit_special. in_keys.
Qed.

Lemma strings_except_default (ks : list string) (k : string) (d : pydict) :
  strings_except ks d -> k ∉ ks ->
  forall dflt, exists s, py_get_default k (VStr dflt) d = VStr s.
Proof.
  intros Hd Hk dflt. unfold py_get_default.
  destruct (py_get k d) as [v|] eqn:Hget; [|eauto].
  destruct (strings_except_get _ _ _ _ Hd Hk Hget) as [s ->]. eauto.
Qed.

Lemma edit_content_ad_data_ok (e : env) (r : request) (ct uid : string)
    (data : pydict) (oid : ObjectId) :
  session_user_id r = Some uid ->
  strings_except edit_special data ->
  exists ad_data,
    edit_content_ad_data e r ct data oid = ok ad_data
    /\ py_get "content_reference" ad_data = Some (VOid oid)
    /\ py_get "active" ad_data = Some (VBool true)
    /\ py_get "clicks" ad_data = None
    /\ py_get "impressions" ad_data = None
    /\ py_get "posted_at" ad_data = None
    /\ py_get "_id" ad_data = None.
Proof.
  intros Hu Hd. unfold edit_content_ad_data, session_user, sliced_or. rewrite Hu.
  assert (Hrole : "role" ∉ edit_special) by (unfold edit_special; not_in_keys).
  assert (Hdesc : "description" ∉ edit_special) by (unfold edit_special; not_in_keys).
  destruct (strings_except_default _ _ _ Hd Hdesc "") as [sd ->].
  assert (Hor : exists s, py_or (py_get_default "role" VNone data) (VStr sd) = VStr s).
  { unfold py_get_default.
    destruct (py_get "role" data) as [v|] eqn:Hget; [|simpl; eauto].
    destruct (strings_except_get _ _ _ _ Hd Hrole Hget) as [s ->].
    unfold py_or. destruct (truthy (VStr s)); eauto. }
  destruct Hor as [s ->]. simpl. eauto 10.
Qed.

Lemma filter_first_match {A} (f : A -> bool) (before after : list A) (x : A) :
  Forall (fun a => f a = false) before -> f x = true ->
  List.filter f (before ++ x :: after) = x :: List.filter f after.
Proof.
  intros Hb Hx. induction Hb as [|a l Ha _ IH]; simpl.
  - by rewrite Hx.
  - by rewrite Ha.
Qed.

Lemma filter_no_match {A} (f : A -> bool) (l : list A) :
  Forall (fun a => f a = false) l -> List.filter f l = [].
Proof. induction 1 as [|a l Ha _ IH]; simpl; [done|]. by rewrite Ha. Qed.

Lemma find_one_none (e : env) (k : string) (o : ObjectId) (p : projection) (c : list doc) :
  none_with k (VOid o) c -> find_one e (by_field k (VOid o)) p c = None.
Proof.
  intros H. unfold find_one, to_list, find. cbn [matched shown].
  by rewrite (filter_no_match _ _ (none_with_no_match e _ _ _ H)).
Qed.

Lemma find_one_first (e : env) (k : string) (o : ObjectId) (p : projection)
    (before after : list doc) (d : doc) :
  none_with k (VOid o) before -> d !! k = Some (VOid o) ->
  find_one e (by_field k (VOid o)) p (before ++ d :: after) = Some (project p d).
Proof.
  intros Hb Hd. unfold find_one, to_list, find. cbn [matched shown].
  rewrite (filter_first_match _ _ _ _ (none_with_no_match e _ _ _ Hb)); [done|].
  rewrite matches_by_oid. by apply bool_decide_eq_true_2.
Qed.

Lemma project_id_only (d : doc) (v : value) :
  d !! "_id" = Some v -> project (PInclude []) d !! "_id" = Some v.
Proof.
  intros Hd. simpl. apply map_lookup_filter_Some. split; [done|].
  simpl. apply list_elem_of_here.
Qed.

Lemma none_with_match_false (e : env) (k : string) (v : value) (c : list doc) :
  v <> VNone -> none_with k v c ->
  Forall (fun d => matches e (by_field k v) d = false) c.
Proof.
  intros Hv H. eapply Forall_impl; [exact H|].
  intros d Hd. rewrite matches_by_field by done. by apply bool_decide_eq_false_2.
Qed.

Lemma set_fields_lookup_other (fields : pydict) (d : doc) (k : string) :
  py_get k fields = None -> (to_bson fields ∪ d) !! k = d !! k.
Proof. intros H. apply lookup_union_r. by rewrite to_bson_lookup. Qed.

Lemma set_fields_lookup (fields : pydict) (d : doc) (k : string) (v : value) :
  py_get k fields = Some v -> (to_bson fields ∪ d) !! k = Some v.
Proof. intros H. apply lookup_union_Some_l. by rewrite to_bson_lookup. Qed.

Lemma update_one_set_ok (e : env) (q : query) (fields : pydict) (c : list doc) :
  exists n c', update_one e q (USet fields) c = ok (n, c').
Proof.
  induction c as [|d c (n & c' & IH)]; simpl; [eauto|].
  destruct (matches e q d); [eauto|]. rewrite IH. simpl. eauto.
Qed.

Lemma promotable_collection (content_type : string) :
  promotable content_type = true ->
  exists coll, py_get content_type admin_collection_map = Some coll
               /\ coll <> ads_collection.
Proof.
  unfold promotable. intros H. apply bool_decide_eq_true_1 in H.
  repeat (apply elem_of_cons in H as [->|H]); try (eexists; split; [reflexivity|done]).
  by apply elem_of_nil in H.
Qed.

Lemma edit_post_runs (e : env) (r : request) (content_type id uid : string)
    (oid : ObjectId) (st : db) :
  session_user_id r = Some uid ->
  session_is_admin r = true ->
  method r = POST ->
  promotable content_type = true ->
  ObjectId_of_string id = Some oid ->
  exists data coll items,
    strings_except edit_special data
    /\ coll <> ads_collection
    /\ respond (admin_edit_content e r content_type id) st
       = respond (edit_ad_step e r content_type data oid) (db_put coll items st).
Proof.
  intros Hu Ha Hm Hp Hoid.
  destruct (promotable_collection _ Hp) as (coll & Hmap & Hne).
  destruct (edit_content_data_ok e r) as (data & Hdata & Hshape).
  destruct (update_one_set_ok e (by_field "_id" (VOid oid)) data (st coll))
    as (n & items & Hupd).
  exists data, coll, items. split; [done|]. split; [done|].
  unfold admin_edit_content, edit_ad_step, ObjectId_new.
  rewrite (admin_required_pass r uid) by done.
  rewrite Hmap, Hm, Hdata, Hoid, Hp.
  run_handler. rewrite Hupd. reflexivity.
Qed.

Lemma upsert_ad_updates (e : env) (ct : string) (oid : ObjectId) (ad_data : pydict)
    (before after : list doc) (ad : doc) (ad_id : value) (st : db) :
  st ads_collection = before ++ ad :: after ->
  none_with "content_reference" (VOid oid) before ->
  ad !! "content_reference" = Some (VOid oid) ->
  ad !! "_id" = Some ad_id ->
  ad_id <> VNone ->
  none_with "_id" ad_id before ->
  upsert_ad e ct oid ad_data st
  = (ok (capitalize ct +:+ " and ad updated successfully!"),
     db_put ads_collection (before ++ (to_bson ad_data ∪ ad) :: after) st).
Proof.
  intros Hads Hb Href Hid Hnn Hbid. unfold upsert_ad.
  run_handler. rewrite Hads.
  rewrite (find_one_first e _ _ _ _ _ _ Hb Href).
  assert (Hpid := project_id_only _ _ Hid).
  assert (Hfound : found (Some (project (PInclude []) ad)) = true).
  { unfold found. apply negb_true_iff, bool_decide_eq_false_2.
    intros Hempty. rewrite Hempty in Hpid. by rewrite lookup_empty in Hpid. }
  rewrite Hfound. unfold found_item, doc_item. rewrite Hpid. run_handler.
  rewrite Hads.
  assert (Hm : matches e (by_field "_id" ad_id) ad = true)
    by (rewrite matches_by_field by done; by apply bool_decide_eq_true_2).
  rewrite (update_one_first e _ (USet ad_data) before after ad (to_bson ad_data ∪ ad)
             (none_with_match_false e _ _ _ Hnn Hbid) Hm eq_refl).
  reflexivity.
Qed.

Lemma upsert_ad_inserts (e : env) (ct : string) (oid : ObjectId) (ad_data : pydict)
    (st : db) :
  none_with "content_reference" (VOid oid) (st ads_collection) ->
  upsert_ad e ct oid ad_data st
  = (ok (capitalize ct +:+ " updated and ad created!"),
     db_put ads_collection
       (insert_one (new_oid e 0)
          (py_set "posted_at" (VTime (utcnow e))
             (py_set "impressions" (VInt 0) (py_set "clicks" (VInt 0) ad_data)))
          (st ads_collection)).2 st).
Proof.
  intros Hnone. unfold upsert_ad. run_handler.
  rewrite (find_one_none e _ _ _ _ Hnone). reflexivity.
Qed.

(** C2, as the code has it.  For an edit of a job, workshop, course or
    hackathon by a well-formed id: with [promote_as_ad] on and an ad whose
    [content_reference] is the id (the first such ad, identified by its
    [_id]), that same ad is updated where it stands, the ads around it are
    untouched and its click and impression counters are what they were;
    with the flag on and no such ad, exactly one ad is added, with both
    counters 0; with the flag off, the ads that refer to the id are
    deleted and none is left. *)
Theorem edit_maintains_ad (e : env) (r : request) (content_type id uid : string)
    (oid : ObjectId) (st : db) :
  session_user_id r = Some uid ->
  session_is_admin r = true ->
  method r = POST ->
  promotable content_type = true ->
  ObjectId_of_string id = Some oid ->
  (promote_flag r = true ->
   forall before ad after ad_id,
     st ads_collection = before ++ ad :: after ->
     none_with "content_reference" (VOid oid) before ->
     ad !! "content_reference" = Some (VOid oid) ->
     ad !! "_id" = Some ad_id ->
     ad_id <> VNone ->
     none_with "_id" ad_id before ->
     exists st' ad',
       respond (admin_edit_content e r content_type id) st
       = (RedirectTo "admin_content"
            [(capitalize content_type +:+ " and ad updated successfully!", "success")], st')
       /\ st' ads_collection = before ++ ad' :: after
       /\ ad' !! "_id" = Some ad_id
       /\ ad' !! "clicks" = ad !! "clicks"
       /\ ad' !! "impressions" = ad !! "impressions"
       /\ ad' !! "content_reference" = Some (VOid oid)
       /\ ad' !! "active" = Some (VBool true))
  /\ (promote_flag r = true ->
      none_with "content_reference" (VOid oid) (st ads_collection) ->
      exists st' ad,
        respond (admin_edit_content e r content_type id) st
        = (RedirectTo "admin_content"
             [(capitalize content_type +:+ " updated and ad created!", "success")], st')
        /\ st' ads_collection = st ads_collection ++ [ad]
        /\ ad !! "content_reference" = Some (VOid oid)
        /\ ad !! "clicks" = Some (VInt 0)
        /\ ad !! "impressions" = Some (VInt 0)
        /\ ad !! "active" = Some (VBool true))
  /\ (promote_flag r = false ->
      exists st' flashed,
        respond (admin_edit_content e r content_type id) st
        = (RedirectTo "admin_content" [(flashed, "success")], st')
        /\ st' ads_collection
           = List.filter
               (fun d => negb (bool_decide (d !! "content_reference" = Some (VOid oid))))
               (st ads_collection)
        /\ none_with "content_reference" (VOid oid) (st' ads_collection)).
Proof.
  intros Hu Ha Hm Hp Hoid.
  destruct (edit_post_runs e r content_type id uid oid st Hu Ha Hm Hp Hoid)
    as (data & coll & items & Hshape & Hne & ->).
  destruct (edit_content_ad_data_ok e r content_type uid data oid Hu Hshape)
    as (ad_data & Had & Href & Hact & Hclicks & Himp & Hposted & Hnoid).
  unfold edit_ad_step.
  split; [|split].
  - intros -> before ad after ad_id Hads Hb Hadref Hid Hnn Hbid.
    rewrite Had.
    exists (db_put ads_collection (before ++ (to_bson ad_data ∪ ad) :: after)
              (db_put coll items st)), (to_bson ad_data ∪ ad).
    split.
    { run_handler.
      rewrite (upsert_ad_updates e content_type oid ad_data before after ad ad_id);
        try done.
      by rewrite db_put_other by congruence. }
    db_simpl. split; [done|].
    rewrite !set_fields_lookup_other by done.
    rewrite (set_fields_lookup _ _ _ _ Href), (set_fields_lookup _ _ _ _ Hact). done.
  - intros -> Hnone. rewrite Had.
    set (ad_data' := py_set "posted_at" (VTime (utcnow e))
                       (py_set "impressions" (VInt 0) (py_set "clicks" (VInt 0) ad_data))).
    destruct (insert_one_spec (new_oid e 0) ad_data' (st ads_collection))
      as (ad & Hins & _ & Hfields).
    exists (db_put ads_collection (st ads_collection ++ [ad]) (db_put coll items st)), ad.
    split.
    { run_handler. rewrite upsert_ad_inserts by (by rewrite db_put_other by congruence).
      rewrite db_put_other by congruence. fold ad_data'. by rewrite Hins. }
    db_simpl. split; [done|].
    rewrite !Hfields by done. subst ad_data'.
    repeat split.
    + by rewrite !py_get_set_ne.
    + by rewrite py_get_set_ne, py_get_set_ne, py_get_set_eq.
    + by rewrite py_get_set_ne, py_get_set_eq.
    + by rewrite !py_get_set_ne.
  - intros ->.
    set (deleted := delete_many e (by_field "content_reference" (VOid oid))
                      (st ads_collection)).
    exists (db_put ads_collection deleted.2 (db_put coll items st)),
           (if 0 <? deleted.1
            then capitalize content_type +:+ " updated (ad removed)!"
            else capitalize content_type +:+ " updated successfully!").
    split.
    { run_handler. rewrite db_put_other by congruence. fold deleted.
      destruct (0 <? deleted.1); reflexivity. }
    db_simpl. subst deleted. split.
    + rewrite delete_many_kept. apply filter_ext. intros d. by rewrite matches_by_oid.
    + apply delete_many_none_with.
Qed.

(** For a roadmap or a website the edit stops after the item itself: the
    ads are what they were, whatever the promote flag says. *)
Lemma edit_leaves_ads_of_other_types (e : env) (r : request)
    (content_type id uid : string) (oid : ObjectId) (st : db) :
  session_user_id r = Some uid ->
  session_is_admin r = true ->
  method r = POST ->
  content_type ∈ ["roadmaps"; "websites"] ->
  ObjectId_of_string id = Some oid ->
  exists st',
    respond (admin_edit_content e r content_type id) st
    = (RedirectTo "admin_content"
         [(capitalize content_type +:+ " updated successfully!", "success")], st')
    /\ st' ads_collection = st ads_collection.
Proof.
  intros Hu Ha Hm Hct Hoid.
  assert (Hcoll : exists coll,
             py_get content_type admin_collection_map = Some coll
             /\ coll <> ads_collection /\ promotable content_type = false).
  { repeat (apply elem_of_cons in Hct as [->|Hct]);
      try (eexists; split; [reflexivity|split; [done|reflexivity]]).
    by apply elem_of_nil in Hct. }
  destruct Hcoll as (coll & Hmap & Hne & Hp).
  destruct (edit_content_data_ok e r) as (data & Hdata & _).
  destruct (update_one_set_ok e (by_field "_id" (VOid oid)) data (st coll))
    as (n & items & Hupd).
  exists (db_put coll items st). split.
  - unfold admin_edit_content, ObjectId_new.
    rewrite (admin_required_pass r uid) by done.
    rewrite Hmap, Hm, Hdata, Hoid, Hp.
    run_handler. rewrite Hupd. reflexivity.
  - by rewrite db_put_other by congruence.
Qed.

Lemma none_with_column (k : string) (v : value) (c : list doc) :
  none_with k v c -> Some v ∉ column k c.
Proof.
  unfold none_with, column. induction 1 as [|d c Hd _ IH]; simpl.
  - apply not_elem_of_nil.
  - apply not_elem_of_cons. split; [congruence|done].
Qed.

(** C2, as stated, fails for the content types outside the four that
    [admin_edit_content] links to ads: a website with id 7 is promoted by
    [sample_ad]; it is edited with the promote flag cleared, and the ads
    still hold one document, which refers to it. *)
Lemma edit_website_keeps_ad :
  let r := admin_post [("name", "Acme")] [] in
  let out := respond (admin_edit_content (offline_env 0) r "websites" id_7)
               (sample_db websites_collection) in
  py_get "websites" admin_collection_map = Some websites_collection
  /\ ObjectId_of_string id_7 = Some 7%N
  /\ promote_flag r = false
  /\ column "content_reference" (sample_db websites_collection ads_collection)
     = [Some (VOid 7%N)]
  /\ out.1 = RedirectTo "admin_content" [("Websites updated successfully!", "success")]
  /\ column "content_reference" (out.2 ads_collection) = [Some (VOid 7%N)]
  /\ ~ none_with "content_reference" (VOid 7%N) (out.2 ads_collection).
Proof.
  cbv zeta.
  assert (H : column "content_reference"
                ((respond (admin_edit_content (offline_env 0)
                             (admin_post [("name", "Acme")] []) "websites" id_7)
                    (sample_db websites_collection)).2 ads_collection)
              = [Some (VOid 7%N)])
    by (vm_compute; reflexivity).
  repeat split; try (vm_compute; reflexivity).
  intros Hnone. apply none_with_column in Hnone. rewrite H in Hnone.
  apply Hnone, list_elem_of_here.
Qed.

(** ** Where the code departs from what it sets out to do *)

(** C6. An edit form with two text fields and the boxes [certification] and
    [active] ticked: the flag normalisation sits inside the sanitising
    loop, so the second text field finds the flags already boolean,
    compares them with "on" again, and the item is stored with both flags
    false.  With an empty form the loop body never runs and no flag is
    stored at all. *)
Theorem edit_resets_flags :
  let r := admin_post [("company_name", "Acme"); ("role", "Developer");
                       ("certification", "on"); ("active", "on")] [] in
  let st' := (respond (admin_edit_content (offline_env 0) r "jobs" id_7)
                (sample_db jobs_collection)).2 in
  let st0 := (respond (admin_edit_content (offline_env 0) (admin_post [] []) "jobs" id_7)
                (sample_db jobs_collection)).2 in
  py_get "certification" (form r) = Some "on"
  /\ py_get "active" (form r) = Some "on"
  /\ column "_id" (st' jobs_collection) = [Some (VOid 7%N)]
  /\ column "role" (st' jobs_collection) = [Some (VStr "Developer")]
  /\ column "certification" (st' jobs_collection) = [Some (VBool false)]
  /\ column "active" (st' jobs_collection) = [Some (VBool false)]
  /\ column "is_project" (st' jobs_collection) = [Some (VBool false)]
  /\ column "_id" (st0 jobs_collection) = [Some (VOid 7%N)]
  /\ column "certification" (st0 jobs_collection) = [None]
  /\ column "active" (st0 jobs_collection) = [None]
  /\ column "is_project" (st0 jobs_collection) = [None].
Proof. cbv zeta. repeat split; vm_compute; reflexivity. Qed.

(** C7. A workshop is created with a file whose upload fails: the item is
    stored, and its [image] field is present and holds [None].  The edit of
    the same form, which tests the URL before assigning it, leaves [image]
    out of what it stores. *)
Theorem create_stores_null_image :
  let r := admin_post [("name", "Workshop")] [("image", poster)] in
  let out := respond (admin_add_content (offline_env 0) r "workshops") empty_db in
  upload_to_cloudinary (offline_env 0) poster = VNone
  /\ out.1 = RedirectTo "admin_content" [("Workshops added successfully!", "success")]
  /\ column "name" (out.2 workshops_collection) = [Some (VStr "Workshop")]
  /\ column "image" (out.2 workshops_collection) = [Some VNone]
  /\ (exists data,
        edit_content_data (offline_env 0) r = ok data
        /\ py_get "name" data = Some (VStr "Workshop")
        /\ py_get "image" data = None).
Proof.
  cbv zeta. repeat split; try (vm_compute; reflexivity).
  eexists. split; [vm_compute; reflexivity|]. split; reflexivity.
Qed.

(** C9. A job is created with a role of 300 characters and the promote
    flag on: in [data.get('role') or data.get('description', 'N/A')[:100]]
    the slice applies to the description alone, so the ad takes the role
    whole and its description has 300 characters.  The edit of the same
    form, which slices the whole alternative, stores 150. *)
Theorem create_ad_description_untruncated :
  let r := admin_post [("company_name", "Acme"); ("role", long_text 300);
                       ("promote_as_ad", "on")] [] in
  let st' := (respond (admin_add_content (offline_env 0) r "jobs") empty_db).2 in
  let st2 := (respond (admin_edit_content (offline_env 0) r "jobs" id_7)
                (db_put jobs_collection [sample_item] empty_db)).2 in
  promote_flag r = true
  /\ String.length (long_text 300) = 300%nat
  /\ column "title" (st' ads_collection) = [Some (VStr "Acme")]
  /\ column "link" (st' ads_collection) = [Some (VStr "#")]
  /\ column "description" (st' ads_collection) = [Some (VStr (long_text 300))]
  /\ column "description" (st2 ads_collection) = [Some (VStr (long_text 150))].
Proof. cbv zeta. repeat split; vm_compute; reflexivity. Qed.

(** ** Instances *)

Lemma time_ago_buckets_witness :
  utcnow (offline_env 3600000000) - 0 = 3600 * second
  /\ (time_ago (offline_env 3600000000) [] (VTime 0)).1 = ok "1 hour ago".
Proof.
  split; [reflexivity|].
  destruct (time_ago_buckets (offline_env 3600000000) [] 0) as [Hmiss _].
  destruct (Hmiss eq_refl ltac:(vm_compute; reflexivity))
    as (_ & _ & _ & _ & _ & H & _).
  apply H. reflexivity.
Defined.

Lemma public_listing_page_witness :
  "jobs" ∈ ["jobs"; "workshops"; "courses"; "hackathons"]
  /\ 1 <= 1
  /\ exists items total,
       get_cached_content (offline_env 0) "jobs" 1 (sample_db jobs_collection)
       = (ok (items, total), sample_db jobs_collection)
       /\ items = [project (PExclude ["admin_id"]) sample_item]
       /\ total = 1
       /\ total_pages (get_pagination_data 1 total) = 1
       /\ has_prev (get_pagination_data 1 total) = false
       /\ has_next (get_pagination_data 1 total) = false.
Proof.
  assert (Hin : "jobs" ∈ ["jobs"; "workshops"; "courses"; "hackathons"])
    by apply list_elem_of_here.
  split; [exact Hin|]. split; [lia|].
  destruct (public_listing_page (offline_env 0) "jobs" 1 (sample_db jobs_collection)
              Hin ltac:(lia))
    as (coll & items & total & sorted & Hcoll & H & _ & _ & Hperm & _ & Hitems & Htotal
        & _ & Hpages & Hprev & Hnext & _).
  injection Hcoll as <-.
  assert (Hst : sample_db jobs_collection jobs_collection = [sample_item]) by reflexivity.
  rewrite Hst in Hperm, Htotal. apply Permutation_singleton_r in Hperm. subst sorted.
  exists items, total. split; [exact H|]. split; [exact Hitems|].
  split; [exact Htotal|]. rewrite Htotal in Hpages, Hprev, Hnext |- *.
  simpl length in *.
  assert (Hone : total_pages (get_pagination_data 1 (Z.of_nat 1)) = 1) by lia.
  split; [exact Hone|]. split.
  - destruct (has_prev (get_pagination_data 1 (Z.of_nat 1))); [|reflexivity].
    destruct Hprev as [Hprev _]. specialize (Hprev eq_refl). lia.
  - destruct (has_next (get_pagination_data 1 (Z.of_nat 1))); [|reflexivity].
    destruct Hnext as [Hnext _]. specialize (Hnext eq_refl). lia.
Defined.

(** C4, as first stated for every content type, fails for websites (and
    likewise roadmaps): their public page shows the whole collection in
    stored order, here 31 documents with the oldest first, and
    [get_cached_content] knows no such type and counts 0. *)
Lemma websites_listing_unpaginated :
  let stored :=
    (fun n => to_bson [("_id", VOid (N.of_nat n)); ("posted_at", VTime (Z.of_nat n))])
    <$> seq 0 31 in
  let st := db_put websites_collection stored empty_db in
  let page_1 := (respond (websites (offline_env 0) (visitor [("page", "1")])) st).1 in
  py_get "websites" admin_collection_map = Some websites_collection
  /\ length (template_list "websites" page_1) = 31%nat
  /\ column "posted_at" (take 2 (template_list "websites" page_1))
     = [Some (VTime 0); Some (VTime 1)]
  /\ ~ descending "posted_at" (to_bson [("posted_at", VTime 0)])
                               (to_bson [("posted_at", VTime 1)])
  /\ (get_cached_content (offline_env 0) "websites" 1 st).1 = ok ([], 0).
Proof.
  split; [reflexivity|]. split; [vm_compute; reflexivity|].
  split; [vm_compute; reflexivity|]. split; [|reflexivity].
  intros H. vm_compute in H. exact (H eq_refl).
Qed.

Lemma ad_click_spec_witness :
  ObjectId_of_string id_1 = Some 1%N
  /\ sample_db jobs_collection ads_collection = [] ++ sample_ad :: []
  /\ sample_ad !! "_id" = Some (VOid 1%N)
  /\ sample_ad !! "clicks" = Some (VInt 5)
  /\ exists st' record,
       respond (ad_click (offline_env 0) (visitor []) id_1) (sample_db jobs_collection)
       = (Jsonify (json_success true None) 200, st')
       /\ st' ads_collection = [] ++ <["clicks" := VInt (5 + 1)]> sample_ad :: []
       /\ st' ad_clicks_collection = [record]
       /\ record !! "ad_id" = Some (VOid 1%N)
       /\ record !! "user_id" = Some VNone.
Proof.
  assert (H1 : ObjectId_of_string id_1 = Some 1%N) by (vm_compute; reflexivity).
  assert (H2 : sample_db jobs_collection ads_collection = [] ++ sample_ad :: [])
    by reflexivity.
  assert (H3 : sample_ad !! "_id" = Some (VOid 1%N)) by (vm_compute; reflexivity).
  assert (H4 : sample_ad !! "clicks" = Some (VInt 5)) by (vm_compute; reflexivity).
  repeat (split; [assumption|]).
  destruct (ad_click_spec (offline_env 0) (visitor []) id_1 (sample_db jobs_collection))
    as (_ & _ & H).
  destruct (H 1%N [] sample_ad [] H1 H2 ltac:(constructor) H3) as (Hgood & _).
  destruct (Hgood 5 (or_intror H4))
    as (st' & record & Hresp & Hads & Hlog & Hid & _ & Huser & _).
  exists st', record.
  split; [exact Hresp|]. split; [exact Hads|]. split; [exact Hlog|].
  split; [exact Hid|exact Huser].
Defined.

(** C1, as first stated, fails: an ad added through the admin form with a
    [clicks] field keeps that field as text; a click on it is answered with
    500 "Server error", the counter is not incremented and no click is
    recorded. *)
Lemma ad_click_on_text_counter :
  let created :=
    (respond (admin_add_content (offline_env 0)
                (admin_post [("title", "Sale"); ("clicks", "3")] []) "ads")
       empty_db).2 in
  let ad_id := "0000000000000000000003e8" in
  let clicked := respond (ad_click (offline_env 0) (visitor []) ad_id) created in
  ObjectId_of_string ad_id = Some (new_oid (offline_env 0) 0)
  /\ column "_id" (created ads_collection) = [Some (VOid (new_oid (offline_env 0) 0))]
  /\ column "clicks" (created ads_collection) = [Some (VStr "3")]
  /\ clicked.1 = Jsonify (json_success false (Some "Server error")) 500
  /\ column "clicks" (clicked.2 ads_collection) = [Some (VStr "3")]
  /\ clicked.2 ad_clicks_collection = [].
Proof. vm_compute. repeat split. Qed.

Lemma create_promotes_witness :
  "jobs" ∈ content_item_types
  /\ py_get "promote_as_ad"
       (form (admin_post [("company_name", "Acme"); ("promote_as_ad", "on")] []))
     = Some "on"
  /\ exists coll item new_id st' ad,
       py_get "jobs" admin_collection_map = Some coll
       /\ respond (admin_add_content (offline_env 0)
                     (admin_post [("company_name", "Acme"); ("promote_as_ad", "on")] [])
                     "jobs") empty_db
          = (RedirectTo "admin_content"
               [(capitalize "jobs" +:+ " added successfully!", "success")], st')
       /\ st' coll = empty_db coll ++ [item]
       /\ item !! "_id" = Some new_id
       /\ st' ads_collection = empty_db ads_collection ++ [ad]
       /\ ad !! "content_reference" = Some new_id
       /\ ad !! "clicks" = Some (VInt 0)
       /\ ad !! "impressions" = Some (VInt 0)
       /\ ad !! "active" = Some (VBool true).
Proof.
  assert (Hin : "jobs" ∈ content_item_types) by apply list_elem_of_here.
  assert (Hon : py_get "promote_as_ad"
                  (form (admin_post [("company_name", "Acme"); ("promote_as_ad", "on")] []))
                = Some "on") by reflexivity.
  split; [exact Hin|]. split; [exact Hon|].
  destruct (create_promotes (offline_env 0)
              (admin_post [("company_name", "Acme"); ("promote_as_ad", "on")] [])
              "jobs" "admin" empty_db eq_refl eq_refl Hin)
    as (coll & item & new_id & st' & H1 & H2 & H3 & H4 & _ & Hset).
  destruct (Hset Hon) as (ad & H5 & H6 & H7 & H8 & H9).
  exists coll, item, new_id, st', ad. repeat split; assumption.
Defined.

Lemma delete_cascades_witness :
  py_get "jobs" admin_collection_map = Some jobs_collection
  /\ ObjectId_of_string id_7 = Some 7%N
  /\ exists st',
       respond (admin_delete_content (offline_env 0) (admin_post [] []) "jobs" id_7)
         (sample_db jobs_collection)
       = (RedirectTo "admin_content"
            [(capitalize "jobs" +:+ " deleted successfully!", "success")], st')
       /\ none_with "content_reference" (VOid 7%N) (st' ads_collection).
Proof.
  assert (H1 : py_get "jobs" admin_collection_map = Some jobs_collection)
    by (vm_compute; reflexivity).
  assert (H2 : ObjectId_of_string id_7 = Some 7%N) by (vm_compute; reflexivity).
  repeat (split; [assumption|]).
  destruct (delete_cascades (offline_env 0) (admin_post [] []) "jobs" id_7 "admin"
              jobs_collection 7%N (sample_db jobs_collection) eq_refl eq_refl H1 H2)
    as (st' & Hresp & Hnone & _).
  exists st'. split; assumption.
Defined.

Lemma edit_maintains_ad_witness :
  promotable "jobs" = true
  /\ ObjectId_of_string id_7 = Some 7%N
  /\ promote_flag (admin_post [("company_name", "Acme"); ("promote_as_ad", "on")] []) = true
  /\ sample_db jobs_collection ads_collection = [] ++ sample_ad :: []
  /\ sample_ad !! "content_reference" = Some (VOid 7%N)
  /\ sample_ad !! "_id" = Some (VOid 1%N)
  /\ exists st' ad',
       respond (admin_edit_content (offline_env 0)
                  (admin_post [("company_name", "Acme"); ("promote_as_ad", "on")] [])
                  "jobs" id_7) (sample_db jobs_collection)
       = (RedirectTo "admin_content"
            [(capitalize "jobs" +:+ " and ad updated successfully!", "success")], st')
       /\ st' ads_collection = [] ++ ad' :: []
       /\ ad' !! "clicks" = sample_ad !! "clicks".
Proof.
  set (r := admin_post [("company_name", "Acme"); ("promote_as_ad", "on")] []).
  assert (H1 : promotable "jobs" = true) by (vm_compute; reflexivity).
  assert (H2 : ObjectId_of_string id_7 = Some 7%N) by (vm_compute; reflexivity).
  assert (H3 : promote_flag r = true) by (vm_compute; reflexivity).
  assert (H4 : sample_db jobs_collection ads_collection = [] ++ sample_ad :: [])
    by reflexivity.
  assert (H5 : sample_ad !! "content_reference" = Some (VOid 7%N))
    by (vm_compute; reflexivity).
  assert (H6 : sample_ad !! "_id" = Some (VOid 1%N)) by (vm_compute; reflexivity).
  repeat (split; [assumption|]).
  destruct (edit_maintains_ad (offline_env 0) r "jobs" id_7 "admin" 7%N
              (sample_db jobs_collection) eq_refl eq_refl eq_refl H1 H2)
    as (H & _ & _).
  destruct (H H3 [] sample_ad [] (VOid 1%N) H4 ltac:(constructor) H5 H6
              ltac:(discriminate) ltac:(constructor))
    as (st' & ad' & Hresp & Hads & _ & Hclicks & _).
  exists st', ad'. repeat split; assumption.
Defined.

(** ** Public reads *)

Lemma yields_pure {A} (P : A -> Prop) (a : A) : P a -> yields P (pure a).
Proof. intros Ha st. by split. Qed.

Lemma yields_throw {A} (P : A -> Prop) (x : exn) : yields P (throw x).
Proof. intros st. by split. Qed.

Lemma yields_lift {A} (P : A -> Prop) (r : result A) :
  (forall a, r = ok a -> P a) -> yields P (lift r).
Proof. intros Hr st. split; [done|]. simpl. destruct r; [done|]. by apply Hr. Qed.

Lemma yields_read (c : collection) : yields (fun _ => True) (read c).
Proof. intros st. by split. Qed.

Lemma yields_bind {A B} (P : A -> Prop) (Q : B -> Prop) (m : M A) (k : A -> M B) :
  yields P m -> (forall a, P a -> yields Q (k a)) -> yields Q (bindM m k).
Proof.
  intros Hm Hk st. unfold bindM.
  destruct (Hm st) as [Hst Hres]. destruct (m st) as [[x|a] st1]; simpl in *; subst.
  - by split.
  - apply Hk, Hres.
Qed.

Lemma yields_try {A} (P : A -> Prop) (m : M A) (h : exn -> M A) :
  yields P m -> (forall x, yields P (h x)) -> yields P (try_except m h).
Proof.
  intros Hm Hh st. unfold try_except.
  destruct (Hm st) as [Hst Hres]. destruct (m st) as [[x|a] st1]; simpl in *; subst.
  - apply Hh.
  - by split.
Qed.

Lemma yields_public (m : M response) :
  yields (fun resp => Forall hides_admin (response_docs resp)) m -> public_read m.
Proof.
  intros Hm st. unfold respond. destruct (Hm st) as [Hst Hres].
  destruct (m st) as [[x|a] st1]; simpl in *; subst; split; done.
Qed.

Lemma hides_admin_insert (k : string) (v : value) (d : doc) :
  k <> "admin_id" -> hides_admin d -> hides_admin (<[k := v]> d).
Proof. intros Hk Hd. unfold hides_admin. by rewrite lookup_insert_ne. Qed.

Lemma hides_admin_exclude (d : doc) : hides_admin (project (PExclude ["admin_id"]) d).
Proof. unfold hides_admin. simpl. apply lookup_delete_eq. Qed.

Lemma hides_admin_include (ks : list string) (d : doc) :
  "admin_id" ∉ ks -> hides_admin (project (PInclude ks) d).
Proof.
  intros Hks. unfold hides_admin. simpl. apply map_lookup_filter_None. right.
  intros v _ Hin. simpl in Hin. apply elem_of_cons in Hin as [?|?]; [discriminate|done].
Qed.

Lemma to_list_hides_admin (cur : cursor) :
  (forall d, hides_admin (project (shown cur) d)) -> Forall hides_admin (to_list cur).
Proof.
  intros H. unfold to_list. apply Forall_fmap, Forall_forall. intros d _. apply H.
Qed.

Lemma skip_shown (n : Z) (cur cur' : cursor) :
  skip n cur = ok cur' -> shown cur' = shown cur.
Proof. unfold skip. destruct (n <? 0); [discriminate|]. by intros [= <-]. Qed.

Lemma for_each_Forall {A B} (P : A -> Prop) (Q : B -> Prop) (f : A -> result B)
    (l : list A) (l' : list B) :
  (forall a b, P a -> f a = ok b -> Q b) ->
  Forall P l -> for_each f l = ok l' -> Forall Q l'.
Proof.
  intros Hf Hl. revert l'. induction Hl as [|a l Ha _ IH]; simpl; intros l'.
  - intros [= <-]. constructor.
  - destruct (f a) as [x|b] eqn:Hb; [discriminate|]. simpl.
    destruct (for_each f l) as [x|bs]; [discriminate|]. simpl.
    intros [= <-]. constructor; [by eapply Hf|by apply IH].
Qed.

Lemma for_each_cached_Forall {A B} (P : A -> Prop) (Q : B -> Prop)
    (f : lru -> A -> result B * lru) (c : lru) (l : list A) (l' : list B) :
  (forall c a b, P a -> (f c a).1 = ok b -> Q b) ->
  Forall P l -> (for_each_cached f c l).1 = ok l' -> Forall Q l'.
Proof.
  intros Hf Hl. revert c l'.
  induction Hl as [|a l Ha _ IH]; intros c l'; cbn [for_each_cached].
  - intros [= <-]. constructor.
  - destruct (f c a) as [[x|b] c1] eqn:Hb; [discriminate|].
    destruct (for_each_cached f c1 l) as [[x|bs] c2] eqn:Hbs; [discriminate|].
    intros [= <-]. constructor.
    + apply (Hf c a b Ha). by rewrite Hb.
    + apply (IH c1). by rewrite Hbs.
Qed.

Lemma with_time_ago_inserts (e : env) (c : lru) (d d' : doc) :
  (with_time_ago e c d).1 = ok d' ->
  is_Some (d !! "posted_at") /\ exists text, d' = <["time_ago" := VStr text]> d.
Proof.
  unfold with_time_ago, doc_item, raise, ok.
  destruct (d !! "posted_at") as [v|]; [|discriminate].
  destruct (time_ago e c v) as [[x|text] c1]; [discriminate|].
  cbn [fst]. intros [= <-]. split; [done|]. by exists text.
Qed.

Lemma with_time_ago_hides (e : env) (c : lru) (d d' : doc) :
  hides_admin d -> (with_time_ago e c d).1 = ok d' -> hides_admin d'.
Proof.
  intros Hd (_ & text & ->)%with_time_ago_inserts. by apply hides_admin_insert.
Qed.

Lemma publish_item_hides (e : env) (c : lru) (d d' : doc) :
  hides_admin d -> (publish_item e c d).1 = ok d' -> hides_admin d'.
Proof.
  intros Hd. unfold publish_item, doc_item, raise, ok.
  destruct (d !! "_id") as [v|]; [|discriminate]. cbv zeta.
  apply with_time_ago_hides. by apply hides_admin_insert.
Qed.

Lemma publish_ad_hides (d d' : doc) :
  hides_admin d -> publish_ad d = ok d' -> hides_admin d'.
Proof.
  intros Hd. unfold publish_ad.
  destruct (doc_item "_id" d) as [|v]; [discriminate|]. simpl.
  intros [= <-].
  repeat (apply hides_admin_insert; [discriminate|]).
  case_match; [apply hides_admin_insert; [discriminate|]|];
    by apply hides_admin_insert.
Qed.

Lemma tag_results_hides (ty : string) (hits results : list doc) :
  Forall hides_admin hits -> Forall hides_admin results ->
  Forall hides_admin (tag_results ty hits results).1.
Proof.
  intros Hh. revert results. induction Hh as [|d hits Hd _ IH]; simpl; intros results Hr.
  - done.
  - destruct (d !! "_id"); [|done]. apply IH, Forall_app. split; [done|].
    repeat constructor. by do 2 (apply hides_admin_insert; [discriminate|]).
Qed.

Lemma get_cached_content_hides (e : env) (content_type : string) (page_ : Z) :
  yields (fun got => Forall hides_admin got.1) (get_cached_content e content_type page_).
Proof.
  unfold get_cached_content. case_match; [|by apply yields_pure].
  eapply yields_bind; [apply yields_read|]. intros docs _.
  eapply yields_bind; [apply (yields_lift (fun cur => shown cur = PExclude ["admin_id"]))|].
  - intros cur Hcur. by apply skip_shown in Hcur.
  - intros cur Hcur. apply yields_pure. simpl.
    apply to_list_hides_admin. simpl. rewrite Hcur. apply hides_admin_exclude.
Qed.

Lemma listing_page_public (e : env) (r : request) (content_type template : string) :
  public_read (listing_page e r content_type template).
Proof.
  apply yields_public. unfold listing_page.
  eapply yields_bind; [apply get_cached_content_hides|]. intros got Hgot.
  eapply yields_bind; [apply (yields_lift (Forall hides_admin))|].
  - intros items. apply for_each_cached_Forall with (P := hides_admin); [|done].
    intros c a b. apply with_time_ago_hides.
  - intros items Hitems. apply yields_pure. simpl. by rewrite app_nil_r.
Qed.

Lemma find_exclude_hides (e : env) (q : query) (c : list doc) :
  Forall hides_admin (to_list (find e q (PExclude ["admin_id"]) c)).
Proof. apply to_list_hides_admin. intros d. apply hides_admin_exclude. Qed.

Lemma search_in_hides (e : env) (query : string) (coll : collection) (ty : string)
    (fields : list string) (results : list doc) :
  Forall hides_admin results ->
  yields (Forall hides_admin) (search_in e query coll ty fields results).
Proof.
  intros Hr. unfold search_in.
  eapply yields_bind; [apply yields_read|]. intros docs _.
  assert (Hfallback : forall results,
    Forall hides_admin results ->
    yields (Forall hides_admin)
      (match (tag_results ty
                (to_list (limit 5 (find e
                   (QOr ((fun f => [(f, CRegexI query)]) <$> fields))
                   (PExclude ["admin_id"]) docs))) results).2 with
       | Some x => throw x
       | None => pure (tag_results ty
                (to_list (limit 5 (find e
                   (QOr ((fun f => [(f, CRegexI query)]) <$> fields))
                   (PExclude ["admin_id"]) docs))) results).1
       end)).
  { intros res Hres. case_match; [apply yields_throw|].
    apply yields_pure, tag_results_hides; [|done].
    apply to_list_hides_admin. intros d. apply hides_admin_exclude. }
  destruct (text_search e coll query docs) as [ranked|]; [|by apply Hfallback].
  assert (Hhits : Forall hides_admin
            ((fun ds : doc * value => <["score" := ds.2]> (delete "admin_id" ds.1))
               <$> take 5 ranked)).
  { apply Forall_fmap, Forall_forall. intros ds _. simpl.
    apply hides_admin_insert; [discriminate|]. apply lookup_delete_eq. }
  case_match.
  - apply Hfallback. by apply tag_results_hides.
  - apply yields_pure. by apply tag_results_hides.
Qed.

(** C10. Every public read -- the four paginated listings and the function
    that feeds them, the roadmaps, websites and projects pages, the detail
    page, the filter, the search and the ad rotation -- leaves the database
    as it was and shows no document with an [admin_id] field, whatever the
    request and the stored documents. *)
Theorem public_reads_hide_admin (e : env) (r : request) (content_type id : string)
    (page_ : Z) :
  yields (fun got => Forall hides_admin got.1) (get_cached_content e content_type page_)
  /\ public_read (jobs e r)
  /\ public_read (workshops e r)
  /\ public_read (courses e r)
  /\ public_read (hackathons e r)
  /\ public_read (roadmaps e r)
  /\ public_read (websites e r)
  /\ public_read (our_projects e r)
  /\ public_read (detail_page e r content_type id)
  /\ public_read (filter_content e r content_type)
  /\ public_read (search e r)
  /\ public_read (get_ads e r).
Proof.
  split; [apply get_cached_content_hides|].
  do 4 (split; [apply listing_page_public|]).
  split; [|split; [|split; [|split; [|split; [|split]]]]]; apply yields_public.
  - (* roadmaps *)
    unfold roadmaps, login_required. case_match; [|by apply yields_pure].
    eapply yields_bind; [apply yields_read|]. intros docs _.
    apply yields_pure. simpl. rewrite app_nil_r. apply find_exclude_hides.
  - (* websites *)
    unfold websites.
    eapply yields_bind; [apply yields_read|]. intros docs _.
    apply yields_pure. simpl. rewrite app_nil_r. apply find_exclude_hides.
  - (* our_projects *)
    unfold our_projects.
    eapply yields_bind; [apply yields_read|]. intros docs _.
    apply yields_pure. simpl. rewrite app_nil_r. apply find_exclude_hides.
  - (* detail_page *)
    unfold detail_page, login_required. case_match; [|by apply yields_pure].
    case_match; [|by apply yields_pure].
    eapply yields_bind; [apply (yields_lift (fun _ => True)); done|]. intros oid _.
    eapply yields_bind; [apply yields_read|]. intros docs _.
    destruct (find_one e (by_field "_id" (VOid oid)) (PExclude ["admin_id"]) docs)
      as [item|] eqn:Hitem; [|by apply yields_pure].
    assert (Hhide : hides_admin item).
    { unfold find_one in Hitem. apply head_Some_elem_of in Hitem.
      pose proof (find_exclude_hides e (by_field "_id" (VOid oid)) docs) as Hall.
      rewrite Forall_forall in Hall. by apply Hall. }
    case_bool_decide; [by apply yields_pure|].
    eapply yields_bind; [apply (yields_lift hides_admin)|].
    { intros item'. by apply with_time_ago_hides. }
    intros item' Hitem'. apply yields_pure. simpl. rewrite app_nil_r.
    constructor; [done|].
    case_match; apply to_list_hides_admin; intros d; apply hides_admin_include;
      not_in_keys.
  - (* filter_content *)
    unfold filter_content. case_match; [|by apply yields_pure; repeat constructor].
    eapply yields_bind; [apply yields_read|]. intros docs _.
    eapply yields_bind; [apply (yields_lift (fun cur => shown cur = PExclude ["admin_id"]))|].
    { intros cur Hcur. by apply skip_shown in Hcur. }
    intros cur Hcur.
    eapply yields_bind; [apply (yields_lift (Forall hides_admin))|].
    { intros items. apply for_each_cached_Forall with (P := hides_admin).
      - intros cache a b. apply publish_item_hides.
      - apply to_list_hides_admin. simpl. rewrite Hcur. apply hides_admin_exclude. }
    intros items Hitems. by apply yields_pure.
  - (* search *)
    unfold search. case_match; [by apply yields_pure|].
    eapply yields_bind; [apply search_in_hides; constructor|]. intros r1 H1.
    eapply yields_bind; [by apply search_in_hides|]. intros r2 H2.
    eapply yields_bind; [by apply search_in_hides|]. intros r3 H3.
    eapply yields_bind; [by apply search_in_hides|]. intros r4 H4.
    by apply yields_pure.
  - (* get_ads *)
    unfold get_ads. apply yields_try; [|intros; by apply yields_pure].
    eapply yields_bind; [apply yields_read|]. intros docs _.
    eapply yields_bind; [apply (yields_lift (Forall hides_admin))|].
    { intros ads. apply for_each_Forall with (P := hides_admin).
      - intros a b. apply publish_ad_hides.
      - apply Forall_fmap, Forall_forall. intros d _. simpl.
        apply (hides_admin_include ["title"; "description"; "image"; "link"; "clicks"]).
        not_in_keys. }
    intros ads Hads. by apply yields_pure.
Qed.

(** * Further properties *)

(** ** Sanitising *)

Lemma mentions_append (c : ascii) (a b : string) :
  mentions c (a +:+ b) = mentions c a || mentions c b.
Proof.
  induction a as [|x a IH]; simpl; [done|]. rewrite IH. by rewrite orb_assoc.
Qed.

Lemma mentions_replace_same (c : ascii) (r s : string) :
  mentions c r = false -> mentions c (replace_char c r s) = false.
Proof.
  intros Hr. induction s as [|a s IH]; simpl; [done|].
  destruct (Ascii.eqb a c) eqn:E.
  - by rewrite mentions_append, Hr, IH.
  - simpl. by rewrite E, IH.
Qed.

Lemma mentions_replace_other (c c' : ascii) (r s : string) :
  mentions c' r = false -> mentions c' s = false ->
  mentions c' (replace_char c r s) = false.
Proof.
  intros Hr. induction s as [|a s IH]; simpl; [done|].
  intros [Ha Hs]%orb_false_iff.
  destruct (Ascii.eqb a c).
  - by rewrite mentions_append, Hr, IH.
  - simpl. by rewrite Ha, IH.
Qed.

Lemma replace_char_absent (c : ascii) (r s : string) :
  mentions c s = false -> replace_char c r s = s.
Proof.
  induction s as [|a s IH]; simpl; [done|].
  intros [Ha Hs]%orb_false_iff. rewrite Ha. by rewrite IH.
Qed.

Lemma sanitize_input_angle_free (text : string) :
  angle_free (sanitize_input text) = true.
Proof.
  unfold angle_free, sanitize_input.
  destruct (String.eqb_spec text "") as [->|_]; [done|].
  rewrite (mentions_replace_same ">") by done.
  rewrite (mentions_replace_other ">" "<"); [done|done|].
  by apply mentions_replace_same.
Qed.

Lemma sanitize_input_fixed (text : string) :
  angle_free text = true -> sanitize_input text = text.
Proof.
  unfold angle_free, sanitize_input.
  intros [H1 H2]%andb_true_iff. apply negb_true_iff in H1, H2.
  destruct (String.eqb text ""); [done|].
  by rewrite (replace_char_absent "<"), (replace_char_absent ">").
Qed.

(** X1. Whatever the text, [sanitize_input] returns a text without [<] and
    without [>]; a text that has neither comes back as it is, so sanitising
    twice is sanitising once. *)
Theorem sanitize_input_safe (text : string) :
  mentions "<" (sanitize_input text) = false
  /\ mentions ">" (sanitize_input text) = false
  /\ (angle_free text = true -> sanitize_input text = text)
  /\ sanitize_input (sanitize_input text) = sanitize_input text.
Proof.
  pose proof (sanitize_input_angle_free text) as H.
  unfold angle_free in H. apply andb_true_iff in H as [H1 H2].
  apply negb_true_iff in H1, H2.
  repeat split; try done.
  - apply sanitize_input_fixed.
  - apply sanitize_input_fixed, sanitize_input_angle_free.
Qed.

Lemma set_default_value_tidy (s : string) :
  angle_free s = true -> tidy (set_default_value (VStr s)).
Proof.
  intros Hs t. simpl. destruct (String.eqb_spec (strip s) "") as [Hb|Hb].
  - intros [= <-]. split; [reflexivity|]. vm_compute. discriminate.
  - intros [= <-]. by split.
Qed.

Lemma clean_value_tidy (v : value) : tidy (clean_value v).
Proof.
  destruct v; unfold tidy; cbn [clean_value]; try (intros ? Ht; discriminate Ht).
  apply set_default_value_tidy, sanitize_input_angle_free.
Qed.

(** X2. [set_default_value] never returns [None] nor a blank string, leaves
    every other value as it is, and applying it twice changes nothing
    more. *)
Theorem set_default_value_never_blank (v : value) :
  set_default_value v <> VNone
  /\ (forall s, set_default_value v = VStr s -> strip s <> "")
  /\ (v <> VNone -> (forall s, v = VStr s -> strip s <> "") -> set_default_value v = v)
  /\ set_default_value (set_default_value v) = set_default_value v.
Proof.
  assert (Hna : strip "N/A" <> "") by (vm_compute; discriminate).
  assert (Hna' : String.eqb (strip "N/A") "" = false) by (vm_compute; reflexivity).
  destruct v; simpl; repeat split; try done;
    try (destruct (String.eqb_spec (strip s) "")); simpl;
    try done; try (intros t [= <-]; done); try (by rewrite Hna').
  - intros _ H. by destruct (H s eq_refl).
  - destruct (String.eqb_spec (strip s) ""); done.
Qed.

(** ** The dictionary stored on create *)

Lemma py_get_set (k k' : string) (v : value) (d : pydict) :
  py_get k' (py_set k v d) = if String.eqb k k' then Some v else py_get k' d.
Proof.
  destruct (String.eqb_spec k k') as [->|Hne].
  - apply py_get_set_eq.
  - by apply py_get_set_ne.
Qed.

Lemma py_get_del_ne (k k' : string) (d : pydict) :
  k <> k' -> py_get k' (py_del k d) = py_get k' d.
Proof.
  intros Hne. induction d as [|[k0 v0] d IH]; simpl; [done|].
  destruct (String.eqb_spec k0 k) as [->|]; simpl.
  - destruct (String.eqb_spec k k'); congruence.
  - by rewrite IH.
Qed.

Lemma py_get_keys {A} (k : string) (v : A) (d : list (string * A)) :
  py_get k d = Some v -> k ∈ d.*1.
Proof.
  intros H%py_get_elem. apply list_elem_of_fmap. by exists (k, v).
Qed.

Lemma py_get_form_to_dict (k : string) (f : list (string * string)) :
  py_get k (form_to_dict f) = VStr <$> py_get k f.
Proof.
  induction f as [|[k0 v0] f IH]; simpl; [done|].
  destruct (String.eqb_spec k0 k) as [->|Hne]; [done|].
  by rewrite py_get_del_ne.
Qed.

Lemma clean_value_idempotent (v : value) : clean_value (clean_value v) = clean_value v.
Proof.
  destruct v; try done. cbn [clean_value]. simpl.
  destruct (String.eqb_spec (strip (sanitize_input s)) "") as [Hb|Hb].
  - vm_compute. reflexivity.
  - cbn [clean_value].
    rewrite (sanitize_input_fixed (sanitize_input s)) by apply sanitize_input_angle_free.
    simpl. by destruct (String.eqb_spec (strip (sanitize_input s)) "").
Qed.

Lemma py_get_sanitize_field (d : pydict) (k0 k : string) :
  py_get k (sanitize_field d k0)
  = if String.eqb k0 k then clean_value <$> py_get k d else py_get k d.
Proof.
  unfold sanitize_field, py_item, py_get_default.
  destruct (String.eqb_spec k0 k) as [->|Hne].
  - destruct (py_get k d) as [[]|] eqn:Hk; try (by rewrite Hk).
    by rewrite !py_get_set_eq.
  - destruct (py_get k0 d) as [[]|]; try done.
    by rewrite !py_get_set_ne.
Qed.

Lemma py_get_sanitize_loop (ks : list string) (d : pydict) (k : string) :
  py_get k (foldl sanitize_field d ks)
  = if bool_decide (k ∈ ks) then clean_value <$> py_get k d else py_get k d.
Proof.
  revert d. induction ks as [|k0 ks IH]; intros d; cbn [foldl].
  - by rewrite bool_decide_eq_false_2 by apply not_elem_of_nil.
  - rewrite IH, py_get_sanitize_field.
    destruct (String.eqb_spec k0 k) as [->|Hne].
    + rewrite (bool_decide_eq_true_2 (k ∈ k :: ks)) by apply list_elem_of_here.
      case_bool_decide; [|done].
      destruct (py_get k d); simpl; [|done]. by rewrite clean_value_idempotent.
    + rewrite (bool_decide_ext (k ∈ k0 :: ks) (k ∈ ks)); [done|].
      rewrite elem_of_cons. naive_solver.
Qed.

Lemma py_get_sanitize_all (d : pydict) (k : string) :
  py_get k (foldl sanitize_field d (py_keys d)) = clean_value <$> py_get k d.
Proof.
  rewrite py_get_sanitize_loop. case_bool_decide as Hk; [done|].
  destruct (py_get k d) as [v|] eqn:Hget; [|done].
  destruct Hk. by eapply py_get_keys.
Qed.

Lemma py_get_flag_step (c k : string) (d : pydict) :
  py_get k (if py_in c d then to_flag c d else d)
  = if String.eqb c k then is_on <$> py_get k d else py_get k d.
Proof.
  unfold py_in, to_flag, py_item, py_get_default, is_on.
  destruct (String.eqb_spec c k) as [->|Hne].
  - destruct (py_get k d) eqn:Hk; [|by rewrite Hk]. by rewrite py_get_set_eq.
  - destruct (py_get c d); [|done]. by rewrite py_get_set_ne.
Qed.

Lemma py_get_split_requirements (d d' : pydict) (k : string) :
  split_requirements_field d = ok d' ->
  py_get k d'
  = if String.eqb "requirements" k then split_value <$> py_get k d else py_get k d.
Proof.
  unfold split_requirements_field, py_in, py_item, py_get_default.
  destruct (String.eqb_spec "requirements" k) as [<-|Hne].
  - destruct (py_get "requirements" d) as [v|] eqn:Hget; simpl.
    + case_bool_decide as Hna; simpl.
      * intros [= <-]. rewrite Hget, Hna. reflexivity.
      * destruct v; try discriminate. intros [= <-].
        rewrite py_get_set_eq. simpl.
        destruct (String.eqb_spec s "N/A") as [->|]; [done|reflexivity].
    + intros [= <-]. by rewrite Hget.
  - destruct (py_get "requirements" d) as [v|]; simpl.
    + case_bool_decide; simpl; [by intros [= <-]|].
      destruct v; try discriminate. intros [= <-]. by rewrite py_get_set_ne.
    + by intros [= <-].
Qed.

Lemma py_get_image_step (e : env) (r : request) (k : string) :
  py_get k
    match py_get "image" (files r) with
    | Some file =>
        if negb (String.eqb (filename file) "")
        then py_set "image" (upload_to_cloudinary e file) (form_to_dict (form r))
        else form_to_dict (form r)
    | None => form_to_dict (form r)
    end
  = submitted e r k.
Proof.
  unfold submitted. destruct (py_get "image" (files r)) as [file|];
    [|apply py_get_form_to_dict].
  destruct (negb (String.eqb (filename file) "")); simpl;
    [|apply py_get_form_to_dict].
  rewrite py_get_set, String.eqb_sym.
  destruct (String.eqb k "image"); [done|apply py_get_form_to_dict].
Qed.

(** The whole of the dictionary [admin_add_content] stores, key by key. *)
Lemma add_content_data_lookup (e : env) (r : request) (uid : string) :
  session_user_id r = Some uid ->
  exists data,
    add_content_data e r = ok data
    /\ forall k,
         py_get k data
         = if String.eqb "requirements" k
           then split_value <$> (clean_value <$> submitted e r k)
           else if String.eqb "active" k || String.eqb "certification" k
           then is_on <$> (clean_value <$> submitted e r k)
           else if String.eqb "admin_id" k then Some (VStr uid)
           else if String.eqb "posted_at" k then Some (VTime (utcnow e))
           else clean_value <$> submitted e r k.
Proof.
  intros Hu.
  destruct (add_content_data_ok e r uid Hu) as (data & Hdata & _).
  exists data. split; [done|]. intros k.
  unfold add_content_data, session_user in Hdata. rewrite Hu in Hdata.
  cbn [rbind ok] in Hdata.
  rewrite (py_get_split_requirements _ _ k Hdata).
  rewrite !py_get_flag_step, !py_get_set, py_get_sanitize_all, py_get_image_step.
  repeat match goal with
         | |- context [String.eqb ?a ?b] =>
             destruct (String.eqb_spec a b) as [?|?]; try discriminate; subst
         end; cbn [orb]; try done.
Qed.

Lemma mentions_replace_keeps (c c' : ascii) (r s : string) :
  Ascii.eqb c c' = false -> mentions c' s = true ->
  mentions c' (replace_char c r s) = true.
Proof.
  intros Hne. induction s as [|a s IH]; simpl; [done|].
  destruct (Ascii.eqb a c) eqn:E.
  - apply Ascii.eqb_eq in E as ->. rewrite Hne. simpl. intros H.
    rewrite mentions_append, IH by done. apply orb_true_r.
  - simpl. intros [H|H]%orb_true_iff; [by rewrite H|]. rewrite IH by done.
    apply orb_true_r.
Qed.

Lemma mentions_replace_adds (c c' : ascii) (r s : string) :
  mentions c' r = true -> mentions c s = true ->
  mentions c' (replace_char c r s) = true.
Proof.
  intros Hr. induction s as [|a s IH]; simpl; [done|].
  destruct (Ascii.eqb a c) eqn:E.
  - intros _. by rewrite mentions_append, Hr.
  - simpl. intros H. rewrite IH by done. apply orb_true_r.
Qed.

Lemma sanitize_input_escapes (s : string) :
  angle_free s = false -> mentions "&" (sanitize_input s) = true.
Proof.
  unfold angle_free, sanitize_input. intros H.
  destruct (String.eqb_spec s "") as [->|_]; [discriminate|].
  destruct (mentions "<" s) eqn:H1.
  - apply mentions_replace_keeps; [done|]. by apply mentions_replace_adds.
  - destruct (mentions ">" s) eqn:H2; [|discriminate].
    apply mentions_replace_adds; [done|].
    by rewrite (replace_char_absent "<").
Qed.

Lemma clean_value_on (s : string) :
  is_on (clean_value (VStr s)) = VBool (bool_decide (s = "on")).
Proof.
  unfold is_on. f_equal. apply bool_decide_ext. cbn [clean_value]. split.
  - simpl. destruct (String.eqb_spec (strip (sanitize_input s)) ""); [discriminate|].
    intros [= Hs]. destruct (angle_free s) eqn:Ha.
    + by rewrite sanitize_input_fixed in Hs.
    + apply sanitize_input_escapes in Ha. rewrite Hs in Ha. discriminate.
  - intros ->. reflexivity.
Qed.

Lemma split_value_tidy (v : value) : tidy v -> tidy (split_value v).
Proof.
  intros Hv. destruct v; try done. simpl.
  destruct (String.eqb s "N/A"); [done|]. intros ? [=].
Qed.

Lemma lstrip_step1 (a : ascii) (s : string) :
  is_space a = true -> lstrip (String a s) = lstrip s.
Proof. intros H. simpl. by rewrite H. Qed.

Lemma lstrip_step2 (a b : ascii) (s : string) :
  is_space a = false -> is_space2 a b = true ->
  lstrip (String a (String b s)) = lstrip s.
Proof. intros H1 H2. simpl. by rewrite H1, H2. Qed.

Lemma lstrip_step3 (a b c : ascii) (s : string) :
  is_space a = false -> is_space2 a b = false -> is_space3 a b c = true ->
  lstrip (String a (String b (String c s))) = lstrip s.
Proof. intros H1 H2 H3. simpl. by rewrite H1, H2, H3. Qed.

Lemma lstrip_suffix_upto (n : nat) (s : string) :
  (String.length s <= n)%nat -> exists p, s = p +:+ lstrip s.
Proof.
  revert s. induction n as [|n IH]; intros s Hn.
  - destruct s; [by exists ""|simpl in Hn; lia].
  - destruct s as [|a s1]; [by exists ""|].
    destruct (is_space a) eqn:H1.
    { rewrite lstrip_step1 by done.
      destruct (IH s1 ltac:(simpl in *; lia)) as [p Hp].
      exists (String a p). rewrite Hp at 1. reflexivity. }
    destruct s1 as [|b s2]; [exists ""; simpl; by rewrite H1|].
    destruct (is_space2 a b) eqn:H2.
    { rewrite lstrip_step2 by done.
      destruct (IH s2 ltac:(simpl in *; lia)) as [p Hp].
      exists (String a (String b p)). rewrite Hp at 1. reflexivity. }
    destruct s2 as [|c s3]; [exists ""; simpl; by rewrite H1, H2|].
    destruct (is_space3 a b c) eqn:H3; [|exists ""; simpl; by rewrite H1, H2, H3].
    rewrite lstrip_step3 by done.
    destruct (IH s3 ltac:(simpl in *; lia)) as [p Hp].
    exists (String a (String b (String c p))). rewrite Hp at 1. reflexivity.
Qed.

Lemma rstrip_rev_step1 (c : ascii) (s : string) :
  is_space c = true -> rstrip_rev (String c s) = rstrip_rev s.
Proof. intros H. simpl. by rewrite H. Qed.

Lemma rstrip_rev_step2 (c b : ascii) (s : string) :
  is_space c = false -> is_space2 b c = true ->
  rstrip_rev (String c (String b s)) = rstrip_rev s.
Proof. intros H1 H2. simpl. by rewrite H1, H2. Qed.

Lemma rstrip_rev_step3 (c b a : ascii) (s : string) :
  is_space c = false -> is_space2 b c = false -> is_space3 a b c = true ->
  rstrip_rev (String c (String b (String a s))) = rstrip_rev s.
Proof. intros H1 H2 H3. simpl. by rewrite H1, H2, H3. Qed.

Lemma rstrip_rev_suffix_upto (n : nat) (s : string) :
  (String.length s <= n)%nat -> exists p, s = p +:+ rstrip_rev s.
Proof.
  revert s. induction n as [|n IH]; intros s Hn.
  - destruct s; [by exists ""|simpl in Hn; lia].
  - destruct s as [|c s1]; [by exists ""|].
    destruct (is_space c) eqn:H1.
    { rewrite rstrip_rev_step1 by done.
      destruct (IH s1 ltac:(simpl in *; lia)) as [p Hp].
      exists (String c p). rewrite Hp at 1. reflexivity. }
    destruct s1 as [|b s2]; [exists ""; simpl; by rewrite H1|].
    destruct (is_space2 b c) eqn:H2.
    { rewrite rstrip_rev_step2 by done.
      destruct (IH s2 ltac:(simpl in *; lia)) as [p Hp].
      exists (String c (String b p)). rewrite Hp at 1. reflexivity. }
    destruct s2 as [|a s3]; [exists ""; simpl; by rewrite H1, H2|].
    destruct (is_space3 a b c) eqn:H3; [|exists ""; simpl; by rewrite H1, H2, H3].
    rewrite rstrip_rev_step3 by done.
    destruct (IH s3 ltac:(simpl in *; lia)) as [p Hp].
    exists (String c (String b (String a p))). rewrite Hp at 1. reflexivity.
Qed.

Lemma mentions_lstrip (c : ascii) (s : string) :
  mentions c s = false -> mentions c (lstrip s) = false.
Proof.
  destruct (lstrip_suffix_upto (String.length s) s ltac:(lia)) as [p Hp].
  rewrite Hp at 1. rewrite mentions_append. by intros [_ ?]%orb_false_iff.
Qed.

Lemma mentions_rstrip_rev (c : ascii) (s : string) :
  mentions c s = false -> mentions c (rstrip_rev s) = false.
Proof.
  destruct (rstrip_rev_suffix_upto (String.length s) s ltac:(lia)) as [p Hp].
  rewrite Hp at 1. rewrite mentions_append. by intros [_ ?]%orb_false_iff.
Qed.

Lemma mentions_In (c : ascii) (s : string) :
  mentions c s = true <-> In c (list_ascii_of_string s).
Proof.
  induction s as [|a s IH]; simpl; [split; [discriminate|tauto]|].
  rewrite orb_true_iff, Ascii.eqb_eq, IH. tauto.
Qed.

Lemma mentions_string_rev (c : ascii) (s : string) :
  mentions c s = false -> mentions c (string_rev s) = false.
Proof.
  intros H. apply not_true_is_false. intros Hrev. apply not_true_iff_false in H.
  apply H. apply mentions_In. apply mentions_In in Hrev.
  unfold string_rev in Hrev. rewrite list_ascii_of_string_of_list_ascii in Hrev.
  by apply in_rev.
Qed.

Lemma mentions_strip (c : ascii) (s : string) :
  mentions c s = false -> mentions c (strip s) = false.
Proof.
  intros H. unfold strip.
  by apply mentions_string_rev, mentions_rstrip_rev, mentions_string_rev, mentions_lstrip.
Qed.

Lemma split_comma_aux_pieces (cur s : string) :
  mentions "," cur = false ->
  Forall (fun p => mentions "," p = false) (split_comma_aux cur s).
Proof.
  revert cur. induction s as [|a s IH]; intros cur Hcur; simpl.
  - repeat constructor. by apply mentions_string_rev.
  - destruct (Ascii.eqb a ",") eqn:E.
    + constructor; [by apply mentions_string_rev|]. by apply IH.
    + apply IH. simpl. by rewrite E.
Qed.

Lemma split_requirements_ok (s : string) :
  Forall requirement_ok (split_requirements s).
Proof.
  unfold split_requirements, split_comma.
  pose proof (split_comma_aux_pieces EmptyString s eq_refl) as H.
  induction H as [|p l Hp _ IH]; simpl; [constructor|].
  destruct (String.eqb_spec (strip p) "") as [Hb|Hb]; simpl; [exact IH|].
  constructor; [|exact IH]. split; [exact Hb|]. by apply mentions_strip.
Qed.

(** X3. What [admin_add_content] stores under a key of the form that is not
    one of the special ones is the submitted text with [<] and [>] escaped,
    or "N/A" when that is blank; a key the form does not have is not
    stored.  The posting time and the admin reference are the clock's and
    the session's, whatever the form says under those names. *)
Theorem create_stores_clean_fields (e : env) (r : request) (uid k : string) :
  session_user_id r = Some uid ->
  k ∉ ["requirements"; "active"; "certification"; "admin_id"; "posted_at"; "image"] ->
  exists data,
    add_content_data e r = ok data
    /\ py_get k data = (fun s => clean_value (VStr s)) <$> py_get k (form r)
    /\ py_get "posted_at" data = Some (VTime (utcnow e))
    /\ py_get "admin_id" data = Some (VStr uid).
Proof.
  intros Hu Hk.
  destruct (add_content_data_lookup e r uid Hu) as (data & Hdata & Hget).
  exists data. split; [done|]. rewrite !Hget.
  split; [|done].
  rewrite !not_elem_of_cons in Hk. destruct Hk as (H1 & H2 & H3 & H4 & H5 & H6 & _).
  repeat match goal with
         | |- context [String.eqb ?a k] =>
             destruct (String.eqb_spec a k) as [?|?]; [congruence|]
         end.
  cbn [orb]. unfold submitted.
  replace (String.eqb k "image") with false
    by (symmetry; apply String.eqb_neq; congruence).
  destruct (py_get "image" (files r)); rewrite ?andb_false_r;
    by destruct (py_get k (form r)).
Qed.

Lemma create_stores_clean_fields_witness :
  exists data,
    add_content_data (offline_env 0) (admin_post [("company_name", "<b>Acme")] []) = ok data
    /\ py_get "company_name" data
       = (fun s => clean_value (VStr s))
           <$> py_get "company_name" (form (admin_post [("company_name", "<b>Acme")] []))
    /\ py_get "posted_at" data = Some (VTime (utcnow (offline_env 0)))
    /\ py_get "admin_id" data = Some (VStr "admin").
Proof.
  apply (create_stores_clean_fields (offline_env 0)
           (admin_post [("company_name", "<b>Acme")] []) "admin" "company_name" eq_refl).
  not_in_keys.
Defined.

(** X4. On create the boxes [certification] and [active] are stored as
    booleans, true exactly for the submitted value "on", and are left out
    when the form does not have them; [is_project] is not converted and is
    stored as the submitted text. *)
Theorem create_stores_flags (e : env) (r : request) (uid : string) :
  session_user_id r = Some uid ->
  exists data,
    add_content_data e r = ok data
    /\ py_get "certification" data
       = (fun s => VBool (bool_decide (s = "on"))) <$> py_get "certification" (form r)
    /\ py_get "active" data
       = (fun s => VBool (bool_decide (s = "on"))) <$> py_get "active" (form r)
    /\ py_get "is_project" data
       = (fun s => clean_value (VStr s)) <$> py_get "is_project" (form r).
Proof.
  intros Hu.
  destruct (add_content_data_lookup e r uid Hu) as (data & Hdata & Hget).
  exists data. split; [done|]. rewrite !Hget. cbn [String.eqb Ascii.eqb Bool.eqb orb andb].
  unfold submitted. cbn [String.eqb Ascii.eqb Bool.eqb].
  repeat split;
    destruct (py_get "image" (files r)); rewrite ?andb_false_r;
    match goal with |- context [py_get ?k (form r)] =>
      destruct (py_get k (form r)); [|done] end;
    cbn [fmap option_fmap option_map]; by rewrite ?clean_value_on.
Qed.

Lemma create_stores_flags_witness :
  exists data,
    add_content_data (offline_env 0) (admin_post [("name", "Talk"); ("active", "on")] [])
    = ok data
    /\ py_get "certification" data = None
    /\ py_get "active" data = Some (VBool true).
Proof.
  destruct (create_stores_flags (offline_env 0)
              (admin_post [("name", "Talk"); ("active", "on")] []) "admin" eq_refl)
    as (data & H1 & H2 & H3 & _).
  exists data. split; [exact H1|]. split; [exact H2|exact H3].
Defined.

Lemma split_comma_aux_free (c : ascii) (cur s : string) :
  mentions c cur = false -> mentions c s = false ->
  Forall (fun p => mentions c p = false) (split_comma_aux cur s).
Proof.
  revert cur. induction s as [|a s IH]; intros cur Hcur Hs; simpl.
  - repeat constructor. by apply mentions_string_rev.
  - simpl in Hs. apply orb_false_iff in Hs as [Ha Hs].
    destruct (Ascii.eqb a ",") eqn:E.
    + constructor; [by apply mentions_string_rev|]. by apply IH.
    + apply IH; [|done]. simpl. by rewrite Ha, Hcur.
Qed.

Lemma split_requirements_entries (s : string) :
  angle_free s = true -> Forall entry_tidy (split_requirements s).
Proof.
  unfold angle_free. intros [H1 H2]%andb_true_iff. apply negb_true_iff in H1, H2.
  unfold split_requirements, split_comma.
  pose proof (split_comma_aux_free "<" EmptyString s eq_refl H1) as Hlt.
  pose proof (split_comma_aux_free ">" EmptyString s eq_refl H2) as Hgt.
  induction (split_comma_aux EmptyString s) as [|p l IH]; simpl; [constructor|].
  apply Forall_cons in Hlt as [Hp1 Hlt]. apply Forall_cons in Hgt as [Hp2 Hgt].
  destruct (String.eqb_spec (strip p) "") as [Hb|Hb]; simpl; [by apply IH|].
  constructor; [|by apply IH].
  split; [by apply mentions_strip|]. split; [by apply mentions_strip|exact Hb].
Qed.

Lemma split_value_entries (v : value) (l : list string) :
  tidy v -> (forall l', v <> VList l') ->
  split_value v = VList l -> Forall entry_tidy l.
Proof.
  intros Hv Hnl. destruct v; simpl; try discriminate.
  - destruct (Hv s eq_refl) as [Ha _].
    destruct (String.eqb s "N/A"); [discriminate|].
    intros [= <-]. by apply split_requirements_entries.
  - intros [= ->]. by destruct (Hnl l).
Qed.

Lemma submitted_clean_plain (e : env) (r : request) (k : string) (v : value) :
  clean_value <$> submitted e r k = Some v -> forall l, v <> VList l.
Proof.
  unfold submitted, upload_to_cloudinary. intros H l ->.
  destruct (py_get "image" (files r)) as [file|];
    [destruct (negb (String.eqb (filename file) "") && String.eqb k "image");
     [destruct (cloudinary_upload e file)|]|];
    try destruct (py_get k (form r));
    cbn [fmap option_fmap option_map clean_value] in H; try discriminate;
    injection H as H;
    match type of H with
    | (if ?b then _ else _) = _ => destruct b; discriminate
    end.
Qed.

(** X5. Every string value [admin_add_content] stores, other than the
    admin reference it takes from the session, has neither [<] nor [>] and
    is not blank: the form fields, the URL of an uploaded image and the
    sentinel alike.  A list is stored under [requirements] only, and each
    of its entries has neither [<] nor [>] and is not empty.  (The field
    names are stored as submitted.) *)
Theorem create_stores_tidy_strings (e : env) (r : request) (uid : string) :
  session_user_id r = Some uid ->
  exists data,
    add_content_data e r = ok data
    /\ (forall k s,
          py_get k data = Some (VStr s) -> k <> "admin_id" ->
          mentions "<" s = false /\ mentions ">" s = false /\ strip s <> "")
    /\ (forall k l,
          py_get k data = Some (VList l) ->
          k = "requirements" /\ Forall entry_tidy l).
Proof.
  intros Hu.
  destruct (add_content_data_lookup e r uid Hu) as (data & Hdata & Hget).
  exists data. split; [done|]. split; [|
    intros k l Hk; rewrite Hget in Hk;
    destruct (String.eqb_spec "requirements" k) as [<-|_];
    [split; [reflexivity|];
     destruct (clean_value <$> submitted e r "requirements") as [w|] eqn:Hw;
       [|discriminate]; cbn [fmap option_fmap option_map] in Hk; injection Hk as Hk;
     refine (split_value_entries w l _ (submitted_clean_plain e r _ w Hw) Hk);
     destruct (submitted e r "requirements"); [|discriminate];
     cbn [fmap option_fmap option_map] in Hw; injection Hw as <-;
     apply clean_value_tidy
    |exfalso;
     destruct (String.eqb "active" k || String.eqb "certification" k);
     [destruct (clean_value <$> submitted e r k); discriminate|];
     destruct (String.eqb "admin_id" k); [discriminate|];
     destruct (String.eqb "posted_at" k); [discriminate|];
     exact (submitted_clean_plain e r k _ Hk l eq_refl)]].
  intros k s Hk Hadm.
  assert (Htidy : tidy (VStr s)).
  { rewrite Hget in Hk. destruct (submitted e r k) as [v|];
      repeat match type of Hk with
             | context [String.eqb ?a k] => destruct (String.eqb_spec a k) as [?|?]
             end; cbn [orb fmap option_fmap option_map] in Hk;
      try discriminate; try congruence; injection Hk as Hk;
      try discriminate; rewrite <- Hk;
      first [apply split_value_tidy, clean_value_tidy | apply clean_value_tidy]. }
  destruct (Htidy s eq_refl) as [Ha Hb].
  unfold angle_free in Ha. apply andb_true_iff in Ha as [H1 H2].
  apply negb_true_iff in H1, H2. done.
Qed.

Lemma create_stores_tidy_strings_witness :
  exists data,
    add_content_data (offline_env 0)
      (admin_post [("name", "<i>"); ("requirements", "<a>, b")] []) = ok data
    /\ (forall k s,
          py_get k data = Some (VStr s) -> k <> "admin_id" ->
          mentions "<" s = false /\ mentions ">" s = false /\ strip s <> "")
    /\ (forall k l,
          py_get k data = Some (VList l) ->
          k = "requirements" /\ Forall entry_tidy l).
Proof.
  exact (create_stores_tidy_strings (offline_env 0)
           (admin_post [("name", "<i>"); ("requirements", "<a>, b")] [])
           "admin" eq_refl).
Defined.

(** X6. On create a [requirements] field is stored as the sentinel "N/A"
    when it was blank, and otherwise as the list of its comma-separated
    pieces, stripped; no entry of the list is empty and none has a
    comma. *)
Theorem create_splits_requirements (e : env) (r : request) (uid : string) :
  session_user_id r = Some uid ->
  exists data,
    add_content_data e r = ok data
    /\ py_get "requirements" data
       = (fun s => split_value (clean_value (VStr s))) <$> py_get "requirements" (form r)
    /\ (forall s, py_get "requirements" data = Some (VStr s) -> s = "N/A")
    /\ (forall l, py_get "requirements" data = Some (VList l) -> Forall requirement_ok l).
Proof.
  intros Hu.
  destruct (add_content_data_lookup e r uid Hu) as (data & Hdata & Hget).
  exists data. split; [done|].
  assert (Hreq : py_get "requirements" data
                 = (fun s => split_value (clean_value (VStr s)))
                     <$> py_get "requirements" (form r)).
  { rewrite Hget. cbn [String.eqb Ascii.eqb Bool.eqb]. unfold submitted.
    cbn [String.eqb Ascii.eqb Bool.eqb].
    destruct (py_get "image" (files r)); rewrite ?andb_false_r;
      by destruct (py_get "requirements" (form r)). }
  split; [exact Hreq|]. rewrite Hreq.
  destruct (py_get "requirements" (form r)) as [s0|]; cbn [fmap option_fmap option_map];
    [|split; intros ? [=]].
  cbn [clean_value]. simpl set_default_value.
  destruct (String.eqb (strip (sanitize_input s0)) ""); cbn [split_value].
  - split; [by intros ? [= <-]|intros ? [=]].
  - destruct (String.eqb_spec (sanitize_input s0) "N/A") as [->|].
    + split; [by intros ? [= <-]|intros ? [=]].
    + split; [intros ? [=]|]. intros l [= <-]. apply split_requirements_ok.
Qed.

Lemma create_splits_requirements_witness :
  exists data,
    add_content_data (offline_env 0) (admin_post [("requirements", "a, b ,,c")] [])
    = ok data
    /\ (forall l, py_get "requirements" data = Some (VList l) -> Forall requirement_ok l).
Proof.
  destruct (create_splits_requirements (offline_env 0)
              (admin_post [("requirements", "a, b ,,c")] []) "admin" eq_refl)
    as (data & H1 & _ & _ & H2).
  exists data. split; [exact H1|exact H2].
Defined.

(** ** The dictionary sent on edit *)

Lemma tidy_except_set (ks : list string) (k : string) (v : value) (d : pydict) :
  tidy v -> tidy_except ks d -> tidy_except ks (py_set k v d).
Proof.
  intros Hv Hd k' v'. rewrite py_get_set.
  destruct (String.eqb k k'); [intros [= <-]; by right|apply Hd].
Qed.

Lemma tidy_except_step (ks : list string) (k : string) (v : value) (d : pydict) :
  tidy v -> tidy_except (k :: ks) d -> tidy_except ks (py_set k v d).
Proof.
  intros Hv Hd k' v'. rewrite py_get_set.
  destruct (String.eqb_spec k k') as [->|Hne]; [intros [= <-]; by right|].
  intros H. destruct (Hd _ _ H) as [Hin|Ht]; [|by right].
  apply elem_of_cons in Hin as [?|?]; [congruence|by left].
Qed.

Lemma tidy_except_drop (ks : list string) (k : string) (d : pydict) :
  (forall v, py_get k d = Some v -> tidy v) ->
  tidy_except (k :: ks) d -> tidy_except ks d.
Proof.
  intros Hk Hd k' v' H. destruct (Hd _ _ H) as [Hin|Ht]; [|by right].
  apply elem_of_cons in Hin as [->|?]; [right; by apply Hk|by left].
Qed.

Lemma tidy_bool (b : bool) : tidy (VBool b).
Proof. intros ? [=]. Qed.

Lemma normalize_flag_tidy (ks : list string) (c : string) (d : pydict) :
  tidy_except ks d -> tidy_except ks (normalize_flag c d).
Proof.
  intros Hd. unfold normalize_flag, to_flag.
  destruct (py_in c d); apply tidy_except_set; auto using tidy_bool.
Qed.

Lemma tidy_except_set_in (ks : list string) (k : string) (v : value) (d : pydict) :
  k ∈ ks -> tidy_except ks d -> tidy_except ks (py_set k v d).
Proof.
  intros Hk Hd k' v'. rewrite py_get_set.
  destruct (String.eqb_spec k k') as [<-|Hne]; [by left|apply Hd].
Qed.

Lemma edit_field_tidy (ks : list string) (d : pydict) (key : string) :
  tidy_except (key :: ks) d -> tidy_except ks (edit_field d key).
Proof.
  intros Hd. unfold edit_field.
  destruct (py_item key d) as [| | |s| | |] eqn:Hitem;
    try (apply (tidy_except_drop ks key); [|done];
         intros v Hv; unfold py_item, py_get_default in Hitem; rewrite Hv in Hitem;
         subst v; intros ? [=]).
  rewrite py_item_set_eq.
  do 3 apply normalize_flag_tidy.
  apply tidy_except_step; [apply (clean_value_tidy (VStr s))|].
  apply tidy_except_set_in; [apply list_elem_of_here|done].
Qed.

Lemma sanitize_field_tidy (ks : list string) (d : pydict) (key : string) :
  tidy_except (key :: ks) d -> tidy_except ks (sanitize_field d key).
Proof.
  intros Hd. unfold sanitize_field.
  destruct (py_item key d) as [| | |s| | |] eqn:Hitem;
    try (apply (tidy_except_drop ks key); [|done];
         intros v Hv; unfold py_item, py_get_default in Hitem; rewrite Hv in Hitem;
         subst v; intros ? [=]).
  rewrite py_item_set_eq.
  apply tidy_except_step; [apply (clean_value_tidy (VStr s))|].
  apply tidy_except_set_in; [apply list_elem_of_here|done].
Qed.

Lemma edit_loop_tidy (ks : list string) (d : pydict) :
  tidy_except ks d -> tidy_except [] (foldl edit_field d ks).
Proof.
  revert d. induction ks as [|k ks IH]; intros d Hd; cbn [foldl]; [done|].
  by apply IH, edit_field_tidy.
Qed.

Lemma tidy_except_keys (d : pydict) : tidy_except (py_keys d) d.
Proof. intros k v H. left. by eapply py_get_keys. Qed.

Lemma split_requirements_field_tidy (d d' : pydict) :
  split_requirements_field d = ok d' -> tidy_except [] d -> tidy_except [] d'.
Proof.
  intros Hsplit Hd k v. rewrite (py_get_split_requirements _ _ k Hsplit).
  destruct (String.eqb "requirements" k); [|apply Hd].
  destruct (py_get k d) as [w|] eqn:Hw; [|done]. intros [= <-]. right.
  apply split_value_tidy. destruct (Hd _ _ Hw) as [Hin|Ht]; [|done].
  by apply elem_of_nil in Hin.
Qed.

Lemma no_lists_get (d : pydict) (k : string) (l : list string) :
  no_lists d -> py_get k d <> Some (VList l).
Proof.
  intros Hd Hget. apply py_get_elem in Hget.
  unfold no_lists in Hd. rewrite Forall_forall in Hd.
  exact (Hd _ Hget l eq_refl).
Qed.

Lemma no_lists_set (k : string) (v : value) (d : pydict) :
  (forall l, v <> VList l) -> no_lists d -> no_lists (py_set k v d).
Proof. intros Hv. by apply Forall_py_set. Qed.

Lemma no_lists_del (k : string) (d : pydict) :
  no_lists d -> no_lists (py_del k d).
Proof. apply Forall_py_del. Qed.

Lemma no_lists_flag (k : string) (d : pydict) :
  no_lists d -> no_lists (normalize_flag k d).
Proof.
  intros Hd. unfold normalize_flag, to_flag.
  destruct (py_in k d); by apply no_lists_set.
Qed.

Lemma edit_field_no_lists (d : pydict) (key : string) :
  no_lists d -> no_lists (edit_field d key).
Proof.
  intros Hd. unfold edit_field. destruct (py_item key d); try done.
  rewrite py_item_set_eq.
  destruct (set_default_value_str (sanitize_input s)) as [s' ->].
  do 3 apply no_lists_flag. by do 2 (apply no_lists_set; [done|]).
Qed.

Lemma form_to_dict_no_lists (f : list (string * string)) :
  no_lists (form_to_dict f).
Proof.
  eapply Forall_impl; [apply form_to_dict_strings|].
  intros kv [Hin|[s Hs]] l; [by apply elem_of_nil in Hin|congruence].
Qed.

(** X7. Every string value in the dictionary [admin_edit_content] sends
    with [$set] has neither [<] nor [>] and is not blank, whatever form and
    file were submitted.  A list is sent under [requirements] only, and
    each of its entries has neither [<] nor [>] and is not empty.  (The
    field names are sent as submitted.) *)
Theorem edit_sets_tidy_strings (e : env) (r : request) :
  exists data,
    edit_content_data e r = ok data
    /\ (forall k s,
          py_get k data = Some (VStr s) ->
          mentions "<" s = false /\ mentions ">" s = false /\ strip s <> "")
    /\ (forall k l,
          py_get k data = Some (VList l) ->
          k = "requirements" /\ Forall entry_tidy l).
Proof.
  destruct (edit_content_data_ok e r) as (data & Hdata & _).
  exists data. split; [done|].
  unfold edit_content_data in Hdata.
  match type of Hdata with context [split_requirements_field ?d] =>
    assert (Hd : tidy_except [] d) by (apply edit_loop_tidy, tidy_except_keys);
    assert (Hnl : no_lists d);
    [|destruct (split_requirements_field d) as [x|d'] eqn:Hsplit; [discriminate|]]
  end.
  { apply foldl_preserves; [intros; by apply edit_field_no_lists|].
    unfold upload_to_cloudinary.
    repeat match goal with
    | |- no_lists (if _ then _ else _) => case_match
    | |- no_lists (match _ with Some _ => _ | None => _ end) => case_match
    | |- no_lists (py_del _ _) => apply no_lists_del
    | |- no_lists (py_set _ _ _) => apply no_lists_set; [intros ?; by case_match|]
    end; apply form_to_dict_no_lists. }
  assert (Hd' : tidy_except [] d')
    by (by apply (split_requirements_field_tidy _ _ Hsplit)).
  cbn [rbind ok] in Hdata. injection Hdata as <-.
  split.
  - intros k s Hk.
    assert (Htidy : tidy (VStr s)).
    { pose proof (tidy_except_set [] "updated_at" (VTime (utcnow e)) d'
                    ltac:(intros ? [=]) Hd') as Hfin.
      destruct (Hfin _ _ Hk) as [Hin|Ht]; [by apply elem_of_nil in Hin|exact Ht]. }
    destruct (Htidy s eq_refl) as [Ha Hb].
    unfold angle_free in Ha. apply andb_true_iff in Ha as [H1 H2].
    apply negb_true_iff in H1, H2. done.
  - intros k l. rewrite py_get_set.
    destruct (String.eqb "updated_at" k); [discriminate|].
    rewrite (py_get_split_requirements _ _ k Hsplit).
    destruct (String.eqb_spec "requirements" k) as [<-|_].
    + match goal with |- context [py_get "requirements" ?d] =>
        destruct (py_get "requirements" d) as [w|] eqn:Hw; [|discriminate] end.
      cbn [fmap option_fmap option_map]. intros [= Hl]. split; [reflexivity|].
      refine (split_value_entries w l _ _ Hl).
      * destruct (Hd _ _ Hw) as [Hin|Ht]; [by apply elem_of_nil in Hin|exact Ht].
      * intros l' ->. exact (no_lists_get _ _ _ Hnl Hw).
    + intros Hk. by destruct (no_lists_get _ _ _ Hnl Hk).
Qed.

(** ** The ad derived from an item *)

Lemma py_prefix_len (n : nat) (s : string) :
  py_len (py_prefix n s) = Nat.min n (py_len s).
Proof.
  revert n. induction s as [|a s IH]; intros n; cbn [py_prefix py_len]; [lia|].
  destruct (is_continuation a) eqn:Ha; cbn [py_len]; rewrite ?Ha; [apply IH|].
  destruct n as [|n]; cbn [py_len]; rewrite ?Ha, ?IH; lia.
Qed.

Lemma py_prefix_is_prefix (n : nat) (s : string) :
  exists rest, s = py_prefix n s +:+ rest.
Proof.
  revert n. induction s as [|a s IH]; intros n; cbn [py_prefix]; [by exists ""|].
  destruct (is_continuation a).
  - destruct (IH n) as [rest Hrest]. exists rest. rewrite Hrest at 1. reflexivity.
  - destruct n as [|n]; [by eexists|].
    destruct (IH n) as [rest Hrest]. exists rest. rewrite Hrest at 1. reflexivity.
Qed.

Lemma strip_empty_string (s : string) : strip s <> "" -> s <> "".
Proof. intros H ->. by apply H. Qed.

Lemma clean_value_truthy (s0 : string) :
  exists s, clean_value (VStr s0) = VStr s /\ truthy (VStr s) = true.
Proof.
  cbn [clean_value]. simpl set_default_value.
  destruct (String.eqb_spec (strip (sanitize_input s0)) "") as [Hb|Hb].
  - by exists "N/A".
  - exists (sanitize_input s0). split; [done|]. simpl.
    apply negb_true_iff, String.eqb_neq. by apply strip_empty_string.
Qed.

Lemma py_or_present (o : option value) (b : value) :
  (forall v, o = Some v -> truthy v = true) ->
  py_or (default VNone o) b = default b o.
Proof.
  intros H. destruct o as [v|]; simpl; [|done]. unfold py_or. by rewrite (H v).
Qed.

(** X8. The ad that [admin_add_content] derives from the item it stores
    takes as title the first of the item's [company_name], [name] and
    [title] that is there, and "N/A" when none is; as link the item's
    [official_link], and "#" without one; it refers to the item by the id
    given; and when the item has no [role] its description is the first
    100 characters of the item's description, "N/A" without one. *)
Theorem create_ad_follows_item (e : env) (r : request) (content_type uid : string)
    (inserted_id : value) :
  session_user_id r = Some uid ->
  exists data ad_data,
    add_content_data e r = ok data
    /\ add_content_ad_data e r content_type data inserted_id = ok ad_data
    /\ py_get "title" ad_data = Some (title_chain data)
    /\ py_get "link" ad_data = Some (py_get_default "official_link" (VStr "#") data)
    /\ py_get "content_type" ad_data = Some (VStr content_type)
    /\ py_get "content_reference" ad_data = Some inserted_id
    /\ (py_get "role" data = None ->
        exists s d,
          py_get_default "description" (VStr "N/A") data = VStr d
          /\ s = py_prefix 100 d
          /\ py_get "description" ad_data = Some (VStr s)
          /\ py_len s = Nat.min 100 (py_len d)
          /\ (exists rest, d = s +:+ rest)).
Proof.
  intros Hu.
  destruct (add_content_data_lookup e r uid Hu) as (data & Hdata & Hget).
  assert (Hfield : forall k,
            k ∈ ["company_name"; "name"; "description"] ->
            forall v, py_get k data = Some v ->
            exists s, v = VStr s /\ truthy v = true).
  { intros k Hk v. rewrite Hget.
    assert (Hform : submitted e r k = VStr <$> py_get k (form r)).
    { unfold submitted.
      repeat (apply elem_of_cons in Hk as [->|Hk]); try (by apply elem_of_nil in Hk);
        cbn [String.eqb Ascii.eqb Bool.eqb];
        destruct (py_get "image" (files r)); by rewrite ?andb_false_r. }
    rewrite Hform.
    repeat (apply elem_of_cons in Hk as [->|Hk]); try (by apply elem_of_nil in Hk);
      cbn [String.eqb Ascii.eqb Bool.eqb orb];
      (match goal with |- context [py_get ?k (form r)] =>
         destruct (py_get k (form r)) as [s0|] end; [|discriminate]);
      cbn [fmap option_fmap option_map];
      destruct (clean_value_truthy s0) as (s & Hc & Hs); rewrite Hc;
      intros [= <-]; eauto. }
  exists data.
  unfold add_content_ad_data, session_user. rewrite Hu.
  assert (Hdesc : exists d, py_get_default "description" (VStr "N/A") data = VStr d).
  { unfold py_get_default. destruct (py_get "description" data) as [v|] eqn:Hv; [|eauto].
    destruct (Hfield "description" ltac:(in_keys) v Hv) as (s & -> & _). eauto. }
  destruct Hdesc as [d Hd].
  assert (Htitle :
    py_or (py_or (py_get_default "company_name" VNone data)
                 (py_get_default "name" VNone data))
          (py_get_default "title" (VStr "N/A") data) = title_chain data).
  { unfold title_chain, py_get_default.
    destruct (py_get "company_name" data) as [v|] eqn:Hv.
    - destruct (Hfield "company_name" ltac:(in_keys) v Hv) as (s & -> & Hs).
      unfold py_or. by rewrite Hs, Hs.
    - destruct (py_get "name" data) as [v|] eqn:Hn; [|done].
      destruct (Hfield "name" ltac:(in_keys) v Hn) as (s & -> & Hs).
      unfold py_or at 2. cbn [truthy]. unfold py_or. by rewrite Hs. }
  rewrite Htitle, Hd.
  destruct (or_sliced (py_get_default "role" VNone data) (VStr d) 100) as [x|desc] eqn:Hor.
  { unfold or_sliced in Hor. destruct (truthy _); discriminate. }
  eexists. split; [done|]. split; [reflexivity|].
  repeat (split; [reflexivity|]).
  intros Hrole. unfold or_sliced, py_get_default in Hor. rewrite Hrole in Hor.
  cbn in Hor. injection Hor as <-.
  exists (py_prefix 100 d), d.
  split; [done|]. split; [done|]. split; [done|].
  split; [apply py_prefix_len|apply py_prefix_is_prefix].
Qed.

Lemma create_ad_follows_item_witness :
  exists data ad_data,
    add_content_data (offline_env 0) (admin_post [("name", "Talk")] []) = ok data
    /\ add_content_ad_data (offline_env 0) (admin_post [("name", "Talk")] [])
         "workshops" data (VOid 7%N) = ok ad_data
    /\ py_get "title" ad_data = Some (title_chain data)
    /\ py_get "content_reference" ad_data = Some (VOid 7%N).
Proof.
  destruct (create_ad_follows_item (offline_env 0) (admin_post [("name", "Talk")] [])
              "workshops" "admin" (VOid 7%N) eq_refl)
    as (data & ad_data & H1 & H2 & H3 & _ & _ & H4 & _).
  exists data, ad_data. repeat split; assumption.
Defined.

(** X9. The ad data [admin_edit_content] builds always has a description of
    at most 150 characters: the first 150 of the role when the form has
    one, of the description otherwise.  It carries the id of the item and
    no counter. *)
Theorem edit_ad_description_bounded (e : env) (r : request) (content_type uid : string)
    (oid : ObjectId) :
  session_user_id r = Some uid ->
  exists data ad_data s whole,
    edit_content_data e r = ok data
    /\ edit_content_ad_data e r content_type data oid = ok ad_data
    /\ py_or (py_get_default "role" VNone data)
             (py_get_default "description" (VStr "") data) = VStr whole
    /\ s = py_prefix 150 whole
    /\ py_get "description" ad_data = Some (VStr s)
    /\ py_len s = Nat.min 150 (py_len whole)
    /\ (exists rest, whole = s +:+ rest)
    /\ py_get "content_reference" ad_data = Some (VOid oid)
    /\ py_get "clicks" ad_data = None
    /\ py_get "impressions" ad_data = None.
Proof.
  intros Hu.
  destruct (edit_content_data_ok e r) as (data & Hdata & Hshape).
  exists data.
  unfold edit_content_ad_data, session_user, sliced_or. rewrite Hu.
  assert (Hrole : "role" ∉ edit_special) by (unfold edit_special; not_in_keys).
  assert (Hdesc : "description" ∉ edit_special) by (unfold edit_special; not_in_keys).
  destruct (strings_except_default _ _ _ Hshape Hdesc "") as [sd Hsd]. rewrite Hsd.
  assert (Hor : exists s, py_or (py_get_default "role" VNone data) (VStr sd) = VStr s).
  { unfold py_get_default.
    destruct (py_get "role" data) as [v|] eqn:Hget; [|simpl; eauto].
    destruct (strings_except_get _ _ _ _ Hshape Hrole Hget) as [s ->].
    unfold py_or. destruct (truthy (VStr s)); eauto. }
  destruct Hor as [whole Hwhole]. rewrite Hwhole. cbn [py_slice_to rbind ok].
  eexists _, (py_prefix 150 whole), whole.
  split; [done|]. split; [reflexivity|].
  split; [done|]. split; [reflexivity|]. split; [done|].
  split; [apply py_prefix_len|]. split; [apply py_prefix_is_prefix|].
  repeat split; done.
Qed.

Lemma edit_ad_description_bounded_witness :
  exists data ad_data s whole,
    edit_content_data (offline_env 0) (admin_post [("role", long_text 200)] []) = ok data
    /\ edit_content_ad_data (offline_env 0) (admin_post [("role", long_text 200)] [])
         "jobs" data 7%N = ok ad_data
    /\ py_or (py_get_default "role" VNone data)
             (py_get_default "description" (VStr "") data) = VStr whole
    /\ s = py_prefix 150 whole
    /\ py_get "description" ad_data = Some (VStr s)
    /\ py_len s = Nat.min 150 (py_len whole)
    /\ (exists rest, whole = s +:+ rest).
Proof.
  destruct (edit_ad_description_bounded (offline_env 0)
              (admin_post [("role", long_text 200)] []) "jobs" "admin" 7%N eq_refl)
    as (data & ad_data & s & whole & H1 & H2 & H3 & H4 & H5 & H6 & H7 & _).
  exists data, ad_data, s, whole. repeat split; assumption.
Defined.

(** ** Guards and rejected requests *)

Lemma admin_required_blocks (r : request) (f : M response) :
  session_user_id r = None \/ session_is_admin r = false ->
  admin_required r f = pure (RedirectTo "login" [("Admin access required", "danger")]).
Proof.
  intros [Hu|Ha]; unfold admin_required.
  - rewrite Hu. rewrite bool_decide_eq_false_2; [done|]. by intros [? ?].
  - rewrite Ha. by rewrite orb_true_r.
Qed.

(** X10. A request whose session has no user, or whose user is not the
    admin, gets from every admin route the redirect to the login page with
    "Admin access required", and the database stays as it was: nothing is
    added, edited, deleted or listed. *)
Theorem admin_routes_guarded (e : env) (r : request) (content_type id : string) (st : db) :
  session_user_id r = None \/ session_is_admin r = false ->
  let refused := (RedirectTo "login" [("Admin access required", "danger")], st) in
  respond (admin_add_content e r content_type) st = refused
  /\ respond (admin_edit_content e r content_type id) st = refused
  /\ respond (admin_delete_content e r content_type id) st = refused
  /\ respond (admin_content e r content_type) st = refused
  /\ respond (admin_users e r) st = refused
  /\ respond (admin_dashboard e r) st = refused.
Proof.
  intros H. cbv zeta.
  unfold admin_add_content, admin_edit_content, admin_delete_content, admin_content,
    admin_users, admin_dashboard.
  rewrite !(admin_required_blocks r _ H). done.
Qed.

Lemma admin_routes_guarded_witness :
  respond (admin_delete_content (offline_env 0) (member_get []) "jobs" id_7)
    (sample_db jobs_collection)
  = (RedirectTo "login" [("Admin access required", "danger")], sample_db jobs_collection).
Proof.
  apply (admin_routes_guarded (offline_env 0) (member_get []) "jobs" id_7
           (sample_db jobs_collection)).
  right. reflexivity.
Defined.

(** X11. For the admin, a content type outside the seven of the admin
    routes changes nothing in the database: add and delete answer 400
    "Invalid content type", edit and the content listing redirect to the
    dashboard with that message. *)
Theorem admin_routes_reject_unknown_type (e : env) (r : request)
    (content_type id uid : string) (st : db) :
  session_user_id r = Some uid ->
  session_is_admin r = true ->
  content_type ∉ ["jobs"; "workshops"; "courses"; "hackathons"; "roadmaps"; "websites"; "ads"] ->
  respond (admin_add_content e r content_type) st
  = (Jsonify (json_error "Invalid content type") 400, st)
  /\ respond (admin_delete_content e r content_type id) st
     = (Jsonify (json_error "Invalid content type") 400, st)
  /\ respond (admin_edit_content e r content_type id) st
     = (RedirectTo "admin_dashboard" [("Invalid content type", "danger")], st)
  /\ respond (admin_content e r content_type) st
     = (RedirectTo "admin_dashboard" [("Invalid content type", "danger")], st).
Proof.
  intros Hu Ha Hct.
  assert (Hmap : py_get content_type admin_collection_map = None).
  { rewrite !not_elem_of_cons in Hct.
    destruct Hct as (H1 & H2 & H3 & H4 & H5 & H6 & H7 & _).
    unfold admin_collection_map. cbn [py_get].
    repeat match goal with
           | |- context [String.eqb ?a content_type] =>
               destruct (String.eqb_spec a content_type) as [?|?]; [congruence|]
           end. done. }
  unfold admin_add_content, admin_edit_content, admin_delete_content, admin_content.
  rewrite !(admin_required_pass r uid) by done. rewrite Hmap. done.
Qed.

Lemma admin_routes_reject_unknown_type_witness :
  respond (admin_add_content (offline_env 0) (admin_post [("name", "x")] []) "users")
    empty_db
  = (Jsonify (json_error "Invalid content type") 400, empty_db).
Proof.
  apply (admin_routes_reject_unknown_type (offline_env 0) (admin_post [("name", "x")] [])
           "users" id_7 "admin" empty_db eq_refl eq_refl).
  not_in_keys.
Defined.

(** X12. For the admin and a content type of the admin routes, an id that
    is not a well-formed object id makes edit (on GET and on POST) and
    delete end in the uncaught [InvalidId], with nothing written. *)
Theorem admin_routes_malformed_id (e : env) (r : request) (content_type id uid : string)
    (coll : collection) (st : db) :
  session_user_id r = Some uid ->
  session_is_admin r = true ->
  py_get content_type admin_collection_map = Some coll ->
  ObjectId_of_string id = None ->
  respond (admin_edit_content e r content_type id) st = (Failed InvalidId, st)
  /\ respond (admin_delete_content e r content_type id) st = (Failed InvalidId, st).
Proof.
  intros Hu Ha Hmap Hid.
  unfold admin_edit_content, admin_delete_content, ObjectId_new.
  rewrite !(admin_required_pass r uid) by done. rewrite Hmap, Hid.
  destruct (edit_content_data_ok e r) as (data & Hdata & _). rewrite Hdata.
  split; [|done]. by destruct (method r).
Qed.

Lemma admin_routes_malformed_id_witness :
  respond (admin_delete_content (offline_env 0) (admin_post [] []) "jobs" "7")
    (sample_db jobs_collection)
  = (Failed InvalidId, sample_db jobs_collection).
Proof.
  apply (admin_routes_malformed_id (offline_env 0) (admin_post [] []) "jobs" "7" "admin"
           jobs_collection (sample_db jobs_collection) eq_refl eq_refl eq_refl eq_refl).
Defined.

(** ** Impressions *)

Lemma update_one_inc_frame (e : env) (q : query) (k : string) (n : Z)
    (c c' : list doc) (m : Z) :
  update_one e q (UInc k n) c = ok (m, c') ->
  length c' = length c
  /\ forall k', k' <> k -> column k' c' = column k' c.
Proof.
  revert c' m. induction c as [|d c IH]; intros c' m; cbn [update_one].
  - intros [= <- <-]. done.
  - destruct (matches e q d).
    + destruct (apply_update (UInc k n) d) as [x|d'] eqn:Hup; [discriminate|].
      cbn [rbind ok]. intros [= <- <-]. split; [done|]. intros k' Hk.
      unfold column. cbn [fmap list_fmap]. f_equal.
      cbn [apply_update] in Hup.
      destruct (d !! k) as [[]|]; try discriminate; injection Hup as <-;
        by rewrite lookup_insert_ne.
    + destruct (update_one e q (UInc k n) c) as [x|[m0 c0]]; [discriminate|].
      cbn [rbind ok fst snd]. intros [= <- <-].
      destruct (IH c0 m0 eq_refl) as [Hlen Hcol]. split; [simpl; by rewrite Hlen|].
      intros k' Hk. unfold column in *. cbn [fmap list_fmap]. f_equal. by apply Hcol.
Qed.

Lemma ad_impression_outcome (e : env) (r : request) (ad_id : string) (st : db) :
  respond (ad_impression e r ad_id) st
  = match ObjectId_of_string ad_id with
    | None => (Jsonify (json_success false (Some "Invalid ad ID")) 400, st)
    | Some oid =>
        match update_one e (by_field "_id" (VOid oid)) (UInc "impressions" 1)
                (st ads_collection) with
        | inl _ => (Jsonify (json_success false (Some "Server error")) 500, st)
        | inr (m, c') =>
            (if m =? 0
             then Jsonify (json_success false (Some "Ad not found")) 404
             else Jsonify (json_success true None) 200,
             db_put ads_collection c' st)
        end
    end.
Proof.
  unfold ad_impression, ObjectId_new.
  destruct (ObjectId_of_string ad_id) as [oid|] eqn:Hoid.
  - rewrite (ObjectId_is_valid_Some _ _ Hoid). cbn [negb]. run_handler.
    destruct (update_one e (by_field "_id" (VOid oid)) (UInc "impressions" 1)
                (st ads_collection)) as [x|[m c']]; [done|].
    cbn [fst snd]. by destruct (m =? 0).
  - rewrite (ObjectId_is_valid_None _ Hoid). cbn [negb]. by run_handler.
Qed.

Lemma increment_counter (k : string) (ad : doc) (n : Z) :
  counter k ad = Some n ->
  apply_update (UInc k 1) ad = ok (<[k := VInt (n + 1)]> ad).
Proof.
  unfold counter. cbn [apply_update].
  destruct (ad !! k) as [[]|]; try discriminate; intros [= <-]; reflexivity.
Qed.

(** X13. [ad_impression] touches nothing but impression counters: whatever
    the id, no collection other than the ads changes (the click log in
    particular), no ad is added or removed, and every field of every ad
    other than [impressions] is what it was.  A malformed id answers 400,
    an id no ad has answers 404 with the ads unchanged, and for an ad
    whose impression counter reads [n] the answer is success and the
    counter reads [n + 1]. *)
Theorem impression_counts_only (e : env) (r : request) (ad_id : string) (st : db) :
  let out := respond (ad_impression e r ad_id) st in
  (forall c, c <> ads_collection -> out.2 c = st c)
  /\ length (out.2 ads_collection) = length (st ads_collection)
  /\ (forall k, k <> "impressions" ->
        column k (out.2 ads_collection) = column k (st ads_collection))
  /\ (ObjectId_of_string ad_id = None ->
        out = (Jsonify (json_success false (Some "Invalid ad ID")) 400, st))
  /\ (forall oid,
        ObjectId_of_string ad_id = Some oid ->
        none_with "_id" (VOid oid) (st ads_collection) ->
        out.1 = Jsonify (json_success false (Some "Ad not found")) 404
        /\ out.2 ads_collection = st ads_collection)
  /\ (forall oid before ad after n,
        ObjectId_of_string ad_id = Some oid ->
        st ads_collection = before ++ ad :: after ->
        none_with "_id" (VOid oid) before ->
        ad !! "_id" = Some (VOid oid) ->
        counter "impressions" ad = Some n ->
        out.1 = Jsonify (json_success true None) 200
        /\ out.2 ads_collection = before ++ <["impressions" := VInt (n + 1)]> ad :: after).
Proof.
  cbv zeta. rewrite ad_impression_outcome.
  destruct (ObjectId_of_string ad_id) as [oid|] eqn:Hoid.
  - assert (Hmiss : none_with "_id" (VOid oid) (st ads_collection) ->
              update_one e (by_field "_id" (VOid oid)) (UInc "impressions" 1)
                (st ads_collection) = ok (0, st ads_collection)).
    { intros Hnone. apply update_one_no_match. by apply none_with_no_match. }
    assert (Hhit : forall before ad after n,
              st ads_collection = before ++ ad :: after ->
              none_with "_id" (VOid oid) before ->
              ad !! "_id" = Some (VOid oid) ->
              counter "impressions" ad = Some n ->
              update_one e (by_field "_id" (VOid oid)) (UInc "impressions" 1)
                (st ads_collection)
              = ok (1, before ++ <["impressions" := VInt (n + 1)]> ad :: after)).
    { intros before ad after n Hads Hb Hid Hn. rewrite Hads.
      apply update_one_first.
      - by apply none_with_no_match.
      - rewrite matches_by_oid. by apply bool_decide_eq_true_2.
      - by apply increment_counter. }
    destruct (update_one e (by_field "_id" (VOid oid)) (UInc "impressions" 1)
                (st ads_collection)) as [x|[m c']] eqn:Hup; cbn [fst snd].
    + split; [done|]. split; [done|]. split; [done|]. split; [done|]. split.
      * intros oid' [= <-] Hnone. discriminate (Hmiss Hnone).
      * intros oid' before ad after n [= <-] Hads Hb Hid Hn.
        discriminate (Hhit _ _ _ _ Hads Hb Hid Hn).
    + destruct (update_one_inc_frame _ _ _ _ _ _ _ Hup) as [Hlen Hcol].
      db_simpl.
      split; [intros c Hc; by rewrite db_put_other|].
      split; [done|]. split; [done|]. split; [done|]. split.
      * intros oid' [= <-] Hnone. by injection (Hmiss Hnone) as -> ->.
      * intros oid' before ad after n [= <-] Hads Hb Hid Hn.
        by injection (Hhit _ _ _ _ Hads Hb Hid Hn) as -> ->.
  - cbn [fst snd]. repeat split; done.
Qed.


(** ** Routes of logged-in members *)

(** X14. A visitor without a session gets from every route behind
    [login_required] the redirect to the login page with "Please login to
    access this page", whatever the content type and the id, and the
    database is left as it was. *)
Theorem member_routes_guarded (e : env) (r : request) (content_type id : string) (st : db) :
  session_user_id r = None ->
  let refused :=
    (RedirectTo "login" [("Please login to access this page", "warning")], st) in
  respond (roadmaps e r) st = refused
  /\ respond (detail_page e r content_type id) st = refused
  /\ respond (apply_content e r content_type id) st = refused
  /\ respond (user_dashboard e r) st = refused.
Proof.
  intros Hu. cbv zeta.
  unfold roadmaps, detail_page, apply_content, user_dashboard, login_required.
  rewrite Hu. done.
Qed.

Lemma member_routes_guarded_witness :
  respond (detail_page (offline_env 0) (visitor []) "job" id_7) (sample_db jobs_collection)
  = (RedirectTo "login" [("Please login to access this page", "warning")],
     sample_db jobs_collection).
Proof.
  apply (member_routes_guarded (offline_env 0) (visitor []) "job" id_7
           (sample_db jobs_collection) eq_refl).
Defined.

(** X15. For a logged-in member the detail and apply routes know the four
    content types in the singular only: any other type (the plural [jobs]
    of the listings included) makes [detail_page] redirect to the index
    with "Invalid content type" and [apply_content] answer 400; and for a
    known type a malformed id ends both in the uncaught [InvalidId].  The
    database is left as it was. *)
Theorem member_routes_reject (e : env) (r : request) (content_type id uid : string)
    (st : db) :
  session_user_id r = Some uid ->
  (content_type ∉ ["job"; "workshop"; "course"; "hackathon"] ->
     respond (detail_page e r content_type id) st
     = (RedirectTo "index" [("Invalid content type", "danger")], st)
     /\ respond (apply_content e r content_type id) st
        = (Jsonify (json_error "Invalid content type") 400, st))
  /\ (content_type ∈ ["job"; "workshop"; "course"; "hackathon"] ->
      ObjectId_of_string id = None ->
      respond (detail_page e r content_type id) st = (Failed InvalidId, st)
      /\ respond (apply_content e r content_type id) st = (Failed InvalidId, st)).
Proof.
  intros Hu. unfold detail_page, apply_content, login_required, ObjectId_new.
  rewrite Hu. split.
  - intros Hct.
    assert (Hmap : py_get content_type detail_collection_map = None).
    { rewrite !not_elem_of_cons in Hct. destruct Hct as (H1 & H2 & H3 & H4 & _).
      unfold detail_collection_map. cbn [py_get].
      repeat match goal with
             | |- context [String.eqb ?a content_type] =>
                 destruct (String.eqb_spec a content_type) as [?|?]; [congruence|]
             end. done. }
    rewrite Hmap. done.
  - intros Hct Hid. rewrite Hid.
    assert (Hmap : exists coll, py_get content_type detail_collection_map = Some coll).
    { rewrite !elem_of_cons in Hct.
      destruct Hct as [->|[->|[->|[->|Hct]]]]; [by eexists..|].
      by apply elem_of_nil in Hct. }
    destruct Hmap as [coll ->]. done.
Qed.

Lemma member_routes_reject_witness :
  respond (detail_page (offline_env 0) (member_get []) "jobs" id_7)
    (sample_db jobs_collection)
  = (RedirectTo "index" [("Invalid content type", "danger")], sample_db jobs_collection).
Proof.
  apply (member_routes_reject (offline_env 0) (member_get []) "jobs" id_7 id_1
           (sample_db jobs_collection) eq_refl).
  not_in_keys.
Defined.

Lemma project_include_lookup (ks : list string) (d : doc) (k : string) :
  k ∈ "_id" :: ks -> project (PInclude ks) d !! k = d !! k.
Proof.
  intros Hk. cbn [project]. destruct (d !! k) as [v|] eqn:Hd.
  - apply map_lookup_filter_Some. by split.
  - apply map_lookup_filter_None. by left.
Qed.

Lemma project_include_subseteq (ks : list string) (d : doc) :
  project (PInclude ks) d ⊆ d.
Proof. cbn [project]. apply map_filter_subseteq. Qed.

(** X16. [apply_content], for a logged-in member, a known type and a
    well-formed id: when no item of the collection has the id the answer
    is 404 "Content not found"; otherwise it is the official link of the
    first item with the id, or "#" when that item has none.  Nothing is
    written to the database: applying leaves no trace. *)
Theorem apply_content_link (e : env) (r : request) (content_type id uid : string)
    (coll : collection) (oid : ObjectId) (st : db) :
  session_user_id r = Some uid ->
  py_get content_type detail_collection_map = Some coll ->
  ObjectId_of_string id = Some oid ->
  (none_with "_id" (VOid oid) (st coll) ->
     respond (apply_content e r content_type id) st
     = (Jsonify (json_error "Content not found") 404, st))
  /\ (forall before item after,
        st coll = before ++ item :: after ->
        none_with "_id" (VOid oid) before ->
        item !! "_id" = Some (VOid oid) ->
        respond (apply_content e r content_type id) st
        = (Jsonify
             (JObj (to_bson [("redirect_url",
                              default (VStr "#") (item !! "official_link"))]))
             200, st)).
Proof.
  intros Hu Hmap Hid. unfold apply_content, login_required, ObjectId_new.
  rewrite Hu, Hmap, Hid. split.
  - intros Hnone. run_handler. by rewrite (find_one_none e _ _ _ _ Hnone).
  - intros before item after Hst Hb Hitem. run_handler.
    rewrite Hst, (find_one_first e _ _ _ _ _ _ Hb Hitem).
    rewrite bool_decide_eq_false_2.
    + rewrite project_include_lookup; [done|]. in_keys.
    + intros Hempty.
      assert (Hproj : project (PInclude ["official_link"]) item !! "_id" = Some (VOid oid))
        by (rewrite project_include_lookup; [done|in_keys]).
      rewrite Hempty in Hproj. by rewrite lookup_empty in Hproj.
Qed.

Lemma apply_content_link_witness :
  respond (apply_content (offline_env 0) (member_get []) "job" id_7)
    (sample_db jobs_collection)
  = (Jsonify (JObj (to_bson [("redirect_url",
                              default (VStr "#") (sample_item !! "official_link"))])) 200,
     sample_db jobs_collection).
Proof.
  assert (Hid : ObjectId_of_string id_7 = Some 7%N) by (vm_compute; reflexivity).
  assert (Hitem : sample_item !! "_id" = Some (VOid 7%N)) by (vm_compute; reflexivity).
  apply (proj2 (apply_content_link (offline_env 0) (member_get []) "job" id_7 id_1
                  jobs_collection 7%N (sample_db jobs_collection) eq_refl eq_refl Hid)
           [] sample_item [] eq_refl ltac:(constructor) Hitem).
Defined.

Lemma find_limit_sources (e : env) (fs : list (string * cond)) (p : projection)
    (n : nat) (docs : list doc) :
  (length (to_list (limit n (find e (QFields fs) p docs))) <= n)%nat
  /\ Forall (fun d => exists src,
               src ∈ docs /\ match_fields e fs src = true /\ d = project p src)
       (to_list (limit n (find e (QFields fs) p docs))).
Proof.
  unfold to_list, limit, find. cbn [matched shown matches]. split.
  - rewrite length_fmap, length_take. lia.
  - apply Forall_fmap, Forall_take, Forall_forall. intros src Hsrc.
    apply list_elem_of_In, filter_In in Hsrc as [Hin Hm].
    exists src. split; [by apply list_elem_of_In|]. by split.
Qed.

Lemma match_fields_cond (e : env) (fs : list (string * cond)) (d : doc)
    (k : string) (c : cond) :
  match_fields e fs d = true -> (k, c) ∈ fs -> match_cond e c (d !! k) = true.
Proof.
  unfold match_fields. rewrite forallb_forall. intros H Hin.
  apply (H (k, c)). by apply list_elem_of_In.
Qed.

Lemma match_ne_oid (e : env) (o : ObjectId) (d : doc) (k : string) :
  match_cond e (CNe (VOid o)) (d !! k) = true -> d !! k <> Some (VOid o).
Proof.
  cbn [match_cond]. unfold match_eq. intros H Hd. rewrite Hd in H.
  by rewrite bool_decide_eq_true_2 in H.
Qed.

(** X17. The related entries of [detail_page], for a logged-in member, a
    known type and a well-formed id: there are at most three, none of them
    is the item viewed (none carries its id), each is a part of a document
    stored in the same collection, none shows the admin reference, and on
    a job page each comes from a job whose [job_type] is that of the job
    viewed.  The page writes nothing. *)
Theorem detail_related_excludes_item (e : env) (r : request)
    (content_type id uid : string) (coll : collection) (oid : ObjectId) (st : db) :
  session_user_id r = Some uid ->
  py_get content_type detail_collection_map = Some coll ->
  ObjectId_of_string id = Some oid ->
  let out := respond (detail_page e r content_type id) st in
  out.2 = st
  /\ (length (template_list "related" out.1) <= 3)%nat
  /\ Forall (fun d =>
       d !! "_id" <> Some (VOid oid)
       /\ d !! "admin_id" = None
       /\ exists src,
            src ∈ st coll /\ d ⊆ src
            /\ (content_type = "job" ->
                forall shown v,
                  shown ∈ template_list "item" out.1 ->
                  shown !! "job_type" = Some v -> v <> VNone ->
                  src !! "job_type" = Some v))
       (template_list "related" out.1).
Proof.
  intros Hu Hmap Hid. cbv zeta. unfold detail_page, login_required, ObjectId_new.
  rewrite Hu, Hmap, Hid. run_handler.
  set (nothing := @nil doc).
  assert (Hnil : forall P : doc -> Prop, (length nothing <= 3)%nat /\ Forall P nothing)
    by (intros P; split; [simpl; lia|constructor]).
  destruct (find_one e (by_field "_id" (VOid oid)) (PExclude ["admin_id"]) (st coll))
    as [item|]; [|cbn; split; [done|apply Hnil]].
  destruct (bool_decide (item = ∅)); [cbn; split; [done|apply Hnil]|].
  destruct (with_time_ago e (time_ago_cache e) item) as [[x|shown] cache];
    [cbn; split; [done|apply Hnil]|].
  cbn [fst snd template_list py_get String.eqb Ascii.eqb Bool.eqb default].
  split; [done|].
  destruct (String.eqb_spec content_type "job") as [Hjob|Hjob].
  - match goal with
    | |- context [find e (QFields ?fs) ?p ?docs] =>
        destruct (find_limit_sources e fs p 3 docs) as [Hlen Hall]
    end.
    split; [exact Hlen|]. eapply Forall_impl; [exact Hall|].
    intros d (src & Hsrc & Hm & ->).
    pose proof (match_fields_cond e _ _ "_id" _ Hm ltac:(in_keys)) as Hne.
    apply match_ne_oid in Hne.
    split; [rewrite project_include_lookup; [done|in_keys]|].
    split; [apply hides_admin_include; not_in_keys|].
    exists src. split; [done|]. split; [apply project_include_subseteq|].
    intros _ shown' v Hin Hv Hnone.
    apply list_elem_of_singleton in Hin as ->.
    pose proof (match_fields_cond e _ _ "job_type" _ Hm ltac:(in_keys)) as Hjt.
    rewrite Hv in Hjt. cbn [match_cond default] in Hjt. unfold match_eq in Hjt.
    destruct (src !! "job_type") as [w|].
    + apply bool_decide_eq_true_1 in Hjt. by subst.
    + apply bool_decide_eq_true_1 in Hjt. done.
  - match goal with
    | |- context [find e (QFields ?fs) ?p ?docs] =>
        destruct (find_limit_sources e fs p 3 docs) as [Hlen Hall]
    end.
    split; [exact Hlen|]. eapply Forall_impl; [exact Hall|].
    intros d (src & Hsrc & Hm & ->).
    pose proof (match_fields_cond e _ _ "_id" _ Hm ltac:(in_keys)) as Hne.
    apply match_ne_oid in Hne.
    split; [rewrite project_include_lookup; [done|in_keys]|].
    split; [apply hides_admin_include; not_in_keys|].
    exists src. split; [done|]. split; [apply project_include_subseteq|]. done.
Qed.

Lemma detail_related_excludes_item_witness :
  (respond (detail_page (offline_env 0) (member_get []) "job" id_7)
     (sample_db jobs_collection)).2 = sample_db jobs_collection.
Proof.
  assert (Hid : ObjectId_of_string id_7 = Some 7%N) by (vm_compute; reflexivity).
  apply (detail_related_excludes_item (offline_env 0) (member_get []) "job" id_7 id_1
           jobs_collection 7%N (sample_db jobs_collection) eq_refl eq_refl Hid).
Defined.


(** ** The ads shown to visitors *)

Lemma publish_ad_public (ad ad' : doc) :
  (forall k, is_Some (ad !! k) -> k ∈ public_ad_fields) ->
  publish_ad ad = ok ad' ->
  (forall k, is_Some (ad' !! k) -> k ∈ public_ad_fields)
  /\ (exists s, ad' !! "_id" = Some (VStr s))
  /\ Forall (fun k => is_Some (ad' !! k)) ["title"; "description"; "image"; "link"].
Proof.
  intros Hkeys. unfold publish_ad, doc_item.
  destruct (ad !! "_id") as [id|]; [|discriminate]. cbn [rbind ok]. cbv zeta.
  assert (Href : <["_id" := VStr (py_str id)]> ad !! "content_reference" = None).
  { rewrite lookup_insert_ne by discriminate.
    destruct (ad !! "content_reference") as [ref|] eqn:Href; [|done].
    exfalso. specialize (Hkeys "content_reference" ltac:(by rewrite Href)).
    assert (Hout : "content_reference" ∉ public_ad_fields)
      by (unfold public_ad_fields; not_in_keys).
    by apply Hout. }
  rewrite Href.
  intros [= <-]. split; [|split].
  - intros k Hk.
    repeat match type of Hk with
           | is_Some (<[_ := _]> _ !! k) =>
               apply lookup_insert_is_Some in Hk as [<-|[_ Hk]];
               [unfold public_ad_fields; in_keys|]
           end.
    by apply Hkeys.
  - exists (py_str id). rewrite !lookup_insert_ne by discriminate.
    apply lookup_insert_eq.
  - repeat constructor; rewrite lookup_insert_is_Some';
      repeat first [by left | right; rewrite lookup_insert_is_Some'].
Qed.

(** X18. [get_ads] always answers 200 with a list and writes nothing.
    Every ad of the list has no field beyond the id, title, description,
    image, link and click count (so neither the admin reference, nor the
    impressions, nor the item it promotes), has its id as text, and has a
    title, a description, an image and a link. *)
Theorem get_ads_public_fields (e : env) (r : request) (st : db) :
  exists ads,
    respond (get_ads e r) st = (Jsonify (JArr ads) 200, st)
    /\ Forall (fun ad =>
         (forall k, is_Some (ad !! k) -> k ∈ public_ad_fields)
         /\ (exists s, ad !! "_id" = Some (VStr s))
         /\ Forall (fun k => is_Some (ad !! k)) ["title"; "description"; "image"; "link"])
         ads.
Proof.
  unfold get_ads. run_handler.
  match goal with
  | |- context [for_each publish_ad ?l] =>
      destruct (for_each publish_ad l) as [x|ads] eqn:Hads
  end.
  - exists []. split; [done|constructor].
  - exists ads. split; [done|].
    eapply (for_each_Forall
              (fun ad => forall k, is_Some (ad !! k) -> k ∈ public_ad_fields));
      [|  |exact Hads].
    + intros ad ad' Hkeys Hpub. exact (publish_ad_public ad ad' Hkeys Hpub).
    + apply Forall_fmap, Forall_forall. intros ad _ k [v Hk].
      cbn [project] in Hk. apply map_lookup_filter_Some in Hk as [_ Hk]. exact Hk.
Qed.

(** ** Pages *)

Lemma page_items_eq (e : env) (content_type : string) (coll : collection)
    (p : Z) (st : db) :
  py_get content_type public_collection_map = Some coll ->
  1 <= p ->
  page_items e content_type p st
  = take 30 (drop (Z.to_nat (30 * (p - 1)))
               (project (PExclude ["admin_id"])
                  <$> merge_sort (descending "posted_at") (st coll))).
Proof.
  intros Hmap Hp. unfold page_items, get_cached_content. rewrite Hmap.
  run_handler. unfold skip, ITEMS_PER_PAGE.
  destruct ((p - 1) * 30 <? 0) eqn:Hneg; [lia|].
  unfold ok, to_list, limit, sort_descending. cbv beta iota.
  cbn [fst snd matched shown].
  rewrite find_everything, fmap_take, fmap_drop. cbn [find shown].
  replace (Z.to_nat 30) with 30%nat by reflexivity.
  by replace ((p - 1) * 30) with (30 * (p - 1)) by lia.
Qed.

(** X19. The pages of a public listing cut the whole listing (the
    documents of the collection, newest first, without the admin
    reference) into consecutive runs: pages 1 to [n] put end to end are
    its first [30 * n] entries, so no document is skipped between two
    pages or shown on two of them; and a page after the last one of the
    pagination is empty. *)
Theorem pages_partition_listing (e : env) (content_type : string) (coll : collection)
    (st : db) :
  py_get content_type public_collection_map = Some coll ->
  let listing :=
    project (PExclude ["admin_id"]) <$> merge_sort (descending "posted_at") (st coll) in
  (forall n : nat,
     concat ((fun p => page_items e content_type (Z.of_nat p) st) <$> seq 1 n)
     = take (30 * n) listing)
  /\ (forall p,
        1 <= p ->
        total_pages (get_pagination_data p (estimated_document_count (st coll))) < p ->
        page_items e content_type p st = []).
Proof.
  intros Hmap. cbv zeta. split.
  - induction n as [|n IH]; [done|].
    rewrite seq_S, fmap_app, concat_app, IH. cbn [fmap list_fmap concat].
    rewrite app_nil_r, (page_items_eq e content_type coll) by (done || lia).
    replace (Z.to_nat (30 * (Z.of_nat (1 + n) - 1))) with (30 * n)%nat by lia.
    rewrite take_take_drop. f_equal. lia.
  - intros p Hp Hlast. rewrite (page_items_eq e content_type coll) by done.
    rewrite drop_ge; [done|].
    rewrite length_fmap, merge_sort_Permutation.
    revert Hlast. unfold get_pagination_data, estimated_document_count, ITEMS_PER_PAGE.
    cbn [total_pages]. intros Hlast.
    assert (Z.of_nat (length (st coll)) <= 30 * (p - 1)); [|lia].
    pose proof (Z.div_mod (Z.of_nat (length (st coll)) + 30 - 1) 30 ltac:(lia)).
    pose proof (Z.mod_pos_bound (Z.of_nat (length (st coll)) + 30 - 1) 30 ltac:(lia)).
    lia.
Qed.

Lemma pages_partition_listing_witness :
  page_items (offline_env 0) "jobs" 2 (sample_db jobs_collection) = [].
Proof.
  apply (proj2 (pages_partition_listing (offline_env 0) "jobs" jobs_collection
                  (sample_db jobs_collection) eq_refl) 2 ltac:(lia)).
  vm_compute. reflexivity.
Defined.

(** X20. A page number below 1 is not refused but crashes: the skip sent
    to the database is negative, the driver raises [ValueError], and the
    public listing, the filter, the user list and the content list of the
    admin all end in that error, with nothing written. *)
Theorem nonpositive_page_raises (e : env) (r : request) (content_type template : string)
    (st : db) :
  args_get_int e "page" 1 r <= 0 ->
  (forall coll,
     py_get content_type public_collection_map = Some coll ->
     respond (listing_page e r content_type template) st = (Failed ValueError, st)
     /\ respond (filter_content e r content_type) st = (Failed ValueError, st))
  /\ (forall uid,
        session_user_id r = Some uid -> session_is_admin r = true ->
        respond (admin_users e r) st = (Failed ValueError, st)
        /\ forall coll,
             py_get content_type admin_collection_map = Some coll ->
             respond (admin_content e r content_type) st = (Failed ValueError, st)).
Proof.
  intros Hpage.
  assert (Hskip : forall cur, skip ((args_get_int e "page" 1 r - 1) * ITEMS_PER_PAGE) cur
                              = raise ValueError).
  { intros cur. unfold skip, ITEMS_PER_PAGE.
    destruct ((args_get_int e "page" 1 r - 1) * 30 <? 0) eqn:Hneg; [done|lia]. }
  split.
  - intros coll Hmap. unfold listing_page, filter_content, get_cached_content.
    rewrite Hmap. run_handler. rewrite !Hskip. done.
  - intros uid Hu Ha. unfold admin_users, admin_content.
    rewrite !(admin_required_pass r uid) by done. split.
    + run_handler. rewrite Hskip. done.
    + intros coll Hmap. rewrite Hmap. run_handler. rewrite Hskip. done.
Qed.

Lemma nonpositive_page_raises_witness :
  respond (jobs (offline_env 0) (visitor [("page", "0")])) (sample_db jobs_collection)
  = (Failed ValueError, sample_db jobs_collection).
Proof.
  assert (Hpage : args_get_int (offline_env 0) "page" 1 (visitor [("page", "0")]) <= 0)
    by (vm_compute; discriminate).
  apply (proj1 (nonpositive_page_raises (offline_env 0) (visitor [("page", "0")])
                  "jobs" "jobs.html" (sample_db jobs_collection) Hpage)
           jobs_collection eq_refl).
Defined.

(** ** Users *)

(** X21. Neither the dashboard of a member nor the user list of the admin
    shows a password: no document they hand to the template has a
    [password] field, whatever the database holds, and they write
    nothing.  For the admin, whose session id is the text [admin], the
    member dashboard ends in the uncaught [InvalidId]. *)
Theorem user_pages_hide_password (e : env) (r : request) (st : db) :
  ((respond (user_dashboard e r) st).2 = st
   /\ Forall (fun d => d !! "password" = None)
        (response_docs (respond (user_dashboard e r) st).1))
  /\ ((respond (admin_users e r) st).2 = st
      /\ Forall (fun d => d !! "password" = None)
           (response_docs (respond (admin_users e r) st).1))
  /\ (session_user_id r = Some "admin" ->
      respond (user_dashboard e r) st = (Failed InvalidId, st)).
Proof.
  split; [|split].
  - unfold user_dashboard, login_required, session_user, ObjectId_new.
    destruct (session_user_id r) as [uid|]; [|split; [done|constructor]].
    run_handler.
    destruct (ObjectId_of_string uid) as [oid|]; [|split; [done|constructor]].
    cbn [fst snd response_docs fmap list_fmap concat]. split; [done|].
    rewrite app_nil_r. unfold find_one, to_list, find. cbn [matched shown].
    destruct (List.filter _ (st users_collection)) as [|u us]; [constructor|].
    cbn [fmap list_fmap head]. repeat constructor. cbn [project foldr].
    apply lookup_delete_eq.
  - unfold admin_users, admin_required.
    destruct (negb (bool_decide (is_Some (session_user_id r))) || negb (session_is_admin r));
      [split; [done|constructor]|].
    run_handler. unfold skip.
    destruct (_ <? 0); [split; [done|constructor]|].
    unfold ok. cbv beta iota.
    cbn [fst snd response_docs fmap list_fmap concat]. split; [done|].
    rewrite app_nil_r. unfold to_list, limit, sort_descending. cbn [matched shown find].
    apply Forall_fmap, Forall_forall. intros u _. cbn [project foldr].
    apply lookup_delete_eq.
  - intros Hu. unfold user_dashboard, login_required, session_user, ObjectId_new.
    rewrite Hu. done.
Qed.


(** ** Search and filter *)

Lemma tag_results_ok (ty : string) (hits results : list doc) :
  Forall has_id hits ->
  exists new,
    tag_results ty hits results = (results ++ new, None)
    /\ length new = length hits
    /\ Forall (tagged ty) new
    /\ Forall2 (tagged_from ty) hits new.
Proof.
  intros Hh. revert results.
  induction Hh as [|d hits [id Hd] _ IH]; intros results; cbn [tag_results].
  - exists []. rewrite app_nil_r. repeat split; constructor.
  - rewrite Hd.
    destruct (IH (results ++ [<["type" := VStr ty]> (<["_id" := VStr (py_str id)]> d)]))
      as (new & Htag & Hlen & Hall & Hfrom).
    exists (<["type" := VStr ty]> (<["_id" := VStr (py_str id)]> d) :: new).
    rewrite Htag, <- app_assoc. split; [done|]. split; [simpl; by rewrite Hlen|].
    split.
    + constructor; [|done]. split.
      * exists (py_str id). rewrite lookup_insert_ne by discriminate.
        apply lookup_insert_eq.
      * apply lookup_insert_eq.
    + constructor; [|done]. by exists id.
Qed.

Lemma matches_any_field (e : env) (query : string) (fields : list string) (d : doc) :
  matches e (QOr ((fun f => [(f, CRegexI query)]) <$> fields)) d
  = field_matches e query fields d.
Proof.
  unfold field_matches. cbn [matches].
  induction fields as [|f fields IH]; [reflexivity|].
  cbn [fmap list_fmap existsb]. rewrite <- IH.
  unfold match_fields at 1. cbn [forallb match_cond fst snd]. by rewrite andb_true_r.
Qed.

Lemma search_in_ok (e : env) (query : string) (coll : collection) (ty : string)
    (fields : list string) (results : list doc) (st : db) :
  text_hits_have_ids e ->
  Forall has_id (st coll) ->
  exists new,
    search_in e query coll ty fields results st = (ok (results ++ new), st)
    /\ (length new <= 5)%nat
    /\ Forall (tagged ty) new
    /\ search_group e query ty fields (text_search e coll query (st coll)) (st coll) new.
Proof.
  intros Hindex Hids. unfold search_in, search_group. run_handler.
  destruct (text_search e coll query (st coll)) as [ranked|] eqn:Htext.
  - match goal with
    | |- context [tag_results ty ?hits results] =>
        destruct (tag_results_ok ty hits results) as (new & Htag & Hlen & Hall & Hfrom)
    end.
    { apply Forall_fmap, Forall_take. eapply Forall_impl; [exact (Hindex _ _ _ _ Htext)|].
      intros ds [id Hid]. exists id. cbn [fst snd].
      rewrite lookup_insert_ne by discriminate.
      by rewrite lookup_delete_ne by discriminate. }
    rewrite Htag. cbn [fst snd]. exists new. split; [done|]. split; [|split; [done|]].
    + rewrite Hlen, length_fmap, length_take. lia.
    + eexists. split; [exact Hfrom|reflexivity].
  - match goal with
    | |- context [tag_results ty ?hits results] =>
        destruct (tag_results_ok ty hits results) as (new & Htag & Hlen & Hall & Hfrom)
    end.
    { unfold to_list, limit, find. cbn [matched shown].
      apply Forall_fmap, Forall_take, Forall_forall. intros d Hd.
      apply list_elem_of_In, filter_In in Hd as [Hd _]. apply list_elem_of_In in Hd.
      rewrite Forall_forall in Hids. destruct (Hids d Hd) as [id Hid].
      exists id. cbn [project foldr]. by rewrite lookup_delete_ne by discriminate. }
    rewrite Htag. cbn [fst snd]. exists new. split; [done|]. split; [|split; [done|]].
    + rewrite Hlen. unfold to_list, limit. cbn [matched shown].
      rewrite length_fmap, length_take. lia.
    + eexists. split; [exact Hfrom|].
      unfold to_list, limit, find. cbn [matched shown].
      rewrite (filter_ext _ _ (matches_any_field e query fields)). reflexivity.
Qed.

(** X22. [search], when the stored documents and the hits of the text
    index carry their ids, always answers 200 with a list and writes
    nothing.  The list is what was found among the jobs, then the
    workshops, the courses and the hackathons, at most five of each (twenty
    in all); every entry has its id as text and says its type.  A blank
    query gives the empty list.  Otherwise what is found in a collection is
    determined by the stripped query: the first five documents the text
    index answers for that collection and query, each with its score and
    without admin reference; or, for a collection without text index, the
    first five stored documents in which the query, read as a pattern with
    case ignored, is found in [company_name], [role] or [job_type] (jobs),
    [name] or [organizer] (workshops, hackathons), [name] or [instructor]
    (courses), each without admin reference. *)
Theorem search_groups_results (e : env) (r : request) (st : db) :
  text_hits_have_ids e ->
  (forall c, Forall has_id (st c)) ->
  let q := strip (default "" (py_get "q" (args r))) in
  exists js ws cs hs,
    respond (search e r) st = (Jsonify (JArr (js ++ ws ++ cs ++ hs)) 200, st)
    /\ Forall (tagged "job") js /\ Forall (tagged "workshop") ws
    /\ Forall (tagged "course") cs /\ Forall (tagged "hackathon") hs
    /\ (length js <= 5 /\ length ws <= 5 /\ length cs <= 5 /\ length hs <= 5)%nat
    /\ (q = "" -> js = [] /\ ws = [] /\ cs = [] /\ hs = [])
    /\ (q <> "" ->
        search_group e q "job" ["company_name"; "role"; "job_type"]
          (text_search e jobs_collection q (st jobs_collection)) (st jobs_collection) js
        /\ search_group e q "workshop" ["name"; "organizer"]
             (text_search e workshops_collection q (st workshops_collection))
             (st workshops_collection) ws
        /\ search_group e q "course" ["name"; "instructor"]
             (text_search e courses_collection q (st courses_collection))
             (st courses_collection) cs
        /\ search_group e q "hackathon" ["name"; "organizer"]
             (text_search e hackathons_collection q (st hackathons_collection))
             (st hackathons_collection) hs).
Proof.
  intros Hindex Hids q. unfold search. fold q.
  destruct (String.eqb_spec q "") as [Hq|Hq].
  - exists [], [], [], []. repeat split; try done; simpl; lia.
  - destruct (search_in_ok e q jobs_collection "job" ["company_name"; "role"; "job_type"]
                [] st Hindex (Hids _)) as (js & Hjs & Hjlen & Hjall & Hjg).
    destruct (search_in_ok e q workshops_collection "workshop" ["name"; "organizer"]
                ([] ++ js) st Hindex (Hids _)) as (ws & Hws & Hwlen & Hwall & Hwg).
    destruct (search_in_ok e q courses_collection "course" ["name"; "instructor"]
                (([] ++ js) ++ ws) st Hindex (Hids _)) as (cs & Hcs & Hclen & Hcall & Hcg).
    destruct (search_in_ok e q hackathons_collection "hackathon" ["name"; "organizer"]
                ((([] ++ js) ++ ws) ++ cs) st Hindex (Hids _))
      as (hs & Hhs & Hhlen & Hhall & Hhg).
    exists js, ws, cs, hs. split.
    + unfold ok in *. unfold respond, bindM.
      rewrite Hjs. cbv beta iota. rewrite Hws. cbv beta iota.
      rewrite Hcs. cbv beta iota. rewrite Hhs. cbv beta iota. unfold pure.
      rewrite app_nil_l, <- !app_assoc. done.
    + split; [done|]. split; [done|]. split; [done|]. split; [done|].
      split; [done|]. split; [done|]. intros _. done.
Qed.

Lemma search_groups_results_witness :
  exists js w cs hs,
    respond (search (literal_env 0) (visitor [("q", " Acme ")]))
      (sample_db workshops_collection)
    = (Jsonify (JArr (js ++ [w] ++ cs ++ hs)) 200, sample_db workshops_collection)
    /\ js = [] /\ cs = [] /\ hs = []
    /\ tagged_from "workshop" (delete "admin_id" sample_item) w.
Proof.
  destruct (search_groups_results (literal_env 0) (visitor [("q", " Acme ")])
              (sample_db workshops_collection))
    as (js & ws & cs & hs & Hresp & _ & _ & _ & _ & _ & _ & Hgroups).
  - intros c q docs ranked Htext. discriminate Htext.
  - assert (Hitem : has_id sample_item) by (eexists; vm_compute; reflexivity).
    assert (Had : has_id sample_ad) by (eexists; vm_compute; reflexivity).
    intros c. destruct c; repeat constructor; assumption.
  - destruct Hgroups as ((hj & Hj & Ej) & (hw & Hw & Ew) & (hc & Hc & Ec) & (hh & Hh & Eh)).
    { vm_compute. discriminate. }
    assert (Ej' : hj = []) by (rewrite Ej; vm_compute; reflexivity).
    assert (Ec' : hc = []) by (rewrite Ec; vm_compute; reflexivity).
    assert (Eh' : hh = []) by (rewrite Eh; vm_compute; reflexivity).
    assert (Ew' : hw = [delete "admin_id" sample_item])
      by (rewrite Ew; vm_compute; reflexivity).
    rewrite Ej' in Hj. rewrite Ec' in Hc. rewrite Eh' in Hh. rewrite Ew' in Hw.
    apply Forall2_nil_inv_l in Hj, Hc, Hh. subst js cs hs.
    apply Forall2_cons_inv_l in Hw as (w & ws' & Hfrom & Hrest & ->).
    apply Forall2_nil_inv_l in Hrest. subst ws'.
    exists [], w, [], []. split; [exact Hresp|]. repeat split. exact Hfrom.
Defined.

Lemma for_each_cached_Forall2 {A B} (f : lru -> A -> result B * lru) (c : lru)
    (l : list A) (l' : list B) :
  (for_each_cached f c l).1 = ok l' ->
  Forall2 (fun a b => exists c0, (f c0 a).1 = ok b) l l'.
Proof.
  revert c l'. induction l as [|a l IH]; intros c l'; cbn [for_each_cached].
  - intros [= <-]. constructor.
  - destruct (f c a) as [[x|b] c1] eqn:Hb; [discriminate|].
    destruct (for_each_cached f c1 l) as [[x|bs] c2] eqn:Hbs; [discriminate|].
    intros [= <-]. constructor.
    + exists c. by rewrite Hb.
    + apply (IH c1). by rewrite Hbs.
Qed.

Lemma publish_item_fields (e : env) (c : lru) (item d : doc) :
  (publish_item e c item).1 = ok d ->
  (exists id, item !! "_id" = Some id /\ d !! "_id" = Some (VStr (py_str id)))
  /\ (exists text, d !! "time_ago" = Some (VStr text))
  /\ forall k, k <> "_id" -> k <> "time_ago" -> d !! k = item !! k.
Proof.
  unfold publish_item, doc_item, raise, ok.
  destruct (item !! "_id") as [id|]; [|discriminate]. cbv beta iota zeta.
  intros (_ & text & ->)%with_time_ago_inserts. split; [|split].
  - exists id. split; [done|]. rewrite lookup_insert_ne by discriminate.
    apply lookup_insert_eq.
  - exists text. apply lookup_insert_eq.
  - intros k Hid Hago. by rewrite !lookup_insert_ne by done.
Qed.

Lemma arg_filter_keeps (r : request) (k field : string) (mk : string -> cond)
    (query : list (string * cond)) (x : string * cond) :
  x ∈ query -> x ∈ arg_filter r k field mk query.
Proof.
  intros Hx. unfold arg_filter. destruct (py_get k (args r)) as [s|]; [|done].
  destruct (negb (String.eqb s "")); [|done]. apply elem_of_app. by left.
Qed.

Lemma arg_filter_adds (r : request) (k field : string) (mk : string -> cond)
    (query : list (string * cond)) (s : string) :
  py_get k (args r) = Some s -> s <> "" -> (field, mk s) ∈ arg_filter r k field mk query.
Proof.
  intros Hk Hs. unfold arg_filter. rewrite Hk.
  destruct (String.eqb_spec s "") as [?|_]; [done|]. cbn [negb].
  apply elem_of_app. right. apply list_elem_of_here.
Qed.

Lemma date_window_keeps (e : env) (r : request) (query : list (string * cond))
    (x : string * cond) :
  x ∈ query -> x ∈ date_window e r query.
Proof.
  intros Hx. unfold date_window. destruct (py_get "date" (args r)) as [s|]; [|done].
  repeat (case_match; [try done; apply elem_of_app; by left|]). done.
Qed.

(** X23. The results of [filter_content] for a known content type: at
    most 30, each made from a document of the collection that satisfies
    every condition of the filter built from the request, with its id as
    text, a [time_ago] text, no admin reference, and every other field
    as stored.  In particular with [date=24h] (or [week], [month]) every
    result was posted within the last 24 hours (7 days, 30 days) of the
    clock, and with a [location] every result has a location text that
    the pattern matches.  The route writes nothing. *)
Theorem filter_results_match (e : env) (r : request) (content_type : string)
    (coll : collection) (st : db) :
  py_get content_type public_collection_map = Some coll ->
  let out := respond (filter_content e r content_type) st in
  out.2 = st
  /\ (length (response_docs out.1) <= 30)%nat
  /\ Forall (fun d => exists src,
       src ∈ st coll
       /\ match_fields e (filter_query e r) src = true
       /\ (exists s, d !! "_id" = Some (VStr s))
       /\ (exists text, d !! "time_ago" = Some (VStr text))
       /\ d !! "admin_id" = None
       /\ (forall k, k ∉ ["_id"; "time_ago"; "admin_id"] -> d !! k = src !! k)
       /\ (forall window,
             (py_get "date" (args r), window)
               ∈ [(Some "24h", hours 24); (Some "week", days 7); (Some "month", days 30)] ->
             exists t, src !! "posted_at" = Some (VTime t) /\ utcnow e - window <= t)
       /\ (forall pat,
             py_get "location" (args r) = Some pat -> pat <> "" ->
             exists loc, src !! "location" = Some (VStr loc)
                         /\ regex_search_i e pat loc = true))
       (response_docs out.1).
Proof.
  intros Hmap. cbv zeta. unfold filter_content. rewrite Hmap.
  change (arg_filter r "experience" "required_experience" (fun s => CEq (VStr s))
            (arg_filter r "job_type" "job_type" (fun s => CEq (VStr s))
               (date_window e r
                  (arg_filter r "price" "price" (fun s => CEq (VStr s))
                     (arg_filter r "location" "location" CRegexI [])))))
    with (filter_query e r).
  run_handler. unfold skip.
  destruct (_ <? 0); [cbn; split; [done|split; [lia|constructor]]|].
  unfold ok. cbv beta iota.
  match goal with
  | |- context [for_each_cached (publish_item e) (time_ago_cache e) ?l] =>
      set (shown_ := l);
      destruct (for_each_cached (publish_item e) (time_ago_cache e) shown_)
        as [[x|results] cache] eqn:Hres
  end; [cbn; split; [done|split; [lia|constructor]]|].
  cbn [fst snd response_docs]. split; [done|].
  assert (Hres' : (for_each_cached (publish_item e) (time_ago_cache e) shown_).1
                  = ok results) by (by rewrite Hres).
  clear Hres. apply for_each_cached_Forall2 in Hres'. rename Hres' into Hres.
  assert (Hlen : (length shown_ <= 30)%nat).
  { subst shown_. unfold to_list, limit. cbn [matched shown].
    rewrite length_fmap, length_take. unfold ITEMS_PER_PAGE. lia. }
  split; [by rewrite <- (Forall2_length _ _ _ Hres)|].
  eapply Forall2_Forall_r; [exact Hres|].
  apply Forall_forall. intros item Hitem d [c0 Hd].
  subst shown_. unfold to_list, limit, sort_descending, find in Hitem.
  cbn [matched shown] in Hitem.
  apply list_elem_of_fmap in Hitem as (src & -> & Hsrc).
  apply subseteq_take, subseteq_drop in Hsrc.
  rewrite merge_sort_Permutation in Hsrc.
  apply list_elem_of_In, filter_In in Hsrc as [Hsrc Hm]. apply list_elem_of_In in Hsrc.
  cbn [matches] in Hm.
  destruct (publish_item_fields e c0 _ d Hd) as ((id & Hid & Hdid) & Hago & Hrest).
  exists src. split; [done|]. split; [done|]. split; [by eexists|]. split; [done|].
  split; [|split; [|split]].
  - rewrite Hrest by discriminate. cbn [project foldr]. apply lookup_delete_eq.
  - intros k Hk. rewrite !not_elem_of_cons in Hk. destruct Hk as (H1 & H2 & H3 & _).
    rewrite Hrest by done. cbn [project foldr]. by rewrite lookup_delete_ne.
  - intros window Hw.
    assert (Hin : ("posted_at", CGte (VTime (utcnow e - window))) ∈ filter_query e r).
    { unfold filter_query. cbv zeta. do 2 apply arg_filter_keeps.
      unfold date_window. rewrite !elem_of_cons in Hw.
      destruct Hw as [[= Hdate <-]|[[= Hdate <-]|[[= Hdate <-]|Hw]]];
        [| | |by apply elem_of_nil in Hw];
        rewrite Hdate; cbn [String.eqb Ascii.eqb Bool.eqb andb];
        apply elem_of_app; right; apply list_elem_of_here. }
    pose proof (match_fields_cond e _ _ _ _ Hm Hin) as Hc. cbn [match_cond] in Hc.
    destruct (src !! "posted_at") as [[| | | |t| |]|]; try discriminate.
    exists t. split; [done|]. by apply Z.leb_le.
  - intros pat Hpat Hne.
    assert (Hin : ("location", CRegexI pat) ∈ filter_query e r).
    { unfold filter_query. cbv zeta. do 2 apply arg_filter_keeps.
      apply date_window_keeps, arg_filter_keeps. by apply arg_filter_adds. }
    pose proof (match_fields_cond e _ _ _ _ Hm Hin) as Hc. cbn [match_cond] in Hc.
    destruct (src !! "location") as [[| | |loc| | |]|]; try discriminate.
    by exists loc.
Qed.

Lemma filter_results_match_witness :
  (respond (filter_content (offline_env 0) (visitor [("date", "week")]) "jobs")
     (sample_db jobs_collection)).2 = sample_db jobs_collection.
Proof.
  apply (filter_results_match (offline_env 0) (visitor [("date", "week")]) "jobs"
           jobs_collection (sample_db jobs_collection) eq_refl).
Defined.


(** ** Where the handlers write *)

Lemma within_pure {A} (cs : list collection) (a : A) : writes_within cs (pure a).
Proof. by intros st c _. Qed.

Lemma within_throw {A} (cs : list collection) (x : exn) : writes_within cs (@throw A x).
Proof. by intros st c _. Qed.

Lemma within_lift {A} (cs : list collection) (r : result A) : writes_within cs (lift r).
Proof. by intros st c _. Qed.

Lemma within_read (cs : list collection) (c : collection) : writes_within cs (read c).
Proof. by intros st c' _. Qed.

Lemma within_write (cs : list collection) (c : collection) (l : list doc) :
  c ∈ cs -> writes_within cs (write c l).
Proof.
  intros Hc st c' Hc'. unfold write. cbn [snd].
  rewrite db_put_other; [done|]. by intros ->.
Qed.

Lemma within_bind {A B} (cs : list collection) (m : M A) (k : A -> M B) :
  writes_within cs m -> (forall a, writes_within cs (k a)) -> writes_within cs (bindM m k).
Proof.
  intros Hm Hk st c Hc. unfold bindM. specialize (Hm st c Hc).
  destruct (m st) as [[x|a] st1]; cbn [snd] in *; [done|].
  by rewrite (Hk a st1 c Hc).
Qed.

Lemma within_try {A} (cs : list collection) (m : M A) (h : exn -> M A) :
  writes_within cs m -> (forall x, writes_within cs (h x)) ->
  writes_within cs (try_except m h).
Proof.
  intros Hm Hh st c Hc. unfold try_except. specialize (Hm st c Hc).
  destruct (m st) as [[x|a] st1]; cbn [snd] in *; [|done].
  by rewrite (Hh x st1 c Hc).
Qed.

Lemma within_insert (cs : list collection) (c : collection) (fresh : ObjectId)
    (d : pydict) :
  c ∈ cs -> writes_within cs (insert_one_in c fresh d).
Proof.
  intros Hc. unfold insert_one_in. apply within_bind; [apply within_read|]. intros docs.
  cbv zeta. apply within_bind; [by apply within_write|]. intros _. apply within_pure.
Qed.

Lemma within_update (cs : list collection) (c : collection) (e : env) (q : query)
    (u : update) :
  c ∈ cs -> writes_within cs (update_one_in c e q u).
Proof.
  intros Hc. unfold update_one_in. apply within_bind; [apply within_read|]. intros docs.
  apply within_bind; [apply within_lift|]. intros res.
  apply within_bind; [by apply within_write|]. intros _. apply within_pure.
Qed.

Lemma within_delete_one (cs : list collection) (c : collection) (e : env) (q : query) :
  c ∈ cs -> writes_within cs (delete_one_in c e q).
Proof.
  intros Hc. unfold delete_one_in. apply within_bind; [apply within_read|]. intros docs.
  by apply within_write.
Qed.

Lemma within_delete_many (cs : list collection) (c : collection) (e : env) (q : query) :
  c ∈ cs -> writes_within cs (delete_many_in c e q).
Proof.
  intros Hc. unfold delete_many_in. apply within_bind; [apply within_read|]. intros docs.
  cbv zeta. apply within_bind; [by apply within_write|]. intros _. apply within_pure.
Qed.

Lemma within_respond (cs : list collection) (m : M response) (st : db) (c : collection) :
  writes_within cs m -> c ∉ cs -> (respond m st).2 c = st c.
Proof.
  intros Hm Hc. unfold respond. specialize (Hm st c Hc).
  by destruct (m st) as [[x|a] st1].
Qed.

(** One step of a proof that a handler writes within [cs]. *)
Ltac within_step :=
  first
    [ apply within_pure
    | apply within_throw
    | apply within_lift
    | apply within_read
    | apply within_insert; in_keys
    | apply within_update; in_keys
    | apply within_delete_one; in_keys
    | apply within_delete_many; in_keys
    | apply within_try; [|intros ?]
    | apply within_bind; [|intros ?]
    | progress cbv zeta
    | match goal with
      | |- writes_within _ (if ?b then _ else _) => destruct b
      | |- writes_within _ (match ?x with _ => _ end) => destruct x
      end ].

Ltac within := repeat within_step.

Lemma upsert_ad_within (e : env) (ct : string) (oid : ObjectId) (ad_data : pydict) :
  writes_within [ads_collection] (upsert_ad e ct oid ad_data).
Proof. unfold upsert_ad. within. Qed.

Lemma admin_collection_known (content_type : string) (coll : collection) :
  py_get content_type admin_collection_map = Some coll ->
  coll <> users_collection /\ coll <> ad_clicks_collection.
Proof.
  unfold admin_collection_map. cbn [py_get].
  repeat (case_match; [intros [= <-]; by split|]). discriminate.
Qed.

(** X24. Where each handler writes, whatever the request, the state and
    the outcome (answer or exception).  The three admin content routes
    write to the collection of the content type and to the ads, and that
    collection is never the users nor the click log; [ad_click] writes
    to the ads and the click log, [ad_impression] to the ads, [register]
    to the users; [login], [logout], the two dashboards, the user and
    content lists of the admin and [apply_content] write nowhere. *)
Theorem handlers_write_within (a : auth_env) (e : env) (r : request)
    (content_type id : string) :
  (forall coll,
     py_get content_type admin_collection_map = Some coll ->
     (coll <> users_collection /\ coll <> ad_clicks_collection)
     /\ writes_within [coll; ads_collection] (admin_add_content e r content_type)
     /\ writes_within [coll; ads_collection] (admin_edit_content e r content_type id)
     /\ writes_within [coll; ads_collection] (admin_delete_content e r content_type id))
  /\ writes_within [ads_collection; ad_clicks_collection] (ad_click e r id)
  /\ writes_within [ads_collection] (ad_impression e r id)
  /\ writes_within [users_collection] (register a e r)
  /\ writes_within [] (login a e r)
  /\ writes_within [] logout
  /\ writes_within [] (user_dashboard e r)
  /\ writes_within [] (admin_dashboard e r)
  /\ writes_within [] (admin_users e r)
  /\ writes_within [] (admin_content e r content_type)
  /\ writes_within [] (apply_content e r content_type id).
Proof.
  split; [|split; [|split; [|split; [|split; [|split; [|split; [|split; [|split;
    [|split]]]]]]]]].
  - intros coll Hmap. split; [by apply (admin_collection_known content_type)|].
    unfold admin_add_content, admin_edit_content, admin_delete_content, admin_required.
    rewrite Hmap. repeat split.
    + within.
    + within; apply upsert_ad_within || idtac.
    + within.
  - unfold ad_click. within.
  - unfold ad_impression. within.
  - unfold register. within.
  - unfold login. within.
  - unfold logout. within.
  - unfold user_dashboard, login_required. within.
  - unfold admin_dashboard, admin_required. within. by intros st c _.
  - unfold admin_users, admin_required. within.
  - unfold admin_content, admin_required. within.
  - unfold apply_content, login_required. within.
Qed.


(** ** Editing an item *)

Lemma respond_bind_ok {A} (m : M A) (k : A -> M response) (st st1 : db) (a : A) :
  m st = (ok a, st1) -> respond (bindM m k) st = respond (k a) st1.
Proof. intros Hm. unfold respond, bindM. by rewrite Hm. Qed.

Lemma update_one_in_run (c : collection) (e : env) (q : query) (u : update)
    (st : db) (n : Z) (items : list doc) :
  update_one e q u (st c) = ok (n, items) ->
  update_one_in c e q u st = (ok n, db_put c items st).
Proof. intros Hup. unfold update_one_in. run_handler. by rewrite Hup. Qed.

Lemma normalize_flag_other (c k : string) (d : pydict) :
  c <> k -> py_get k (normalize_flag c d) = py_get k d.
Proof.
  intros Hne. unfold normalize_flag, to_flag.
  destruct (py_in c d); by rewrite py_get_set_ne.
Qed.

Lemma edit_field_absent (d : pydict) (key k : string) :
  k ∉ ["certification"; "active"; "is_project"] ->
  py_get k d = None -> py_get k (edit_field d key) = None.
Proof.
  intros Hk Hd. rewrite !not_elem_of_cons in Hk. destruct Hk as (H1 & H2 & H3 & _).
  unfold edit_field. destruct (py_item key d) as [| | |s| | |] eqn:Hitem; try done.
  rewrite !normalize_flag_other by done.
  destruct (String.eqb_spec key k) as [->|Hne].
  - unfold py_item, py_get_default in Hitem. by rewrite Hd in Hitem.
  - by rewrite !py_get_set_ne.
Qed.

Lemma edit_loop_absent (ks : list string) (d : pydict) (k : string) :
  k ∉ ["certification"; "active"; "is_project"] ->
  py_get k d = None -> py_get k (foldl edit_field d ks) = None.
Proof.
  intros Hk. revert d. induction ks as [|key ks IH]; intros d Hd; cbn [foldl]; [done|].
  by apply IH, edit_field_absent.
Qed.

Lemma edit_data_absent (e : env) (r : request) (data : pydict) (k : string) :
  edit_content_data e r = ok data ->
  py_get k (form r) = None ->
  k ∉ ["image"; "certification"; "active"; "is_project"; "updated_at"] ->
  py_get k data = None.
Proof.
  intros Hdata Hform Hk. rewrite !not_elem_of_cons in Hk.
  destruct Hk as (Himg & Hc & Ha & Hp & Hu & _).
  unfold edit_content_data in Hdata. cbv zeta in Hdata.
  match type of Hdata with
  | context [split_requirements_field ?d] =>
      assert (Hloop : py_get k d = None);
      [|destruct (split_requirements_field d) as [x|d'] eqn:Hsplit; [discriminate|]]
  end.
  { apply edit_loop_absent;
      [rewrite !not_elem_of_cons; repeat split; try done; apply not_elem_of_nil|].
    match goal with
    | |- py_get k (if py_in "promote_as_ad" ?d then _ else _) = None =>
        set (start := d) in *; assert (Hstart : py_get k start = None)
    end.
    { subst start. destruct (py_get "image" (files r)) as [file|];
        [|by rewrite py_get_form_to_dict, Hform].
      destruct (negb (String.eqb (filename file) ""));
        [|by rewrite py_get_form_to_dict, Hform].
      destruct (truthy (upload_to_cloudinary e file));
        [|by rewrite py_get_form_to_dict, Hform].
      rewrite py_get_set_ne by done. by rewrite py_get_form_to_dict, Hform. }
    destruct (py_in "promote_as_ad" start) eqn:Hin; [|done].
    destruct (String.eqb_spec "promote_as_ad" k) as [<-|Hne].
    - unfold py_in in Hin. by rewrite Hstart in Hin.
    - by rewrite py_get_del_ne. }
  cbn [rbind ok] in Hdata. injection Hdata as <-.
  rewrite py_get_set_ne by done.
  rewrite (py_get_split_requirements _ _ k Hsplit).
  rewrite Hloop. by destruct (String.eqb "requirements" k).
Qed.

Lemma edit_post_state (e : env) (r : request) (content_type id uid : string)
    (coll : collection) (oid : ObjectId) (st : db) :
  session_user_id r = Some uid ->
  session_is_admin r = true ->
  method r = POST ->
  py_get content_type admin_collection_map = Some coll ->
  ObjectId_of_string id = Some oid ->
  exists data n items,
    edit_content_data e r = ok data
    /\ update_one e (by_field "_id" (VOid oid)) (USet data) (st coll) = ok (n, items)
    /\ forall c, c <> ads_collection ->
         (respond (admin_edit_content e r content_type id) st).2 c
         = db_put coll items st c.
Proof.
  intros Hu Ha Hm Hmap Hid.
  destruct (edit_content_data_ok e r) as (data & Hdata & _).
  destruct (update_one_set_ok e (by_field "_id" (VOid oid)) data (st coll))
    as (n & items & Hupd).
  exists data, n, items. split; [done|]. split; [done|]. intros c Hc.
  unfold admin_edit_content, ObjectId_new.
  rewrite (admin_required_pass r uid) by done. rewrite Hmap, Hm, Hdata, Hid.
  rewrite (respond_bind_ok _ _ st st data) by reflexivity.
  rewrite (respond_bind_ok _ _ st st oid) by reflexivity.
  rewrite (respond_bind_ok _ _ st (db_put coll items st) n)
    by (by apply update_one_in_run).
  apply (within_respond [ads_collection]); [|by apply not_elem_of_cons; split;
                                              [|apply not_elem_of_nil]].
  within; apply upsert_ad_within.
Qed.

(** X25. A POST to [admin_edit_content] by the admin, for a content type
    other than the ads and a well-formed id, changes one item at most:
    collections other than the item's and the ads are kept; when no item
    has the id the item's collection is kept as a whole; otherwise only
    the first item with the id changes, it stays in its place, its
    [updated_at] becomes the time of the clock, and every field that the
    form does not name keeps its value, except [image], [certification],
    [active], [is_project] and [updated_at].  This holds also when the
    handler raises after the update. *)
Theorem edit_changes_one_item (e : env) (r : request) (content_type id uid : string)
    (coll : collection) (oid : ObjectId) (st : db) :
  session_user_id r = Some uid ->
  session_is_admin r = true ->
  method r = POST ->
  py_get content_type admin_collection_map = Some coll ->
  coll <> ads_collection ->
  ObjectId_of_string id = Some oid ->
  let out := respond (admin_edit_content e r content_type id) st in
  (forall c, c <> coll -> c <> ads_collection -> out.2 c = st c)
  /\ (none_with "_id" (VOid oid) (st coll) -> out.2 coll = st coll)
  /\ (forall before item after,
        st coll = before ++ item :: after ->
        none_with "_id" (VOid oid) before ->
        item !! "_id" = Some (VOid oid) ->
        exists item',
          out.2 coll = before ++ item' :: after
          /\ item' !! "updated_at" = Some (VTime (utcnow e))
          /\ forall k,
               py_get k (form r) = None ->
               k ∉ ["image"; "certification"; "active"; "is_project"; "updated_at"] ->
               item' !! k = item !! k).
Proof.
  intros Hu Ha Hm Hmap Hne Hid. cbv zeta.
  destruct (edit_post_state e r content_type id uid coll oid st Hu Ha Hm Hmap Hid)
    as (data & n & items & Hdata & Hupd & Hstate).
  split; [|split].
  - intros c Hc Hads. rewrite Hstate by done. by rewrite db_put_other.
  - intros Hnone. rewrite Hstate by done. rewrite db_put_same.
    rewrite (update_one_no_match _ _ _ _ (none_with_no_match e _ _ _ Hnone)) in Hupd.
    by injection Hupd as _ <-.
  - intros before item after Hst Hb Hitem. exists (to_bson data ∪ item).
    rewrite Hstate by done. rewrite db_put_same.
    assert (Hm' : matches e (by_field "_id" (VOid oid)) item = true)
      by (rewrite matches_by_oid; by apply bool_decide_eq_true_2).
    rewrite Hst, (update_one_first e _ (USet data) before after item (to_bson data ∪ item)
                    (none_with_no_match e _ _ _ Hb) Hm' eq_refl) in Hupd.
    injection Hupd as _ <-. split; [done|]. split.
    + apply set_fields_lookup. unfold edit_content_data in Hdata. cbv zeta in Hdata.
      destruct (split_requirements_field _) as [x|d']; [discriminate|].
      cbn [rbind ok] in Hdata. injection Hdata as <-. apply py_get_set_eq.
    + intros k Hform Hk. apply set_fields_lookup_other.
      by apply (edit_data_absent e r).
Qed.

Lemma edit_changes_one_item_witness :
  (respond (admin_edit_content (offline_env 5) (admin_post [("name", "Zen")] []) "jobs" id_1)
     (sample_db jobs_collection)).2 jobs_collection
  = sample_db jobs_collection jobs_collection.
Proof.
  assert (Hid : ObjectId_of_string id_1 = Some 1%N) by (vm_compute; reflexivity).
  assert (Hne : jobs_collection <> ads_collection) by discriminate.
  assert (Hitem : sample_item !! "_id" <> Some (VOid 1%N)) by (vm_compute; discriminate).
  apply (proj1 (proj2 (edit_changes_one_item (offline_env 5)
                         (admin_post [("name", "Zen")] []) "jobs" id_1 "admin"
                         jobs_collection 1%N (sample_db jobs_collection)
                         eq_refl eq_refl eq_refl eq_refl Hne Hid))).
  change (sample_db jobs_collection jobs_collection) with [sample_item].
  by repeat constructor.
Defined.

Lemma find_one_is_Some (e : env) (q : query) (p : projection) (c : list doc) :
  is_Some (find_one e q p c) <-> exists d, d ∈ c /\ matches e q d = true.
Proof.
  unfold find_one, to_list, find. cbn [matched shown]. split.
  - intros [d Hd]. destruct (List.filter (matches e q) c) as [|d0 l] eqn:Hf;
      [discriminate|].
    exists d0. rewrite list_elem_of_In. apply filter_In. rewrite Hf. by left.
  - intros (d & Hd & Hm).
    assert (Hin : In d (List.filter (matches e q) c))
      by (apply filter_In; split; [by apply list_elem_of_In|done]).
    destruct (List.filter (matches e q) c); [done|]. by eexists.
Qed.

(** X26. A GET of [admin_edit_content] by the admin, for a known content
    type and a well-formed id, writes nothing.  When no item has the id
    it ends in the uncaught [TypeError] of assigning to [None]; otherwise
    it shows the first item with the id, whole, with [has_ad] added:
    true exactly when the type is one of jobs, workshops, courses and
    hackathons and some ad refers to the id. *)
Theorem edit_form_shows_item (e : env) (r : request) (content_type id uid : string)
    (coll : collection) (oid : ObjectId) (st : db) :
  session_user_id r = Some uid ->
  session_is_admin r = true ->
  method r = GET ->
  py_get content_type admin_collection_map = Some coll ->
  ObjectId_of_string id = Some oid ->
  (none_with "_id" (VOid oid) (st coll) ->
     respond (admin_edit_content e r content_type id) st = (Failed TypeError, st))
  /\ (forall before item after,
        st coll = before ++ item :: after ->
        none_with "_id" (VOid oid) before ->
        item !! "_id" = Some (VOid oid) ->
        exists has_ad,
          respond (admin_edit_content e r content_type id) st
          = (RenderTemplate "admin_dashboard.html"
               [("item", [<["has_ad" := VBool has_ad]> item])] None, st)
          /\ (has_ad = true <->
              promotable content_type = true
              /\ exists ad, ad ∈ st ads_collection
                            /\ ad !! "content_reference" = Some (VOid oid))).
Proof.
  intros Hu Ha Hm Hmap Hid. unfold admin_edit_content, ObjectId_new.
  rewrite (admin_required_pass r uid) by done. rewrite Hmap, Hm, Hid. split.
  - intros Hnone. run_handler. by rewrite (find_one_none e _ _ _ _ Hnone).
  - intros before item after Hst Hb Hitem. run_handler.
    assert (Hfind : find_one e (by_field "_id" (VOid oid)) PAll (st coll) = Some item)
      by (rewrite Hst; by apply find_one_first).
    rewrite Hfind. eexists. split; [reflexivity|].
    destruct (promotable content_type); [|split; [done|by intros [? _]]].
    rewrite bool_decide_eq_true, find_one_is_Some. split.
    + intros (ad & Had & Hmatch). split; [done|]. exists ad. split; [done|].
      rewrite matches_by_oid in Hmatch. by apply bool_decide_eq_true_1 in Hmatch.
    + intros (_ & ad & Had & Href). exists ad. split; [done|].
      rewrite matches_by_oid. by apply bool_decide_eq_true_2.
Qed.

Lemma edit_form_shows_item_witness :
  respond (admin_edit_content (offline_env 0) admin_get "jobs" id_1)
    (sample_db jobs_collection)
  = (Failed TypeError, sample_db jobs_collection).
Proof.
  assert (Hid : ObjectId_of_string id_1 = Some 1%N) by (vm_compute; reflexivity).
  assert (Hitem : sample_item !! "_id" <> Some (VOid 1%N)) by (vm_compute; discriminate).
  apply (proj1 (edit_form_shows_item (offline_env 0) admin_get "jobs" id_1 "admin"
                  jobs_collection 1%N (sample_db jobs_collection)
                  eq_refl eq_refl eq_refl eq_refl Hid)).
  change (sample_db jobs_collection jobs_collection) with [sample_item].
  by repeat constructor.
Defined.


(** X27. An edit does not check that the item exists.  When the admin
    posts an edit with [promote_as_ad] on, for one of the four promotable
    types and a well-formed id that no item of the collection has and no
    ad refers to, the collection is left as it was, the answer is the
    success message "updated and ad created!", and the ads gain one ad
    that refers to the id of the item that does not exist. *)
Theorem edit_of_missing_item_promotes (e : env) (r : request)
    (content_type id uid : string) (coll : collection) (oid : ObjectId) (st : db) :
  session_user_id r = Some uid ->
  session_is_admin r = true ->
  method r = POST ->
  promotable content_type = true ->
  py_get content_type admin_collection_map = Some coll ->
  promote_flag r = true ->
  ObjectId_of_string id = Some oid ->
  none_with "_id" (VOid oid) (st coll) ->
  none_with "content_reference" (VOid oid) (st ads_collection) ->
  exists st',
    respond (admin_edit_content e r content_type id) st
    = (RedirectTo "admin_content"
         [(capitalize content_type +:+ " updated and ad created!", "success")], st')
    /\ st' coll = st coll
    /\ column "content_reference" (st' ads_collection)
       = column "content_reference" (st ads_collection) ++ [Some (VOid oid)].
Proof.
  intros Hu Ha Hm Hp Hmap Hflag Hid Hnone Hnoad.
  destruct (promotable_collection _ Hp) as (coll' & Hmap' & Hne).
  assert (coll' = coll) as -> by congruence.
  destruct (edit_content_data_ok e r) as (data & Hdata & Hshape).
  destruct (edit_content_ad_data_ok e r content_type uid data oid Hu Hshape)
    as (ad_data & Had & Href & _ & _ & _ & _ & Hnoid).
  pose proof (update_one_no_match e _ (USet data) _ (none_with_no_match e _ _ _ Hnone))
    as Hupd.
  set (ad_data' := py_set "posted_at" (VTime (utcnow e))
                     (py_set "impressions" (VInt 0) (py_set "clicks" (VInt 0) ad_data))).
  destruct (insert_one_spec (new_oid e 0) ad_data' (st ads_collection))
    as (ad & Hins & _ & Hfields).
  exists (db_put ads_collection (st ads_collection ++ [ad]) (db_put coll (st coll) st)).
  split; [|split].
  - unfold admin_edit_content, ObjectId_new.
    rewrite (admin_required_pass r uid) by done. rewrite Hmap, Hm, Hdata, Hid.
    rewrite (respond_bind_ok _ _ st st data) by reflexivity.
    rewrite (respond_bind_ok _ _ st st oid) by reflexivity.
    rewrite (respond_bind_ok _ _ st (db_put coll (st coll) st) 0)
      by (by apply update_one_in_run).
    rewrite Hp, Hflag, Had. run_handler.
    rewrite upsert_ad_inserts by (by rewrite db_put_other by congruence).
    rewrite db_put_other by congruence. fold ad_data'. by rewrite Hins.
  - rewrite db_put_other by done. apply db_put_same.
  - rewrite db_put_same. unfold column. rewrite fmap_app. cbn [fmap list_fmap].
    rewrite Hfields by done. subst ad_data'. by rewrite !py_get_set_ne, Href.
Qed.

Lemma edit_of_missing_item_promotes_witness :
  exists st',
    respond (admin_edit_content (offline_env 5)
               (admin_post [("name", "Zen"); ("promote_as_ad", "on")] []) "jobs" id_1)
      (sample_db jobs_collection)
    = (RedirectTo "admin_content"
         [(capitalize "jobs" +:+ " updated and ad created!", "success")], st')
    /\ st' jobs_collection = sample_db jobs_collection jobs_collection
    /\ column "content_reference" (st' ads_collection)
       = column "content_reference" (sample_db jobs_collection ads_collection)
           ++ [Some (VOid 1%N)].
Proof.
  assert (Hid : ObjectId_of_string id_1 = Some 1%N) by (vm_compute; reflexivity).
  assert (Hitem : sample_item !! "_id" <> Some (VOid 1%N)) by (vm_compute; discriminate).
  assert (Had : sample_ad !! "content_reference" <> Some (VOid 1%N))
    by (vm_compute; discriminate).
  apply (edit_of_missing_item_promotes (offline_env 5)
           (admin_post [("name", "Zen"); ("promote_as_ad", "on")] []) "jobs" id_1 "admin"
           jobs_collection 1%N (sample_db jobs_collection)
           eq_refl eq_refl eq_refl eq_refl eq_refl eq_refl Hid).
  - change (sample_db jobs_collection jobs_collection) with [sample_item].
    by repeat constructor.
  - change (sample_db jobs_collection ads_collection) with [sample_ad].
    by repeat constructor.
Defined.


(** ** Registration and login *)

Lemma dead_not_nullable (r : regex) : dead r = true -> nullable r = false.
Proof.
  induction r as [| |p|a IHa b IHb|a IHa b IHb|a IHa]; cbn [dead nullable]; try done.
  - intros [Ha|Hb]%orb_true_iff.
    + by rewrite (IHa Ha).
    + rewrite (IHb Hb). apply andb_false_r.
  - intros [Ha Hb]%andb_true_iff. by rewrite (IHa Ha), (IHb Hb).
Qed.

Lemma dead_deriv (c : ascii) (r : regex) : dead r = true -> dead (deriv c r) = true.
Proof.
  induction r as [| |p|a IHa b IHb|a IHa b IHb|a IHa]; cbn [dead deriv]; try done.
  - intros [Ha|Hb]%orb_true_iff.
    + rewrite (dead_not_nullable a Ha). cbn [dead]. by rewrite (IHa Ha).
    + destruct (nullable a); cbn [dead]; rewrite ?(IHb Hb), Hb, ?orb_true_r; done.
  - intros [Ha Hb]%andb_true_iff. by rewrite (IHa Ha), (IHb Hb).
Qed.

Lemma dead_no_match (r : regex) (s : string) : dead r = true -> re_fullmatch r s = false.
Proof.
  revert r. induction s as [|c s IH]; intros r Hr; cbn [re_fullmatch].
  - by apply dead_not_nullable.
  - by apply IH, dead_deriv.
Qed.

Lemma deriv_not_allowed (c : ascii) (r : regex) :
  allows r c = false -> dead (deriv c r) = true.
Proof.
  induction r as [| |p|a IHa b IHb|a IHa b IHb|a IHa]; cbn [allows dead deriv]; try done.
  - by intros ->.
  - intros [Ha Hb]%orb_false_iff.
    destruct (nullable a); cbn [dead]; by rewrite (IHa Ha), ?(IHb Hb).
  - intros [Ha Hb]%orb_false_iff. by rewrite (IHa Ha), (IHb Hb).
  - intros Ha. by rewrite (IHa Ha).
Qed.

Lemma allows_deriv (c c' : ascii) (r : regex) :
  allows (deriv c r) c' = true -> allows r c' = true.
Proof.
  induction r as [| |p|a IHa b IHb|a IHa b IHb|a IHa]; cbn [allows deriv]; try done.
  - by destruct (p c).
  - destruct (nullable a); cbn [allows]; rewrite ?orb_true_iff; naive_solver.
  - rewrite !orb_true_iff. naive_solver.
  - rewrite !orb_true_iff. naive_solver.
Qed.

Lemma fullmatch_allows (r : regex) (s : string) (c : ascii) :
  re_fullmatch r s = true -> mentions c s = true -> allows r c = true.
Proof.
  revert r. induction s as [|x s IH]; intros r; cbn [re_fullmatch mentions]; [done|].
  intros Hm [Hx|Hs]%orb_true_iff.
  - apply Ascii.eqb_eq in Hx as ->.
    destruct (allows r c) eqn:Hc; [done|].
    by rewrite (dead_no_match _ s (deriv_not_allowed c r Hc)) in Hm.
  - eapply allows_deriv, IH; done.
Qed.

Lemma only_spec (c x : ascii) (p : ascii -> bool) :
  only c p = true -> p x = true -> x = c.
Proof.
  unfold only. rewrite forallb_forall. intros Hall Hp.
  assert (Hin : In x all_ascii).
  { unfold all_ascii. apply list_elem_of_In, list_elem_of_fmap.
    exists (nat_of_ascii x). split; [by rewrite ascii_nat_embedding|].
    apply list_elem_of_In, in_seq. pose proof (nat_ascii_bounded x). lia. }
  specialize (Hall x Hin). rewrite Hp in Hall. by apply Ascii.eqb_eq.
Qed.

Lemma must_not_nullable (c : ascii) (r : regex) : must c r = true -> nullable r = false.
Proof.
  induction r as [| |p|a IHa b IHb|a IHa b IHb|a IHa]; cbn [must nullable]; try done.
  - intros [Ha|Hb]%orb_true_iff.
    + by rewrite (IHa Ha).
    + rewrite (IHb Hb). apply andb_false_r.
  - intros [Ha Hb]%andb_true_iff. by rewrite (IHa Ha), (IHb Hb).
Qed.

Lemma must_deriv (c x : ascii) (r : regex) :
  x <> c -> must c r = true -> must c (deriv x r) = true.
Proof.
  intros Hx.
  induction r as [| |p|a IHa b IHb|a IHa b IHb|a IHa]; cbn [must deriv]; try done.
  - intros Hp. destruct (p x) eqn:Hpx; [|done]. by destruct (Hx (only_spec c x p Hp Hpx)).
  - intros [Ha|Hb]%orb_true_iff.
    + rewrite (must_not_nullable c a Ha). cbn [must]. by rewrite (IHa Ha).
    + destruct (nullable a); cbn [must]; rewrite ?(IHb Hb), Hb, ?orb_true_r; done.
  - intros [Ha Hb]%andb_true_iff. by rewrite (IHa Ha), (IHb Hb).
Qed.

Lemma must_mentions (c : ascii) (r : regex) (s : string) :
  must c r = true -> re_fullmatch r s = true -> mentions c s = true.
Proof.
  revert r. induction s as [|x s IH]; intros r Hr; cbn [re_fullmatch mentions].
  - by rewrite (must_not_nullable c r Hr).
  - destruct (Ascii.eqb_spec x c) as [->|Hx]; [done|]. cbn [orb].
    by apply IH, must_deriv.
Qed.

Lemma email_alphabet (c : ascii) :
  allows email_pattern c = true ->
  local_char c || Ascii.eqb c "@" || Ascii.eqb c "010" = true.
Proof.
  destruct c as [[] [] [] [] [] [] [] []]; vm_compute; intros H; first [exact H | done].
Qed.

(** X28. What [validate_email] accepts: the text contains an [@], and
    every character of it is a letter, a digit, one of [. _ % + - @], or
    a line feed (the pattern's [$] lets one end the text).  So an
    accepted address has no angle bracket, and [sanitize_input] leaves it
    as it is. *)
Theorem validate_email_shape (email : string) :
  validate_email email = true ->
  mentions "@" email = true
  /\ (forall c, mentions c email = true ->
        local_char c || Ascii.eqb c "@" || Ascii.eqb c "010" = true)
  /\ angle_free email = true
  /\ sanitize_input email = email.
Proof.
  unfold validate_email. intros Hm.
  assert (Hchars : forall c, mentions c email = true ->
            local_char c || Ascii.eqb c "@" || Ascii.eqb c "010" = true).
  { intros c Hc. apply email_alphabet. by apply (fullmatch_allows _ email). }
  assert (Hfree : angle_free email = true).
  { unfold angle_free.
    destruct (mentions "<" email) eqn:Hlt; [by specialize (Hchars _ Hlt)|].
    destruct (mentions ">" email) eqn:Hgt; [by specialize (Hchars _ Hgt)|]. done. }
  split; [|split; [done|split; [done|by apply sanitize_input_fixed]]].
  apply (must_mentions "@" email_pattern); [|done]. vm_compute. reflexivity.
Qed.

Lemma validate_email_shape_witness : sanitize_input "a.b@c-d.org" = "a.b@c-d.org".
Proof.
  apply (validate_email_shape "a.b@c-d.org"). vm_compute. reflexivity.
Defined.

Lemma find_one_Some_source (e : env) (q : query) (p : projection) (c : list doc)
    (seen : doc) :
  find_one e q p c = Some seen ->
  exists d, d ∈ c /\ matches e q d = true /\ seen = project p d.
Proof.
  unfold find_one, to_list, find. cbn [matched shown].
  destruct (List.filter (matches e q) c) as [|d l] eqn:Hf; [discriminate|].
  cbn [fmap list_fmap head]. intros [= <-].
  assert (Hin : In d (List.filter (matches e q) c)) by (rewrite Hf; by left).
  apply filter_In in Hin as [Hin Hm]. exists d. by rewrite list_elem_of_In.
Qed.

Lemma not_found_none_with (e : env) (k : string) (v : value) (c : list doc) :
  v <> VNone ->
  found (find_one e (by_field k v) (PInclude []) c) = false ->
  Forall has_id c ->
  none_with k v c.
Proof.
  intros Hv Hfound Hids. apply Forall_forall. intros d Hd Hk.
  assert (Hm : matches e (by_field k v) d = true)
    by (rewrite matches_by_field by done; by apply bool_decide_eq_true_2).
  destruct (find_one e (by_field k v) (PInclude []) c) as [shown|] eqn:Hfind.
  - apply find_one_Some_source in Hfind as (d' & Hd' & _ & ->).
    cbn [found] in Hfound. apply negb_false_iff, bool_decide_eq_true_1 in Hfound.
    rewrite Forall_forall in Hids. destruct (Hids d' Hd') as [id Hid].
    apply (project_id_only d' id) in Hid. rewrite Hfound in Hid.
    by rewrite lookup_empty in Hid.
  - assert (Hsome : is_Some (find_one e (by_field k v) (PInclude []) c))
      by (apply find_one_is_Some; by exists d).
    rewrite Hfind in Hsome. by destruct Hsome.
Qed.

(** X29. [register] always answers, and either leaves the database as it
    was and the session as it was, or (only for a POST without a session)
    appends exactly one user to the users and logs that user in, never as
    admin.  In that case the address, in lower case and sanitised, passed
    [validate_email], the password has at least 6 characters, what is
    stored under [password] is its hash, the session holds the text of
    the new id, and, when the stored users carry their ids, no user had
    that address before. *)
Theorem register_adds_one_user (a : auth_env) (e : env) (r : request) (st : db) :
  let email := sanitize_input (py_lower e (strip (form_get "email" r))) in
  let password := form_get "password" r in
  exists res,
    (register a e r st).1 = ok res
    /\ match session_after res with
       | Kept => (register a e r st).2 = st
       | Cleared => False
       | Logged_in user_id is_admin username =>
           session_user_id r = None /\ method r = POST
           /\ is_admin = false
           /\ user_id = py_str (VOid (new_oid e 0))
           /\ validate_email email = true
           /\ (6 <= py_len password)%nat
           /\ (Forall has_id (st users_collection) ->
               none_with "email" (VStr email) (st users_collection))
           /\ exists user,
                (register a e r st).2
                = db_put users_collection (st users_collection ++ [user]) st
                /\ user !! "_id" = Some (VOid (new_oid e 0))
                /\ user !! "email" = Some (VStr email)
                /\ user !! "password" = Some (VStr (generate_password_hash a password))
                /\ user !! "created_at" = Some (VTime (utcnow e))
       end.
Proof.
  cbv zeta. unfold register.
  destruct (session_user_id r) as [u|] eqn:Hu.
  { rewrite bool_decide_eq_true_2 by eauto. by eexists. }
  rewrite bool_decide_eq_false_2 by (by intros [? ?]).
  destruct (method r) eqn:Hm; [by eexists|].
  destruct (negb (forallb _ _)); [by eexists|].
  destruct (validate_email _) eqn:Hvalid; cbn [negb]; [|by eexists].
  destruct (_ <? 6)%nat eqn:Hlen; [by eexists|].
  run_handler.
  destruct (found _) eqn:Hfound; [by eexists|].
  eexists. split; [reflexivity|]. cbn [session_after fst snd].
  split; [done|]. split; [done|]. split; [done|]. split; [reflexivity|].
  split; [done|]. split; [by apply Nat.ltb_ge|]. split.
  { by apply (not_found_none_with e). }
  eexists. split; [reflexivity|].
  rewrite !to_bson_lookup. done.
Qed.

(** [login] writes nothing, and a session it opens is backed by the
    credentials. *)
Lemma login_opens_only_checked (a : auth_env) (e : env) (r : request) (st : db) :
  let email := sanitize_input (strip (form_get "email" r)) in
  let password := form_get "password" r in
  (login a e r st).2 = st
  /\ match (login a e r st).1 with
     | inl _ => True
     | inr res =>
         match session_after res with
         | Kept => True
         | Cleared => False
         | Logged_in user_id is_admin username =>
             session_user_id r = None /\ method r = POST
             /\ if is_admin
                then email = ADMIN_USERNAME a /\ password = ADMIN_PASSWORD a
                     /\ user_id = "admin"
                else (email <> ADMIN_USERNAME a \/ password <> ADMIN_PASSWORD a)
                     /\ exists user hash id,
                          user ∈ st users_collection
                          /\ user !! "email" = Some (VStr email)
                          /\ user !! "password" = Some (VStr hash)
                          /\ check_password_hash a hash password = true
                          /\ user !! "_id" = Some id
                          /\ user_id = py_str id
         end
     end.
Proof.
  cbv zeta. unfold login.
  destruct (session_user_id r) as [u|] eqn:Hu.
  { rewrite bool_decide_eq_true_2 by eauto. by split. }
  rewrite bool_decide_eq_false_2 by (by intros [? ?]).
  destruct (method r) eqn:Hm; [by split|].
  destruct (String.eqb_spec (sanitize_input (strip (form_get "email" r)))
              (ADMIN_USERNAME a)) as [Hname|Hname];
    destruct (String.eqb_spec (form_get "password" r) (ADMIN_PASSWORD a)) as [Hpass|Hpass];
    cbn [andb]; [by split|..].
  all: run_handler.
  all: destruct (find_one e _ _ (st users_collection)) as [shown|] eqn:Hfind;
    [|by split].
  all: apply find_one_Some_source in Hfind as (user & Huser & Hmatch & ->).
  all: rewrite matches_by_field in Hmatch by done.
  all: apply bool_decide_eq_true_1 in Hmatch.
  all: destruct (bool_decide (project _ user = ∅)); [by split|].
  all: unfold check_user_password, doc_item, found_item, doc_item.
  all: rewrite !project_include_lookup by in_keys.
  all: destruct (user !! "password") as [[| | |hash| | |]|] eqn:Hhash; try by split.
  all: cbn [rbind ok].
  all: destruct (check_password_hash a hash (form_get "password" r)) eqn:Hcheck;
    [|by split].
  all: destruct (user !! "_id") as [id|] eqn:Hid; [|by split].
  all: destruct (user !! "name") as [name|]; [|by split].
  all: cbn [fst snd session_after]; split; [done|]; split; [done|]; split; [done|].
  all: split; [tauto|]; exists user, hash, id; done.
Qed.

Lemma none_with_unmatched (e : env) (k : string) (v : value) (c : list doc) :
  v <> VNone -> none_with k v c ->
  Forall (fun d => matches e (by_field k v) d = false) c.
Proof.
  intros Hv H. eapply Forall_impl; [exact H|].
  intros d Hd. rewrite matches_by_field by done. by apply bool_decide_eq_false_2.
Qed.

Lemma find_one_none_with (e : env) (k : string) (v : value) (p : projection)
    (c : list doc) :
  v <> VNone -> none_with k v c -> find_one e (by_field k v) p c = None.
Proof.
  intros Hv H. unfold find_one, to_list, find. cbn [matched shown].
  by rewrite (filter_no_match _ _ (none_with_unmatched e _ _ _ Hv H)).
Qed.

Lemma find_one_first_with (e : env) (k : string) (v : value) (p : projection)
    (before after : list doc) (d : doc) :
  v <> VNone -> none_with k v before -> d !! k = Some v ->
  find_one e (by_field k v) p (before ++ d :: after) = Some (project p d).
Proof.
  intros Hv Hb Hd. unfold find_one, to_list, find. cbn [matched shown].
  rewrite (filter_first_match _ _ _ _ (none_with_unmatched e _ _ _ Hv Hb)); [done|].
  rewrite matches_by_field by done. by apply bool_decide_eq_true_2.
Qed.

Lemma login_admin (a : auth_env) (e : env) (r : request) (st : db) :
  session_user_id r = None -> method r = POST ->
  sanitize_input (strip (form_get "email" r)) = ADMIN_USERNAME a ->
  form_get "password" r = ADMIN_PASSWORD a ->
  exists res,
    (login a e r st).1 = ok res
    /\ session_after res = Logged_in "admin" true (VStr "Admin").
Proof.
  intros Hu Hm Hname Hpass. unfold login. rewrite Hu, Hm.
  rewrite bool_decide_eq_false_2 by (by intros [? ?]).
  rewrite Hname, Hpass, !String.eqb_refl. cbn [andb]. by eexists.
Qed.

Lemma login_member (a : auth_env) (e : env) (r : request) (st : db) :
  session_user_id r = None -> method r = POST ->
  sanitize_input (strip (form_get "email" r)) <> ADMIN_USERNAME a
  \/ form_get "password" r <> ADMIN_PASSWORD a ->
  (none_with "email" (VStr (sanitize_input (strip (form_get "email" r))))
     (st users_collection) ->
   exists res, (login a e r st).1 = ok res /\ session_after res = Kept)
  /\ forall before user after hash id name,
       st users_collection = before ++ user :: after ->
       none_with "email" (VStr (sanitize_input (strip (form_get "email" r)))) before ->
       user !! "email" = Some (VStr (sanitize_input (strip (form_get "email" r)))) ->
       user !! "password" = Some (VStr hash) ->
       user !! "_id" = Some id ->
       user !! "name" = Some name ->
       exists res,
         (login a e r st).1 = ok res
         /\ session_after res
            = if check_password_hash a hash (form_get "password" r)
              then Logged_in (py_str id) false name
              else Kept.
Proof.
  intros Hu Hm Hnot.
  assert (Htest : String.eqb (sanitize_input (strip (form_get "email" r)))
                    (ADMIN_USERNAME a)
                  && String.eqb (form_get "password" r) (ADMIN_PASSWORD a) = false).
  { apply andb_false_iff. destruct Hnot as [H|H]; [left|right]; by apply String.eqb_neq. }
  split.
  - intros Hnone. unfold login. rewrite Hu, Hm, Htest.
    rewrite bool_decide_eq_false_2 by (by intros [? ?]).
    run_handler. rewrite (find_one_none_with e) by done. by eexists.
  - intros before user after hash id name Hst Hbefore Hemail Hhash Hid Hname.
    unfold login. rewrite Hu, Hm, Htest.
    rewrite bool_decide_eq_false_2 by (by intros [? ?]).
    run_handler. rewrite Hst, (find_one_first_with e) by done.
    rewrite bool_decide_eq_false_2.
    2:{ intros Hempty.
        assert (Hl : project (PInclude ["password"; "name"]) user !! "_id" = Some id)
          by (rewrite project_include_lookup by in_keys; done).
        rewrite Hempty, lookup_empty in Hl. discriminate. }
    unfold check_user_password, found_item, doc_item.
    rewrite !project_include_lookup by in_keys. rewrite Hhash, Hid, Hname.
    cbn [rbind ok]. destruct (check_password_hash a hash (form_get "password" r));
      by eexists.
Qed.

(** X30. [login] never writes, and it opens a session only for a POST
    without a session, in one of two ways: as admin, with the session id
    [admin], exactly when the sanitised address and the password are the
    configured admin credentials; or, these not being the credentials
    given, as a member, exactly when the first stored user with that
    address has a password hash that the password checks against, the
    session id being the text of that user's id.  A stored user is never
    logged in as admin, and with no stored user of that address no session
    is opened.  (The stored user is taken to have a text as password, an id
    and a name; the address is stripped and sanitised, not lower-cased.) *)
Theorem login_checks_credentials (a : auth_env) (e : env) (r : request) (st : db) :
  let email := sanitize_input (strip (form_get "email" r)) in
  let password := form_get "password" r in
  (login a e r st).2 = st
  /\ match (login a e r st).1 with
     | inl _ => True
     | inr res =>
         match session_after res with
         | Kept => True
         | Cleared => False
         | Logged_in user_id is_admin username =>
             session_user_id r = None /\ method r = POST
             /\ if is_admin
                then email = ADMIN_USERNAME a /\ password = ADMIN_PASSWORD a
                     /\ user_id = "admin"
                else (email <> ADMIN_USERNAME a \/ password <> ADMIN_PASSWORD a)
                     /\ exists user hash id,
                          user ∈ st users_collection
                          /\ user !! "email" = Some (VStr email)
                          /\ user !! "password" = Some (VStr hash)
                          /\ check_password_hash a hash password = true
                          /\ user !! "_id" = Some id
                          /\ user_id = py_str id
         end
     end
  /\ (session_user_id r = None -> method r = POST ->
      email = ADMIN_USERNAME a -> password = ADMIN_PASSWORD a ->
      exists res,
        (login a e r st).1 = ok res
        /\ session_after res = Logged_in "admin" true (VStr "Admin"))
  /\ (session_user_id r = None -> method r = POST ->
      email <> ADMIN_USERNAME a \/ password <> ADMIN_PASSWORD a ->
      (none_with "email" (VStr email) (st users_collection) ->
       exists res, (login a e r st).1 = ok res /\ session_after res = Kept)
      /\ forall before user after hash id name,
           st users_collection = before ++ user :: after ->
           none_with "email" (VStr email) before ->
           user !! "email" = Some (VStr email) ->
           user !! "password" = Some (VStr hash) ->
           user !! "_id" = Some id ->
           user !! "name" = Some name ->
           exists res,
             (login a e r st).1 = ok res
             /\ session_after res
                = if check_password_hash a hash password
                  then Logged_in (py_str id) false name
                  else Kept).
Proof.
  cbv zeta.
  destruct (login_opens_only_checked a e r st) as [Hst Hsound].
  split; [exact Hst|]. split; [exact Hsound|]. split.
  - apply login_admin.
  - apply login_member.
Qed.

Lemma login_checks_credentials_witness :
  let r := visitor_post [("email", " ann@example.org"); ("password", "secret")] in
  let st := db_put users_collection [sample_user] empty_db in
  session_user_id r = None /\ method r = POST
  /\ sanitize_input (strip (form_get "email" r)) = "ann@example.org"
  /\ st users_collection = [] ++ sample_user :: []
  /\ exists res,
       (login sample_auth (offline_env 0) r st).1 = ok res
       /\ session_after res = Logged_in id_1 false (VStr "Ann").
Proof.
  cbv zeta.
  assert (Hmail : sanitize_input (strip (form_get "email"
             (visitor_post [("email", " ann@example.org"); ("password", "secret")])))
           = "ann@example.org") by (vm_compute; reflexivity).
  split; [reflexivity|]. split; [reflexivity|]. split; [exact Hmail|].
  split; [reflexivity|].
  destruct (login_checks_credentials sample_auth (offline_env 0)
              (visitor_post [("email", " ann@example.org"); ("password", "secret")])
              (db_put users_collection [sample_user] empty_db))
    as (_ & _ & _ & Hmember).
  destruct (Hmember eq_refl eq_refl) as [_ Hfirst].
  { left. rewrite Hmail. discriminate. }
  destruct (Hfirst [] sample_user [] "terces" (VOid 1%N) (VStr "Ann"))
    as (res & Hres & Hsession).
  - reflexivity.
  - constructor.
  - rewrite Hmail. vm_compute. reflexivity.
  - vm_compute. reflexivity.
  - vm_compute. reflexivity.
  - vm_compute. reflexivity.
  - exists res. split; [exact Hres|]. rewrite Hsession. vm_compute. reflexivity.
Defined.

